(** * quickchart-cloudflare: session actor, request normalizer and dispatch
      gateway of [src/index.js], embedded in Rocq.

    The worker is JavaScript.  Values are modelled as JSON trees, strings as
    lists of UTF-16 code units, the handler of the Durable Object as a machine
    that is resumed once per [await], and the worker's [fetch] as a function
    from a request to a response. *)

From Stdlib Require Import ZArith NArith List Bool String Ascii Lia.
From Stdlib Require Import DecimalFacts DecimalN.
Import ListNotations.

Set Implicit Arguments.

(* ================================================================== *)
(** * JavaScript values *)

Module JS.
Local Open Scope N_scope.

(** A JavaScript string is a sequence of UTF-16 code units. *)
Definition jsstring := list N.

(** Source literals such as ['options'] are ASCII. *)
Definition js (s : string) : jsstring :=
  map N_of_ascii (list_ascii_of_string s).

Fixpoint str_eqb (a b : jsstring) : bool :=
  match a, b with
  | [], [] => true
  | x :: a', y :: b' => N.eqb x y && str_eqb a' b'
  | _, _ => false
  end.

(** Numbers.  Only integral numbers and [NaN] are embedded: fractions,
    infinities and the rounding of integers beyond 2^53 are IEEE-754
    matters that this development leaves out.  [Int z] is the number [z]
    when the magnitude of [z] is below 2^53, where a double holds every
    integer exactly and prints it in plain digits; [0] also stands for
    [-0], which the program cannot tell from it.  A statement that depends
    on the value or on the text of a number is made within that range
    ([Exact.safe_integer]). *)
Inductive number :=
| NaN
| Int (z : Z).

(** Values that [JSON.parse] builds.  An object is the list of its own
    properties in creation order. *)
Unset Elimination Schemes.
Inductive value :=
| VNull
| VBool (b : bool)
| VNum (n : number)
| VStr (s : jsstring)
| VArr (xs : list value)
| VObj (ps : list (jsstring * value)).
Set Elimination Schemes.

(** A JavaScript expression evaluates to a value or to [undefined]. *)
Definition jsval := option value.
Definition undefined : jsval := None.

Record error := mkError { name : jsstring; message : jsstring }.

Definition TypeError (m : string) := mkError (js "TypeError") (js m).
Definition SyntaxError (m : string) := mkError (js "SyntaxError") (js m).
Definition InvalidCharacterError (m : string) :=
  mkError (js "InvalidCharacterError") (js m).
Definition Error (m : string) := mkError (js "Error") (js m).

(** Evaluating a piece of code returns or throws.  [Unmodelled] marks what
    this embedding leaves out: a fraction read by [JSON.parse], a named
    property written on an array, a [ToNumber] coercion of a string or of
    an object. *)
Inductive outcome (A : Type) :=
| Return (a : A)
| Throw (e : error)
| Unmodelled.
Arguments Return {A} a.
Arguments Throw {A} e.
Arguments Unmodelled {A}.

Definition bind {A B} (m : outcome A) (k : A -> outcome B) : outcome B :=
  match m with
  | Return a => k a
  | Throw e => Throw e
  | Unmodelled => Unmodelled
  end.

(** ** Truthiness and [||] *)

Definition truthy (v : jsval) : bool :=
  match v with
  | None => false
  | Some VNull => false
  | Some (VBool b) => b
  | Some (VNum NaN) => false
  | Some (VNum (Int z)) => negb (Z.eqb z 0%Z)
  | Some (VStr s) => match s with [] => false | _ => true end
  | Some (VArr _) => true
  | Some (VObj _) => true
  end.

(** [a || b] *)
Definition or (a b : jsval) : jsval := if truthy a then a else b.

(** ** Properties

    The property names the program reads and writes ([c], [chart], [w],
    [width], [h], [height], [backgroundColor], [bkg], [encoding], [options],
    [plugins]) are neither array indices nor [length], and no prototype
    defines them, so reading one from a primitive or an array gives
    [undefined]. *)

Fixpoint lookup (ps : list (jsstring * value)) (k : jsstring) : jsval :=
  match ps with
  | [] => None
  | (k', v) :: ps' => if str_eqb k' k then Some v else lookup ps' k
  end.

(** Assigning an own property keeps its place when it exists and appends it
    otherwise. *)
Fixpoint assign (ps : list (jsstring * value)) (k : jsstring) (x : value)
  : list (jsstring * value) :=
  match ps with
  | [] => [(k, x)]
  | (k', v) :: ps' =>
      if str_eqb k' k then (k', x) :: ps' else (k', v) :: assign ps' k x
  end.

(** [v.k] *)
Definition get (v : jsval) (k : jsstring) : outcome jsval :=
  match v with
  | None => Throw (TypeError "Cannot read properties of undefined")
  | Some VNull => Throw (TypeError "Cannot read properties of null")
  | Some (VObj ps) => Return (lookup ps k)
  | Some _ => Return None
  end.

(** [v?.k] *)
Definition get_opt (v : jsval) (k : jsstring) : outcome jsval :=
  match v with
  | None | Some VNull => Return None
  | _ => get v k
  end.

(** [v.k = x] in strict code (an ES module is strict): creating a property
    on a primitive throws. *)
Definition set (v : jsval) (k : jsstring) (x : value) : outcome value :=
  match v with
  | None => Throw (TypeError "Cannot set properties of undefined")
  | Some VNull => Throw (TypeError "Cannot set properties of null")
  | Some (VObj ps) => Return (VObj (assign ps k x))
  | Some (VArr _) => Unmodelled
  | Some _ => Throw (TypeError "Cannot create property")
  end.

(** ** Digits *)

Fixpoint uint_chars (d : Decimal.uint) : jsstring :=
  match d with
  | Decimal.Nil => []
  | Decimal.D0 d => 48 :: uint_chars d
  | Decimal.D1 d => 49 :: uint_chars d
  | Decimal.D2 d => 50 :: uint_chars d
  | Decimal.D3 d => 51 :: uint_chars d
  | Decimal.D4 d => 52 :: uint_chars d
  | Decimal.D5 d => 53 :: uint_chars d
  | Decimal.D6 d => 54 :: uint_chars d
  | Decimal.D7 d => 55 :: uint_chars d
  | Decimal.D8 d => 56 :: uint_chars d
  | Decimal.D9 d => 57 :: uint_chars d
  end.

Definition is_digit (c : N) : bool := (48 <=? c)%N && (c <=? 57)%N.

(** The longest prefix of decimal digits, and what follows it. *)
Fixpoint read_digits (s : jsstring) : Decimal.uint * jsstring :=
  match s with
  | [] => (Decimal.Nil, [])
  | c :: s' =>
      if is_digit c then
        let (d, r) := read_digits s' in
        ((match c with
          | 48 => Decimal.D0 | 49 => Decimal.D1 | 50 => Decimal.D2
          | 51 => Decimal.D3 | 52 => Decimal.D4 | 53 => Decimal.D5
          | 54 => Decimal.D6 | 55 => Decimal.D7 | 56 => Decimal.D8
          | _ => Decimal.D9
          end)%N d, r)
      else (Decimal.Nil, s)
  end.

(** [Number.prototype.toString] on the embedded numbers. *)
Definition Z_chars (z : Z) : jsstring :=
  if (z <? 0)%Z then 45%N :: uint_chars (N.to_uint (Z.abs_N z))
  else uint_chars (N.to_uint (Z.abs_N z)).

Definition number_chars (n : number) : jsstring :=
  match n with
  | NaN => js "NaN"
  | Int z => Z_chars z
  end.

(** ** [ToString] *)

Fixpoint join (sep : jsstring) (l : list jsstring) : jsstring :=
  match l with
  | [] => []
  | [x] => x
  | x :: l' => x ++ sep ++ join sep l'
  end.

Fixpoint toString_value (v : value) : jsstring :=
  match v with
  | VNull => js "null"
  | VBool true => js "true"
  | VBool false => js "false"
  | VNum n => number_chars n
  | VStr s => s
  | VArr xs =>
      (* Array.prototype.join: null elements print as the empty string *)
      join (js ",")
        (map (fun x => match x with VNull => [] | _ => toString_value x end) xs)
  | VObj _ => js "[object Object]"
  end.

Definition toString (v : jsval) : jsstring :=
  match v with
  | None => js "undefined"
  | Some x => toString_value x
  end.

(** ** [ToNumber] and [Math.max]

    [ToNumber] of a string or of an object goes through StringToNumber, which
    is not embedded ([None]). *)

Definition toNumber (v : jsval) : option number :=
  match v with
  | None => Some NaN
  | Some VNull => Some (Int 0)
  | Some (VBool b) => Some (Int (if b then 1 else 0))
  | Some (VNum n) => Some n
  | Some (VStr _) | Some (VArr _) | Some (VObj _) => None
  end.

Definition Math_max (a b : number) : number :=
  match a, b with
  | Int x, Int y => Int (Z.max x y)
  | _, _ => NaN
  end.

(** ** [parseInt(x, 10)] *)

(** WhiteSpace and LineTerminator code units. *)
Definition is_white (c : N) : bool :=
  match c with
  | 9 | 10 | 11 | 12 | 13 | 32 | 160 | 5760 | 8192 | 8193 | 8194 | 8195
  | 8196 | 8197 | 8198 | 8199 | 8200 | 8201 | 8202 | 8232 | 8233 | 8239
  | 8287 | 12288 | 65279 => true
  | _ => false
  end%N.

Fixpoint trim_start (s : jsstring) : jsstring :=
  match s with
  | c :: s' => if is_white c then trim_start s' else s
  | [] => []
  end.

(** [parseInt(x, 10)]: the leading decimal integer of [ToString(x)].  It
    is the program's result when that integer is of magnitude below 2^53
    and, for a number [x], when [x] is; beyond, the program rounds the
    digits to a double and [ToString] prints a number in exponent form. *)
Definition parseInt (x : jsval) : number :=
  let s := trim_start (toString x) in
  let '(neg, s1) :=
    match s with
    | 45 :: r => (true, r)
    | 43 :: r => (false, r)
    | _ => (false, s)
    end%N in
  match read_digits s1 with
  | (Decimal.Nil, _) => NaN
  | (d, _) =>
      let m := Z.of_N (N.of_uint d) in
      Int (if neg then (- m)%Z else m)
  end.

End JS.

(* ================================================================== *)
(** * [btoa] and [atob] *)

Module Base64.
Import JS.
Local Open Scope N_scope.

Definition latin1 (s : jsstring) : bool := forallb (fun c => c <=? 255) s.

(** The base64 alphabet: A-Z, a-z, 0-9, [+], [/]. *)
Definition alphabet (i : N) : N :=
  if i <? 26 then 65 + i
  else if i <? 52 then 71 + i
  else if i <? 62 then i - 4
  else if i =? 62 then 43
  else 47.

Definition sextet (c : N) : option N :=
  if (65 <=? c) && (c <=? 90) then Some (c - 65)
  else if (97 <=? c) && (c <=? 122) then Some (c - 71)
  else if (48 <=? c) && (c <=? 57) then Some (c + 4)
  else if c =? 43 then Some 62
  else if c =? 47 then Some 63
  else None.

Fixpoint encode (s : list N) : jsstring :=
  match s with
  | [] => []
  | [a] => [alphabet (a / 4); alphabet (a mod 4 * 16); 61; 61]
  | [a; b] =>
      [alphabet (a / 4); alphabet (a mod 4 * 16 + b / 16);
       alphabet (b mod 16 * 4); 61]
  | a :: b :: c :: r =>
      alphabet (a / 4) :: alphabet (a mod 4 * 16 + b / 16)
      :: alphabet (b mod 16 * 4 + c / 64) :: alphabet (c mod 64) :: encode r
  end.

(** [btoa(s)]: throws on a code unit above U+00FF. *)
Definition btoa (s : jsstring) : outcome jsstring :=
  if latin1 s then Return (encode s)
  else Throw (InvalidCharacterError
                "The string to be encoded contains characters outside of the Latin1 range.").

Definition is_ascii_white (c : N) : bool :=
  match c with
  | 9 | 10 | 12 | 13 | 32 => true
  | _ => false
  end.

(** One or two [=] at the end are dropped. *)
Fixpoint drop_pad (s : jsstring) : jsstring :=
  match s with
  | [] => []
  | c :: r =>
      if (c =? 61)
         && match r with
            | [] => true
            | [d] => d =? 61
            | _ => false
            end
      then []
      else c :: drop_pad r
  end.

Fixpoint sextets (s : jsstring) : option (list N) :=
  match s with
  | [] => Some []
  | c :: r =>
      match sextet c, sextets r with
      | Some x, Some l => Some (x :: l)
      | _, _ => None
      end
  end.

Definition bad_base64 : error :=
  InvalidCharacterError "The string to be decoded is not correctly encoded.".

(** Four sextets give three bytes; a remainder of two or three sextets gives
    one or two bytes, and a remainder of one is an error. *)
Fixpoint decode (l : list N) : outcome jsstring :=
  match l with
  | [] => Return []
  | [_] => Throw bad_base64
  | [a; b] => Return [a * 4 + b / 16]
  | [a; b; c] => Return [a * 4 + b / 16; b mod 16 * 16 + c / 4]
  | a :: b :: c :: d :: r =>
      bind (decode r) (fun t =>
        Return (a * 4 + b / 16 :: b mod 16 * 16 + c / 4 :: c mod 4 * 64 + d :: t))
  end.

Definition decode_chars (s : jsstring) : outcome jsstring :=
  match sextets s with
  | None => Throw bad_base64
  | Some l => decode l
  end.

(** ASCII whitespace is removed first. *)
Definition strip (s : jsstring) : jsstring :=
  filter (fun c => negb (is_ascii_white c)) s.

(** [atob(x)], the forgiving base64 decoding of [ToString(x)]. *)
Definition atob (x : jsval) : outcome jsstring :=
  let s := strip (toString x) in
  decode_chars
    (if Nat.eqb (Nat.modulo (List.length s) 4) 0 then drop_pad s else s).

End Base64.

(* ================================================================== *)
(** * [JSON.stringify] and [JSON.parse] *)

Module JSON.
Import JS.
Local Open Scope N_scope.

Definition hex_digit (d : N) : N := if d <? 10 then 48 + d else 87 + d.

Definition hex4 (c : N) : jsstring :=
  [hex_digit (c / 4096 mod 16); hex_digit (c / 256 mod 16);
   hex_digit (c / 16 mod 16); hex_digit (c mod 16)].

Definition unicode_escape (c : N) : jsstring := 92 :: 117 :: hex4 c.

Definition is_high (c : N) : bool := (55296 <=? c) && (c <=? 56319).
Definition is_low (c : N) : bool := (56320 <=? c) && (c <=? 57343).

(** QuoteJSONString on one code unit that is not a surrogate. *)
Definition escape (c : N) : jsstring :=
  if c =? 8 then [92; 98]
  else if c =? 9 then [92; 116]
  else if c =? 10 then [92; 110]
  else if c =? 12 then [92; 102]
  else if c =? 13 then [92; 114]
  else if c =? 34 then [92; 34]
  else if c =? 92 then [92; 92]
  else if c <? 32 then unicode_escape c
  else [c].

(** A surrogate pair is copied; a lone surrogate is escaped. *)
Fixpoint quote_chars (s : jsstring) : jsstring :=
  match s with
  | [] => []
  | h :: t =>
      if is_high h then
        match t with
        | l :: t' =>
            if is_low l then h :: l :: quote_chars t'
            else unicode_escape h ++ quote_chars t
        | [] => unicode_escape h
        end
      else if is_low h then unicode_escape h ++ quote_chars t
      else escape h ++ quote_chars t
  end.

Definition quote (s : jsstring) : jsstring := 34 :: quote_chars s ++ [34].

(** [JSON.stringify(v)] without indentation.  [NaN] prints as [null]. *)
Fixpoint stringify (v : value) : jsstring :=
  match v with
  | VNull => js "null"
  | VBool true => js "true"
  | VBool false => js "false"
  | VNum NaN => js "null"
  | VNum (Int z) => Z_chars z
  | VStr s => quote s
  | VArr xs => 91 :: join [44] (map stringify xs) ++ [93]
  | VObj ps =>
      123 :: join [44]
               (map (fun p => match p with
                              | (k, x) => quote k ++ 58 :: stringify x
                              end) ps) ++ [125]
  end.

Definition is_json_white (c : N) : bool :=
  (c =? 9) || (c =? 10) || (c =? 13) || (c =? 32).

Fixpoint skip_ws (s : jsstring) : jsstring :=
  match s with
  | c :: s' => if is_json_white c then skip_ws s' else s
  | [] => []
  end.

Definition hex_value (c : N) : option N :=
  if (48 <=? c) && (c <=? 57) then Some (c - 48)
  else if (97 <=? c) && (c <=? 102) then Some (c - 87)
  else if (65 <=? c) && (c <=? 70) then Some (c - 55)
  else None.

Definition bad_json (m : string) : error := SyntaxError m.

(** The character that an escape letter stands for. *)
Definition unescape (e : N) : option N :=
  match e with
  | 34 => Some 34
  | 92 => Some 92
  | 47 => Some 47
  | 98 => Some 8
  | 102 => Some 12
  | 110 => Some 10
  | 114 => Some 13
  | 116 => Some 9
  | _ => None
  end.

(** One more character in front of the string that [r] reads. *)
Definition consed (c : N) (r : outcome (jsstring * jsstring))
  : outcome (jsstring * jsstring) :=
  bind r (fun p => Return (c :: fst p, snd p)).

(** The characters of a string literal after its opening quote, and what
    follows the closing quote. *)
Fixpoint parse_string (s : jsstring) : outcome (jsstring * jsstring) :=
  let cons := consed in
  match s with
  | [] => Throw (bad_json "Unterminated string in JSON")
  | c :: r =>
      if c =? 34 then Return ([], r)
      else if c =? 92 then
        match r with
        | [] => Throw (bad_json "Unterminated string in JSON")
        | e :: r1 =>
            if e =? 117 then
              match r1 with
              | h1 :: h2 :: h3 :: h4 :: r2 =>
                  match hex_value h1, hex_value h2, hex_value h3, hex_value h4 with
                  | Some a, Some b, Some c, Some d =>
                      cons (((a * 16 + b) * 16 + c) * 16 + d) (parse_string r2)
                  | _, _, _, _ => Throw (bad_json "Bad Unicode escape in JSON")
                  end
              | _ => Throw (bad_json "Bad Unicode escape in JSON")
              end
            else
              match unescape e with
              | Some c' => cons c' (parse_string r1)
              | None => Throw (bad_json "Bad escaped character in JSON")
              end
        end
      else if c <? 32 then
        Throw (bad_json "Bad control character in string literal in JSON")
      else cons c (parse_string r)
  end.

(** A fraction or an exponent follows the digits. *)
Definition starts_fraction (s : jsstring) : bool :=
  match s with
  | c :: _ => (c =? 46) || (c =? 101) || (c =? 69)
  | [] => false
  end.

(** A digit string that JSON refuses: a zero before other digits. *)
Definition leading_zero (d : Decimal.uint) : bool :=
  match d with
  | Decimal.D0 Decimal.Nil => false
  | Decimal.D0 _ => true
  | _ => false
  end.

(** An optional minus sign. *)
Definition split_sign (s : jsstring) : bool * jsstring :=
  match s with
  | c :: r => if c =? 45 then (true, r) else (false, s)
  | [] => (false, s)
  end.

(** A number literal: [-]? then [0] or a digit string without leading zero.
    A fraction or an exponent leaves the embedding. *)
Definition parse_digits (neg : bool) (s : jsstring)
  : outcome (value * jsstring) :=
  let '(d, rest) := read_digits s in
  match d with
  | Decimal.Nil => Throw (bad_json "No number after minus sign in JSON")
  | _ =>
      if leading_zero d then Throw (bad_json "Unexpected number in JSON")
      else if starts_fraction rest then Unmodelled
      else
        let m := Z.of_N (N.of_uint d) in
        Return (VNum (Int (if neg then (- m)%Z else m)), rest)
  end.

Definition parse_number (s : jsstring) : outcome (value * jsstring) :=
  let '(neg, s1) := split_sign s in
  parse_digits neg s1.

Definition unexpected : error := bad_json "Unexpected token in JSON".

(** The literals [null], [true] and [false]. *)
Definition parse_literal (s : jsstring) : outcome (value * jsstring) :=
  match s with
  | 110 :: 117 :: 108 :: 108 :: r => Return (VNull, r)
  | 116 :: 114 :: 117 :: 101 :: r => Return (VBool true, r)
  | 102 :: 97 :: 108 :: 115 :: 101 :: r => Return (VBool false, r)
  | _ => Throw unexpected
  end.

(** The next character, after whitespace, is [c]. *)
Definition next_is (c : N) (s : jsstring) : bool :=
  match skip_ws s with
  | d :: _ => d =? c
  | [] => false
  end.

(** Recursive descent; [fuel] bounds the nesting of calls and is taken
    larger than the text by [parse_text]. *)
Fixpoint parse_value (fuel : nat) (s : jsstring) : outcome (value * jsstring) :=
  match fuel with
  | O => Unmodelled
  | S f =>
      match skip_ws s with
      | [] => Throw (bad_json "Unexpected end of JSON input")
      | c :: r =>
          if c =? 34 then
            bind (parse_string r) (fun p => Return (VStr (fst p), snd p))
          else if c =? 91 then
            if next_is 93 r then Return (VArr [], tl (skip_ws r))
            else bind (parse_elements f r) (fun p => Return (VArr (fst p), snd p))
          else if c =? 123 then
            if next_is 125 r then Return (VObj [], tl (skip_ws r))
            else bind (parse_members f [] r) (fun p => Return (VObj (fst p), snd p))
          else if (c =? 45) || is_digit c then parse_number (c :: r)
          else parse_literal (c :: r)
      end
  end

with parse_elements (fuel : nat) (s : jsstring)
  : outcome (list value * jsstring) :=
  match fuel with
  | O => Unmodelled
  | S f =>
      bind (parse_value f s) (fun p =>
        match skip_ws (snd p) with
        | 44 :: r =>
            bind (parse_elements f r) (fun q => Return (fst p :: fst q, snd q))
        | 93 :: r => Return ([fst p], r)
        | _ => Throw unexpected
        end)
  end

with parse_members (fuel : nat) (acc : list (jsstring * value)) (s : jsstring)
  : outcome (list (jsstring * value) * jsstring) :=
  match fuel with
  | O => Unmodelled
  | S f =>
      match skip_ws s with
      | 34 :: r =>
          bind (parse_string r) (fun k =>
            match skip_ws (snd k) with
            | 58 :: r1 =>
                bind (parse_value f r1) (fun p =>
                  (* CreateDataProperty: a repeated key overwrites *)
                  let acc' := assign acc (fst k) (fst p) in
                  match skip_ws (snd p) with
                  | 44 :: r2 => parse_members f acc' r2
                  | 125 :: r2 => Return (acc', r2)
                  | _ => Throw unexpected
                  end)
            | _ => Throw unexpected
            end)
      | _ => Throw unexpected
      end
  end.

(** [JSON.parse(text)].  A call of [parse_value] on an opening bracket or
    brace uses two units of fuel for that one character, and no call uses
    more: twice the length of the text is enough. *)
Definition parse_text (s : jsstring) : outcome value :=
  bind (parse_value (2 * List.length s + 2)%nat s) (fun p =>
    match skip_ws (snd p) with
    | [] => Return (fst p)
    | _ => Throw unexpected
    end).

(** [JSON.parse(x)] applies [ToString] to its argument first. *)
Definition parse (x : jsval) : outcome value := parse_text (toString x).

(** What a value is once serialized: [NaN] has become [null]. *)
Fixpoint scrub (v : value) : value :=
  match v with
  | VNum NaN => VNull
  | VArr xs => VArr (map scrub xs)
  | VObj ps => VObj (map (fun p => (fst p, scrub (snd p))) ps)
  | _ => v
  end.

(** No [NaN] inside. *)
Fixpoint finite (v : value) : bool :=
  match v with
  | VNum NaN => false
  | VArr xs => forallb finite xs
  | VObj ps => forallb (fun p => finite (snd p)) ps
  | _ => true
  end.

Fixpoint fresh_keys (ks : list jsstring) : bool :=
  match ks with
  | [] => true
  | k :: ks' => negb (existsb (str_eqb k) ks') && fresh_keys ks'
  end.

(** Every object inside has its property names distinct, as every
    JavaScript object has. *)
Fixpoint distinct_keys (v : value) : bool :=
  match v with
  | VArr xs => forallb distinct_keys xs
  | VObj ps =>
      fresh_keys (map fst ps) && forallb (fun p => distinct_keys (snd p)) ps
  | _ => true
  end.

End JSON.

Declare Scope js_scope.
Delimit Scope js_scope with js.
Notation "x <- m ;; k" := (JS.bind m (fun x => k))
  (at level 61, m at next level, right associativity) : js_scope.

(* ================================================================== *)
(** * Request normalizer: [parseChartParameters], [decodeChartConfig],
      [applyChartOptions] *)

Module Normalizer.
Import JS.
Local Open Scope js_scope.

(** What the handlers read of a [Request] and of its parsed [URL]. *)
Record Request := mkRequest {
  method : jsstring;
  pathname : jsstring;
  searchParams : list (jsstring * jsstring);
  body : jsstring
}.

(** [await request.json()] *)
Definition request_json (request : Request) : outcome value :=
  JSON.parse_text (body request).

(** [params.get(name)]: the first value of that name, or [null]. *)
Fixpoint params_get (params : list (jsstring * jsstring)) (name : jsstring)
  : jsval :=
  match params with
  | [] => Some VNull
  | (k, v) :: rest =>
      if str_eqb k name then Some (VStr v) else params_get rest name
  end.

Record Options := mkOptions {
  width : jsval;
  height : jsval;
  backgroundColor : jsval;
  encoding : jsval
}.

(** [let options = {}] *)
Definition no_options : Options := mkOptions None None None None.

Definition parseChartParameters (request : Request)
  : outcome (jsval * Options) :=
  if str_eqb (method request) (js "POST") then
    body <- request_json request ;;
    c <- get (Some body) (js "c") ;;
    chart <- get (Some body) (js "chart") ;;
    w <- get (Some body) (js "w") ;;
    width <- get (Some body) (js "width") ;;
    h <- get (Some body) (js "h") ;;
    height <- get (Some body) (js "height") ;;
    backgroundColor <- get (Some body) (js "backgroundColor") ;;
    bkg <- get (Some body) (js "bkg") ;;
    encoding <- get (Some body) (js "encoding") ;;
    Return (or c chart,
            mkOptions (or w width) (or h height) (or backgroundColor bkg)
                      (or encoding (Some (VStr (js "url")))))
  else if str_eqb (method request) (js "GET") then
    let params := searchParams request in
    Return (or (params_get params (js "c")) (params_get params (js "chart")),
            mkOptions
              (or (params_get params (js "w")) (params_get params (js "width")))
              (or (params_get params (js "h")) (params_get params (js "height")))
              (or (params_get params (js "backgroundColor"))
                  (params_get params (js "bkg")))
              (or (params_get params (js "encoding")) (Some (VStr (js "url")))))
  else Return (undefined, no_options).

(** [encoding === 'base64'] *)
Definition is_base64 (encoding : jsval) : bool :=
  match encoding with
  | Some (VStr s) => str_eqb s (js "base64")
  | _ => false
  end.

Definition decodeChartConfig (chart encoding : jsval) : outcome jsval :=
  if is_base64 encoding then
    decoded <- Base64.atob chart ;;
    v <- JSON.parse (Some (VStr decoded)) ;;
    Return (Some v)
  else
    match chart with
    | Some (VStr _) => v <- JSON.parse chart ;; Return (Some v)
    | _ => Return chart
    end.

(** [target.k1.k = x].  The object held by [target.k1] is mutated in place,
    so [target] shows the new property in the same slot. *)
Definition set_in (target : jsval) (k1 k : jsstring) (x : value)
  : outcome jsval :=
  inner <- get target k1 ;;
  inner' <- set inner k x ;;
  target' <- set target k1 inner' ;;
  Return (Some target').

Definition applyChartOptions (chartConfig : jsval) (options : Options)
  : outcome jsval :=
  (* if (!chartConfig.options) chartConfig.options = {}; *)
  o <- get chartConfig (js "options") ;;
  chartConfig <-
    (if truthy o then Return chartConfig
     else c <- set chartConfig (js "options") (VObj []) ;; Return (Some c)) ;;
  (* if (options.width) chartConfig.options.width = parseInt(options.width, 10); *)
  chartConfig <-
    (if truthy (width options) then
       set_in chartConfig (js "options") (js "width")
              (VNum (parseInt (width options)))
     else Return chartConfig) ;;
  chartConfig <-
    (if truthy (height options) then
       set_in chartConfig (js "options") (js "height")
              (VNum (parseInt (height options)))
     else Return chartConfig) ;;
  (* chartConfig.options.plugins = chartConfig.options.plugins || {};
     chartConfig.options.plugins.backgroundColor = options.backgroundColor; *)
  match backgroundColor options with
  | Some colour =>
      if truthy (Some colour) then
        opts <- get chartConfig (js "options") ;;
        plugins <- get opts (js "plugins") ;;
        opts <- set opts (js "plugins")
                  (match or plugins (Some (VObj [])) with
                   | Some p => p
                   | None => VObj []
                   end) ;;
        plugins <- get (Some opts) (js "plugins") ;;
        plugins <- set plugins (js "backgroundColor") colour ;;
        opts <- set (Some opts) (js "plugins") plugins ;;
        chartConfig <- set chartConfig (js "options") opts ;;
        Return (Some chartConfig)
      else Return chartConfig
  | None => Return chartConfig
  end.

End Normalizer.

(* ================================================================== *)
(** * Responses and headers *)

Module Http.
Import JS.
Local Open Scope N_scope.

Definition lower (c : N) : N :=
  if (65 <=? c) && (c <=? 90) then c + 32 else c.

(** Header names are case-insensitive: [Headers] keeps them in lower case. *)
Definition header_name (s : jsstring) : jsstring := map lower s.

Definition Headers := list (jsstring * jsstring).

(** [new Headers({ name: value, ... })] *)
Definition headers_of (l : list (jsstring * jsstring)) : Headers :=
  map (fun p => (header_name (fst p), snd p)) l.

Fixpoint lookup_name (hs : Headers) (n : jsstring) : option jsstring :=
  match hs with
  | [] => None
  | (k, v) :: hs' => if str_eqb k n then Some v else lookup_name hs' n
  end.

Fixpoint replace_name (hs : Headers) (n v : jsstring) : Headers :=
  match hs with
  | [] => [(n, v)]
  | (k, x) :: hs' =>
      if str_eqb k n then (k, v) :: hs' else (k, x) :: replace_name hs' n v
  end.

(** [headers.get(name)] *)
Definition headers_get (hs : Headers) (name : jsstring) : option jsstring :=
  lookup_name hs (header_name name).

(** [headers.set(name, value)] *)
Definition headers_set (hs : Headers) (name v : jsstring) : Headers :=
  replace_name hs (header_name name) v.

Record Response := mkResponse {
  status : Z;
  headers : Headers;
  body : list N
}.

End Http.

(* ================================================================== *)
(** * The session actor: class [BrowserSession] *)

Module Session.
Import JS Http.
Local Open Scope Z_scope.

(** The fields of the Durable Object, and the alarm that its storage holds
    ([this.state.storage.setAlarm]).  [browser] and [page] are [null] or a
    handle of the rendering engine. *)
Record State := mkState {
  browser : option nat;
  page : option nat;
  lastUsed : Z;
  requestCount : Z;
  alarm_time : option Z
}.

(** [constructor(state, env)] at time [now]. *)
Definition constructor (now : Z) : State := mkState None None now 0 None.

(** Who called [cleanup]: the [catch] of [fetch], which rethrows, or
    [alarm]. *)
Inductive caller :=
| Rethrow (e : error)
| FromAlarm.

(** The [await] at which a handler is suspended, by source line. *)
Inductive pc :=
| AwaitJson                        (* 85  request.json() *)
| AwaitLaunch                      (* 145 puppeteer.launch *)
| AwaitNewPage                     (* 146 browser.newPage *)
| AwaitDefaultViewport             (* 149 page.setViewport 800x600 *)
| AwaitSetContent                  (* 154 page.setContent *)
| AwaitChartJs                     (* 155 page.waitForFunction *)
| AwaitInterception                (* 158 page.setRequestInterception *)
| AwaitViewport (w h : number)     (* 176 page.setViewport *)
| AwaitEvaluate                    (* 182 page.evaluate *)
| AwaitReady                       (* 191 page.waitForFunction *)
| AwaitCanvas                      (* 197 page.$ *)
| AwaitCapture                     (* 201 canvas.screenshot *)
| AwaitPageClose (k : caller)      (* 214 page.close *)
| AwaitBrowserClose (k : caller)   (* 218 browser.close *)
| AwaitSetAlarm                    (* 232 storage.setAlarm *)
| Returned (r : Response)
| Thrown (e : error)
| AlarmReturned.

(** A suspended handler: where it waits and its local variables. *)
Record Thread := mkThread {
  at_ : pc;
  chart : jsval;
  startTime : Z;
  mark : Z;                (* initStart, updateStart or screenshotStart *)
  initialization : Z;
  chartUpdate : Z
}.

Definition goto (t : Thread) (p : pc) : Thread :=
  mkThread p (chart t) (startTime t) (mark t) (initialization t) (chartUpdate t).

(** How an awaited promise settles. *)
Inductive payload :=
| Nothing
| Json (v : value)
| Handle (h : nat)
| Element (h : option nat)
| Result (v : jsval)
| Png (bytes : list N).

Inductive settlement :=
| Fulfilled (v : payload)
| Rejected (e : error).

Definition finish (k : caller) : pc :=
  match k with
  | Rethrow e => Thrown e
  | FromAlarm => AlarmReturned
  end.

(** [cleanup()], up to its first [await]. *)
Definition cleanup (k : caller) (s : State) (t : Thread) : State * Thread :=
  match page s, browser s with
  | Some _, _ => (s, goto t (AwaitPageClose k))
  | None, Some _ => (s, goto t (AwaitBrowserClose k))
  | None, None =>
      (mkState None None (lastUsed s) 0 (alarm_time s), goto t (finish k))
  end.

(** [cleanup()] after [page.close()] has settled (a rejection is caught). *)
Definition cleanup_page_closed (k : caller) (s : State) (t : Thread)
  : State * Thread :=
  let s := mkState (browser s) None (lastUsed s) (requestCount s) (alarm_time s) in
  match browser s with
  | Some _ => (s, goto t (AwaitBrowserClose k))
  | None => (mkState None None (lastUsed s) 0 (alarm_time s), goto t (finish k))
  end.

(** [cleanup()] after [browser.close()] has settled. *)
Definition cleanup_browser_closed (k : caller) (s : State) (t : Thread)
  : State * Thread :=
  (mkState None (page s) (lastUsed s) 0 (alarm_time s), goto t (finish k)).

(** The [catch] block of [fetch]. *)
Definition catch (e : error) (s : State) (t : Thread) : State * Thread :=
  cleanup (Rethrow e) s t.

(** A method call on [this.page]; [this.page] may have been reset to
    [null] by a [cleanup] that ran while this handler was suspended. *)
Definition on_page (s : State) (t : Thread) (next : pc) : State * Thread :=
  match page s with
  | Some _ => (s, goto t next)
  | None => catch (TypeError "Cannot read properties of null") s t
  end.

(** [updateChart], lines 173-174: [chartConfig.options?.width || 500] and
    [chartConfig.options?.height || 300]. *)
Definition dimensions (chartConfig : jsval) : outcome (jsval * jsval) :=
  (o <- get chartConfig (js "options") ;;
   w <- get_opt o (js "width") ;;
   h <- get_opt o (js "height") ;;
   Return (or w (Some (VNum (Int 500))), or h (Some (VNum (Int 300)))))%js.

(** Lines 176-179: [Math.max(width, 100)] and [Math.max(height, 100)]. *)
Definition viewport (wh : jsval * jsval) : option (number * number) :=
  match toNumber (fst wh), toNumber (snd wh) with
  | Some a, Some b => Some (Math_max a (Int 100), Math_max b (Int 100))
  | _, _ => None
  end.

(** Lines 107-112 and [updateChart] up to [page.setViewport]. *)
Definition after_init (now : Z) (s : State) (t : Thread)
  : option (State * Thread) :=
  let s := mkState (browser s) (page s) now (requestCount s + 1) (alarm_time s) in
  let t := mkThread (at_ t) (chart t) (startTime t) now (initialization t)
                    (chartUpdate t) in
  match dimensions (chart t) with
  | Return wh =>
      match page s with
      | Some _ =>
          match viewport wh with
          | Some (w, h) => Some (s, goto t (AwaitViewport w h))
          | None => None
          end
      | None => Some (catch (TypeError "Cannot read properties of null") s t)
      end
  | Throw e => Some (catch e s t)
  | Unmodelled => None
  end.

(** Entering the [try] of [fetch] with the request's [chart]. *)
Definition enter (chart : jsval) (now : Z) (s : State)
  : option (State * Thread) :=
  match browser s, page s with
  | Some _, Some _ =>
      after_init now s (mkThread AwaitJson chart now now 0 0)
  | _, _ => Some (s, mkThread AwaitLaunch chart now now 0 0)
  end.

Definition ok_response (s : State) (t : Thread) (now : Z) (png : list N)
  : Response :=
  mkResponse 200
    (headers_of
       [(js "Content-Type", js "image/png");
        (js "X-Browser-Reused",
           if 1 <? requestCount s then js "true" else js "false");
        (js "X-Request-Count", Z_chars (requestCount s));
        (js "X-Init-Time", Z_chars (initialization t));
        (js "X-Update-Time", Z_chars (chartUpdate t));
        (js "X-Screenshot-Time", Z_chars (now - mark t));
        (js "X-Total-Time", Z_chars (now - startTime t))])
    png.

(** A handler is resumed at time [now] by the settlement of the promise it
    awaits and runs to its next [await] or to its end.  [None]: the handler
    has ended, the settlement is not one that the awaited call produces, or
    a coercion is not embedded. *)
Definition resume (now : Z) (ev : settlement) (s : State) (t : Thread)
  : option (State * Thread) :=
  match at_ t, ev with
  | AwaitJson, Fulfilled (Json b) =>
      match get (Some b) (js "chart") with
      | Return c => enter c now s
      | Throw e => Some (s, goto t (Thrown e))
      | Unmodelled => None
      end
  | AwaitJson, Rejected e => Some (s, goto t (Thrown e))
  | AwaitLaunch, Fulfilled (Handle b) =>
      Some (mkState (Some b) (page s) (lastUsed s) (requestCount s) (alarm_time s),
            goto t AwaitNewPage)
  | AwaitNewPage, Fulfilled (Handle p) =>
      Some (mkState (browser s) (Some p) (lastUsed s) (requestCount s) (alarm_time s),
            goto t AwaitDefaultViewport)
  | AwaitDefaultViewport, Fulfilled Nothing => Some (on_page s t AwaitSetContent)
  | AwaitSetContent, Fulfilled Nothing => Some (on_page s t AwaitChartJs)
  | AwaitChartJs, Fulfilled Nothing => Some (on_page s t AwaitInterception)
  | AwaitInterception, Fulfilled Nothing =>
      (* this.page.on('request', ...), then back in fetch *)
      match page s with
      | Some _ =>
          after_init now s
            (mkThread (at_ t) (chart t) (startTime t) (mark t) (now - mark t)
                      (chartUpdate t))
      | None => Some (catch (TypeError "Cannot read properties of null") s t)
      end
  | AwaitViewport _ _, Fulfilled Nothing => Some (on_page s t AwaitEvaluate)
  | AwaitEvaluate, Fulfilled (Result success) =>
      if truthy success then Some (on_page s t AwaitReady)
      else Some (catch (Error "Failed to update chart") s t)
  | AwaitReady, Fulfilled Nothing =>
      Some (on_page s
              (mkThread (at_ t) (chart t) (startTime t) now (initialization t)
                        (now - mark t))
              AwaitCanvas)
  | AwaitCanvas, Fulfilled (Element (Some _)) => Some (s, goto t AwaitCapture)
  | AwaitCanvas, Fulfilled (Element None) =>
      Some (catch (TypeError "Cannot read properties of null") s t)
  | AwaitCapture, Fulfilled (Png bytes) =>
      Some (s, goto t (Returned (ok_response s t now bytes)))
  | (AwaitLaunch | AwaitNewPage | AwaitDefaultViewport | AwaitSetContent
    | AwaitChartJs | AwaitInterception | AwaitViewport _ _ | AwaitEvaluate
    | AwaitReady | AwaitCanvas | AwaitCapture), Rejected e =>
      Some (catch e s t)
  | AwaitPageClose k, _ => Some (cleanup_page_closed k s t)
  | AwaitBrowserClose k, _ => Some (cleanup_browser_closed k s t)
  | AwaitSetAlarm, Fulfilled Nothing => Some (s, goto t AlarmReturned)
  | AwaitSetAlarm, Rejected e => Some (s, goto t (Thrown e))
  | _, _ => None
  end.

(** A handler that starts, with its local variables not yet set. *)
Definition starting (p : pc) : Thread := mkThread p None 0 0 0 0.

(** A request arrives: [fetch] starts and suspends on [request.json()]. *)
Definition fetch_start : Thread := starting AwaitJson.

(** The runtime fires the alarm that is due; [alarm()] runs to its first
    [await].  No alarm is delivered when none is set. *)
Definition alarm (now : Z) (s : State) : option (State * Thread) :=
  match alarm_time s with
  | Some due =>
      if due <=? now then
        let s := mkState (browser s) (page s) (lastUsed s) (requestCount s) None in
        let idleTime := now - lastUsed s in
        if 5 * 60 * 1000 <? idleTime then
          Some (cleanup FromAlarm s (starting AlarmReturned))
        else
          Some (mkState (browser s) (page s) (lastUsed s) (requestCount s)
                        (Some (now + 60000)),
                starting AwaitSetAlarm)
      else None
  | None => None
  end.

Definition finished (t : Thread) : bool :=
  match at_ t with
  | Returned _ | Thrown _ | AlarmReturned => true
  | _ => false
  end.

(** One handler alone, resumed by its settlements in turn until it ends. *)
Fixpoint run (evs : list (Z * settlement)) (s : State) (t : Thread)
  : option (State * Thread) :=
  if finished t then Some (s, t)
  else
    match evs with
    | [] => Some (s, t)
    | (now, ev) :: evs' =>
        match resume now ev s t with
        | Some (s', t') => run evs' s' t'
        | None => None
        end
    end.

(** A [render]: the [try] of [fetch] on a request whose body gave [chart],
    run alone. *)
Definition render (chart : jsval) (now : Z) (evs : list (Z * settlement))
  (s : State) : option (State * Thread) :=
  match enter chart now s with
  | Some (s', t) => run evs s' t
  | None => None
  end.

(** [fetch(request)] run alone from the arrival of the request: the body is
    read, then the handler is resumed by [evs] until it ends.  The result is
    the response, or what the handler threw. *)
Definition fetch (request : Normalizer.Request) (now : Z)
  (evs : list (Z * settlement)) (s : State)
  : option (State * outcome Response) :=
  match
    match Normalizer.request_json request with
    | Return v => run ((now, Fulfilled (Json v)) :: evs) s fetch_start
    | Throw e => run ((now, Rejected e) :: evs) s fetch_start
    | Unmodelled => None
    end
  with
  | Some (s', t) =>
      match at_ t with
      | Returned r => Some (s', Return r)
      | Thrown e => Some (s', Throw e)
      | _ => None
      end
  | None => None
  end.

(** The stub of the Durable Object as the worker sees it. *)
Definition stub (now : Z) (evs : list (Z * settlement)) (s : State)
  (request : Normalizer.Request) : outcome Response :=
  match fetch request now evs s with
  | Some (_, o) => o
  | None => Unmodelled
  end.

End Session.

(* ================================================================== *)
(** * The dispatch gateway: the worker's [fetch] *)

Module Gateway.
Import JS Http Normalizer.
Local Open Scope js_scope.

(** [env]: the [DEBUG] toggle and the stub of the [main-session] Durable
    Object, whose [fetch] resolves to a response or rejects with what the
    object threw. *)
Record Env := mkEnv {
  DEBUG : jsval;
  stub_fetch : Request -> outcome Response
}.

(** Lines 355-358: the new value of [globalThis.__warmedUp] and whether a
    warm-up is handed to [ctx.waitUntil]. *)
Definition warmup_once (warmedUp : bool) : bool * bool :=
  if warmedUp then (true, false) else (true, true).

Definition liveness_text : jsstring :=
  js "QuickChart Worker (Optimized with Browser Reuse)".

Definition json_headers : Headers :=
  headers_of [(js "Content-Type", js "application/json")].

Definition missing_chart : Response :=
  mkResponse 400 json_headers
    (JSON.stringify
       (VObj [(js "error",
               VStr (js "Missing chart configuration (use c or chart parameter)"))])).

Definition invalid_chart (error : JS.error) : Response :=
  mkResponse 400 json_headers
    (JSON.stringify
       (VObj [(js "error", VStr (js "Invalid chart configuration"));
              (js "details", VStr (message error))])).

Definition internal_error (error : JS.error) (requestId : jsstring) : Response :=
  mkResponse 500 json_headers
    (JSON.stringify
       (VObj [(js "error", VStr (message error));
              (js "requestId", VStr requestId)])).

(** [new Response('Not Found', ...)]: a body that is a string brings its
    [Content-Type] when the headers give none. *)
Definition not_found (requestId : jsstring) : Response :=
  mkResponse 404
    (headers_of [(js "X-Request-ID", requestId);
                 (js "Content-Type", js "text/plain;charset=UTF-8")])
    (js "Not Found").

(** [headers.get(name) || '0'] *)
Definition get_or_zero (hs : Headers) (name : jsstring) : jsstring :=
  match headers_get hs name with
  | Some (c :: s) => c :: s
  | _ => js "0"
  end.

(** [env.DEBUG === '1' || env.DEBUG === 1] *)
Definition isDebug (env : Env) : bool :=
  match DEBUG env with
  | Some (VStr s) => str_eqb s (js "1")
  | Some (VNum (Int 1)) => true
  | _ => false
  end.

Definition server_timing (hs : Headers) (totalTime : Z) : jsstring :=
  join (js ", ")
    [js "browser;dur=" ++ get_or_zero hs (js "X-Init-Time")
       ++ js ";desc=" ++ 34%N :: js "Browser Init" ++ [34%N];
     js "update;dur=" ++ get_or_zero hs (js "X-Update-Time")
       ++ js ";desc=" ++ 34%N :: js "Chart Update" ++ [34%N];
     js "screenshot;dur=" ++ get_or_zero hs (js "X-Screenshot-Time")
       ++ js ";desc=" ++ 34%N :: js "Screenshot" ++ [34%N];
     js "render;dur=" ++ get_or_zero hs (js "X-Total-Time")
       ++ js ";desc=" ++ 34%N :: js "Total Render" ++ [34%N];
     js "worker;dur=" ++ Z_chars totalTime
       ++ js ";desc=" ++ 34%N :: js "Worker Total" ++ [34%N]].

(** The body of the Durable Object request: [JSON.stringify({ chart })]. *)
Definition doRequest (chartConfig : jsval) : Request :=
  mkRequest (js "POST") (js "/chart") []
    (JSON.stringify
       (VObj (match chartConfig with
              | Some c => [(js "chart", c)]
              | None => []
              end))).

(** Lines 427-470: the response of the Durable Object with the worker's
    headers added. *)
Definition decorate (env : Env) (requestId : jsstring) (totalTime : Z)
  (response : Response) : Response :=
  let hs := headers_set (headers response) (js "X-Worker-Time") (Z_chars totalTime) in
  let hs := headers_set hs (js "X-Request-ID") requestId in
  let hs :=
    if isDebug env
    then headers_set hs (js "Server-Timing") (server_timing hs totalTime)
    else hs in
  mkResponse (status response) hs (Http.body response).

(** The [try] block, lines 367-476.  [startTime] and [endTime] are the two
    readings of [Date.now()]. *)
Definition route (request : Request) (env : Env) (requestId : jsstring)
  (startTime endTime : Z) : outcome Response :=
  if str_eqb (pathname request) (js "/")
     || str_eqb (pathname request) (js "/health")
  then
    Return (mkResponse 200
              (headers_of [(js "Content-Type", js "text/plain");
                           (js "X-Request-ID", requestId)])
              liveness_text)
  else if str_eqb (pathname request) (js "/chart") then
    p <- parseChartParameters request ;;
    let chart := fst p in
    let options := snd p in
    if negb (truthy chart) then Return missing_chart
    else
      match (c <- decodeChartConfig chart (encoding options) ;;
             applyChartOptions c options) with
      | Throw error => Return (invalid_chart error)
      | Unmodelled => Unmodelled
      | Return chartConfig =>
          response <- stub_fetch env (doRequest chartConfig) ;;
          Return (decorate env requestId (endTime - startTime) response)
      end
  else Return (not_found requestId).

(** [fetch(request, env, ctx)] after the warm-up check: the [try] and its
    [catch], lines 367-489.  [requestId] is [crypto.randomUUID()]. *)
Definition fetch (request : Request) (env : Env) (requestId : jsstring)
  (startTime endTime : Z) : outcome Response :=
  match route request env requestId startTime endTime with
  | Throw error => Return (internal_error error requestId)
  | r => r
  end.

End Gateway.

(* ================================================================== *)
(** * Vocabulary of the properties *)

Module Routes.
Import JS Http Normalizer Gateway.

(** The route table as the specification words it: [GET|HEAD] on [/] and
    [/health], [GET|POST] on [/chart]. *)
Definition in_route_table (request : Request) : bool :=
  ((str_eqb (method request) (js "GET") || str_eqb (method request) (js "HEAD"))
   && (str_eqb (pathname request) (js "/")
       || str_eqb (pathname request) (js "/health")))
  || ((str_eqb (method request) (js "GET") || str_eqb (method request) (js "POST"))
      && str_eqb (pathname request) (js "/chart")).

Definition has_status (o : outcome Response) (code : Z) : Prop :=
  exists r, o = Return r /\ status r = code.

(** [response.headers.get('X-Request-ID')] *)
Definition request_id_header (r : Response) : option jsstring :=
  headers_get (headers r) (js "X-Request-ID").

End Routes.

(** Substring test, for what a response body lets through. *)
Module Text.
Import JS.

Fixpoint starts_with (s p : jsstring) : bool :=
  match p, s with
  | [], _ => true
  | c :: p', d :: s' => N.eqb c d && starts_with s' p'
  | _ :: _, [] => false
  end.

(** [s.includes(p)] *)
Fixpoint includes (s p : jsstring) : bool :=
  starts_with s p
  || match s with
     | [] => false
     | _ :: s' => includes s' p
     end.

End Text.

(** Concrete requests, environments and engine behaviours. *)
Module Examples.
Import JS Http Normalizer Gateway.

(** A stub that answers every request in the same way. *)
Definition constant_env (o : outcome Response) : Env := mkEnv None (fun _ => o).

Definition post_health : Request := mkRequest (js "POST") (js "/health") [] [].
Definition put_chart : Request := mkRequest (js "PUT") (js "/chart") [] [].
Definition get_favicon : Request := mkRequest (js "GET") (js "/favicon.ico") [] [].

Definition get_chart (params : list (jsstring * jsstring)) : Request :=
  mkRequest (js "GET") (js "/chart") params [].

(** The chart of scenario 1 of the specification. *)
Definition bar_chart : value :=
  VObj [(js "type", VStr (js "bar"));
        (js "data",
         VObj [(js "labels", VArr [VStr (js "A"); VStr (js "B")]);
               (js "datasets",
                VArr [VObj [(js "data", VArr [VNum (Int 1); VNum (Int 2)])]])])].

(** POST [/chart] with body [{ chart: bar_chart, ...fields }]. *)
Definition post_chart (fields : list (jsstring * value)) : Request :=
  mkRequest (js "POST") (js "/chart") []
    (JSON.stringify (VObj ((js "chart", bar_chart) :: fields))).

Import Session.

(** The engine starts: the six awaits of [initializeBrowser] succeed. *)
Definition engine_starts : list (Z * settlement) :=
  [(100, Fulfilled (Handle 1)); (200, Fulfilled (Handle 2));
   (210, Fulfilled Nothing); (300, Fulfilled Nothing);
   (900, Fulfilled Nothing); (910, Fulfilled Nothing)]%Z.

(** The chart is drawn and captured [d] milliseconds later. *)
Definition chart_renders (d : Z) : list (Z * settlement) :=
  [(d + 5, Fulfilled Nothing); (d + 20, Fulfilled (Result (Some (VBool true))));
   (d + 30, Fulfilled Nothing); (d + 35, Fulfilled (Element (Some 3%nat)));
   (d + 90, Fulfilled (Png [137; 80; 78; 71]%N))]%Z.

(** [window.updateChart] reports failure; the page and the browser are then
    closed by [cleanup]. *)
Definition update_fails (d : Z) : list (Z * settlement) :=
  [(d + 5, Fulfilled Nothing); (d + 20, Fulfilled (Result (Some (VBool false))));
   (d + 25, Fulfilled Nothing); (d + 30, Fulfilled Nothing)]%Z.

Definition timeout : error := mkError (js "TimeoutError") (js "Waiting failed: 5000ms exceeded").

(** The completion flag is not raised within 5000 ms. *)
Definition render_times_out (d : Z) : list (Z * settlement) :=
  [(d + 5, Fulfilled Nothing); (d + 20, Fulfilled (Result (Some (VBool true))));
   (d + 5020, Rejected timeout);
   (d + 5025, Fulfilled Nothing); (d + 5030, Fulfilled Nothing)]%Z.

(** A worker in front of a fresh session whose engine behaves as [evs]. *)
Definition env_with (evs : list (Z * settlement)) : Env :=
  mkEnv None (Session.stub 0 evs (Session.constructor 0)).

End Examples.

(** Reading a chart configuration. *)
Module Shape.
Import JS.

(** What [v || {}] holds: the properties of [v] when [v] is an object,
    none when [v] is absent or falsy.  A truthy [v] that is no object has
    no such reading. *)
Definition as_map (v : jsval) : option (list (jsstring * value)) :=
  match v with
  | Some (VObj m) => Some m
  | _ => if truthy v then None else Some []
  end.

End Shape.

(** A chart that brings options of its own, and options as a query string
    gives them. *)
Module NormalizerExamples.
Import JS Normalizer.

Definition styled_chart : list (jsstring * value) :=
  [(js "type", VStr (js "line"));
   (js "data", VObj [(js "labels", VArr [VStr (js "Q1")])]);
   (js "options",
    VObj [(js "scales", VObj [(js "y", VObj [(js "min", VNum (Int 0))])]);
          (js "height", VNum (Int 250));
          (js "plugins", VObj [(js "legend", VBool false)])])].

Definition styled_options : list (jsstring * value) :=
  [(js "scales", VObj [(js "y", VObj [(js "min", VNum (Int 0))])]);
   (js "height", VNum (Int 250));
   (js "plugins", VObj [(js "legend", VBool false)])].

Definition wide_white : Options :=
  mkOptions (Some (VStr (js "400"))) (Some VNull) (Some (VStr (js "white")))
            (Some (VStr (js "url"))).

End NormalizerExamples.

(** Several renders on one session key, and handlers that interleave. *)
Module Actor.
Import JS Http Session.
Local Open Scope Z_scope.

(** The awaits of steps 1-4 of [render]: engine initialization, chart
    update, image capture. *)
Definition engine_await (p : pc) : bool :=
  match p with
  | AwaitLaunch | AwaitNewPage | AwaitDefaultViewport | AwaitSetContent
  | AwaitChartJs | AwaitInterception | AwaitViewport _ _ | AwaitEvaluate
  | AwaitReady | AwaitCanvas | AwaitCapture => true
  | _ => false
  end.

(** The session record after a teardown. *)
Definition is_reset (s : State) : Prop :=
  browser s = None /\ page s = None /\ requestCount s = 0.

(** What a response reports. *)
Definition reused (r : Response) : option jsstring :=
  headers_get (headers r) (js "X-Browser-Reused").
Definition request_count (r : Response) : option jsstring :=
  headers_get (headers r) (js "X-Request-Count").

(** What a caller of [render] observes, with the fields of the record that
    later calls read. *)
Definition observed (o : option (State * Thread))
  : option (option nat * option nat * Z * Thread) :=
  match o with
  | Some (s, t) => Some (browser s, page s, requestCount s, t)
  | None => None
  end.

(** Render calls served one after the other, all of them successful; the
    responses in order. *)
Fixpoint serve (calls : list (jsval * Z * list (Z * settlement))) (s : State)
  : option (State * list Response) :=
  match calls with
  | [] => Some (s, [])
  | (chart, now, evs) :: rest =>
      match render chart now evs s with
      | Some (s', t) =>
          match at_ t with
          | Returned r =>
              match serve rest s' with
              | Some (s'', rs) => Some (s'', r :: rs)
              | None => None
              end
          | _ => None
          end
      | None => None
      end
  end.

(** ** Interleaving

    The handlers of one Durable Object share its fields.  A handler runs
    until it awaits; the runtime then delivers another event: the arrival
    of a request, the settlement of a promise some handler awaits, or a due
    alarm. *)
Record Config := mkConfig {
  session : State;
  handlers : list Thread
}.

Inductive event :=
| Arrive
| Settle (i : nat) (now : Z) (ev : settlement)
| Alarm (now : Z).

Fixpoint replace_nth (i : nat) (t : Thread) (l : list Thread) : list Thread :=
  match l, i with
  | [], _ => []
  | _ :: l', O => t :: l'
  | x :: l', S i' => x :: replace_nth i' t l'
  end.

Definition deliver (e : event) (c : Config) : option Config :=
  match e with
  | Arrive => Some (mkConfig (session c) (handlers c ++ [fetch_start]))
  | Settle i now ev =>
      match nth_error (handlers c) i with
      | Some t =>
          match resume now ev (session c) t with
          | Some (s', t') => Some (mkConfig s' (replace_nth i t' (handlers c)))
          | None => None
          end
      | None => None
      end
  | Alarm now =>
      match alarm now (session c) with
      | Some (s', t) => Some (mkConfig s' (handlers c ++ [t]))
      | None => None
      end
  end.

Fixpoint deliver_all (es : list event) (c : Config) : option Config :=
  match es with
  | [] => Some c
  | e :: es' =>
      match deliver e c with
      | Some c' => deliver_all es' c'
      | None => None
      end
  end.

(** A handler that has entered step 1 of [render] (or [cleanup]) and has
    not completed: it holds the engine resource. *)
Definition in_render (t : Thread) : bool :=
  match at_ t with
  | AwaitJson | AwaitSetAlarm | Returned _ | Thrown _ | AlarmReturned => false
  | _ => true
  end.

(** The handlers that have not ended. *)
Definition unfinished (l : list Thread) : nat :=
  List.length (filter (fun t => negb (finished t)) l).

(** Two handlers hold the engine resource at once. *)
Definition overlap (c : Config) : bool :=
  (1 <? List.length (filter in_render (handlers c)))%nat.

(** The delivery discipline that a per-key queue would give: a request or
    an alarm is delivered only when every earlier handler has ended. *)
Definition deliver_serially (e : event) (c : Config) : option Config :=
  match e with
  | Arrive | Alarm _ =>
      if forallb finished (handlers c) then deliver e c else None
  | Settle _ _ _ => deliver e c
  end.

Fixpoint deliver_all_serially (es : list event) (c : Config) : option Config :=
  match es with
  | [] => Some c
  | e :: es' =>
      match deliver_serially e c with
      | Some c' => deliver_all_serially es' c'
      | None => None
      end
  end.

Definition start (now : Z) : Config := mkConfig (constructor now) [].

End Actor.

(** Where a [render] that started with [requestCount = n] stands. *)
Module Stage.
Import JS Http Session Actor.
Local Open Scope Z_scope.

Definition stage (n : Z) (s : State) (t : Thread) : Prop :=
  match at_ t with
  | AwaitLaunch | AwaitNewPage | AwaitDefaultViewport | AwaitSetContent
  | AwaitChartJs | AwaitInterception => requestCount s = n
  | AwaitViewport _ _ | AwaitEvaluate | AwaitReady | AwaitCanvas
  | AwaitCapture => requestCount s = n + 1
  | AwaitPageClose (Rethrow _) => True
  | AwaitBrowserClose (Rethrow _) => page s = None
  | Returned r =>
      requestCount s = n + 1
      /\ request_count r = Some (Z_chars (n + 1))
      /\ reused r = Some (if 1 <? n + 1 then js "true" else js "false")
  | Thrown _ => is_reset s
  | _ => False
  end.

(** Two session records that [fetch] cannot tell apart: it never reads
    [lastUsed] nor the alarm. *)
Definition alike (s1 s2 : State) : Prop :=
  browser s1 = browser s2 /\ page s1 = page s2
  /\ requestCount s1 = requestCount s2.

End Stage.

(** Calls and schedules on the session of scenario 1 and 2. *)
Module ActorExamples.
Import JS Http Session Actor Examples.
Local Open Scope Z_scope.

(** A cold call followed by a warm one. *)
Definition cold_then_warm : list (jsval * Z * list (Z * settlement)) :=
  [(Some bar_chart, 0, engine_starts ++ chart_renders 1000);
   (Some bar_chart, 2000, chart_renders 2000)].

(** The body that the worker sends: [{ chart: bar_chart }]. *)
Definition chart_body : value := VObj [(js "chart", bar_chart)].

(** Two requests arrive before the engine has started for the first. *)
Definition two_cold_requests : list event :=
  [Arrive; Arrive;
   Settle 0 10 (Fulfilled (Json chart_body));
   Settle 1 11 (Fulfilled (Json chart_body))].

Definition settle_all (i : nat) (evs : list (Z * settlement)) : list event :=
  map (fun p => Settle i (fst p) (snd p)) evs.

(** On a warm session, a second request arrives while the first awaits its
    screenshot. *)
Definition second_during_capture : list event :=
  Arrive :: Settle 0 0 (Fulfilled (Json chart_body))
  :: settle_all 0 (engine_starts ++ chart_renders 1000)
  ++ Arrive :: Settle 1 2000 (Fulfilled (Json chart_body))
  :: settle_all 1 [(2005, Fulfilled Nothing);
                   (2020, Fulfilled (Result (Some (VBool true))));
                   (2030, Fulfilled Nothing);
                   (2035, Fulfilled (Element (Some 3%nat)))]
  ++ [Arrive; Settle 2 2040 (Fulfilled (Json chart_body))].

(** The same two requests, the second delivered after the first ended. *)
Definition one_after_the_other : list event :=
  Arrive :: Settle 0 0 (Fulfilled (Json chart_body))
  :: settle_all 0 (engine_starts ++ chart_renders 1000)
  ++ Arrive :: Settle 1 2000 (Fulfilled (Json chart_body))
  :: settle_all 1 (chart_renders 2000).

End ActorExamples.

(** The text of a value, piece by piece, and the values that have one. *)
Module JSONText.
Import JS JSON.
Local Open Scope N_scope.

(** What may follow a number: no digit, no fraction, no exponent. *)
Definition delimited (rest : jsstring) : Prop :=
  match rest with
  | [] => True
  | c :: _ => is_digit c = false /\ starts_fraction rest = false
  end.

(** The elements of an array after its opening bracket. *)
Fixpoint elements_text (xs : list value) : jsstring :=
  match xs with
  | [] => [93]
  | x :: xs' =>
      match xs' with
      | [] => stringify x ++ [93]
      | _ => stringify x ++ 44 :: elements_text xs'
      end
  end.

Definition member_text (p : jsstring * value) : jsstring :=
  quote (fst p) ++ 58 :: stringify (snd p).

(** The members of an object after its opening brace. *)
Fixpoint members_text (ps : list (jsstring * value)) : jsstring :=
  match ps with
  | [] => [125]
  | p :: ps' =>
      match ps' with
      | [] => member_text p ++ [125]
      | _ => member_text p ++ 44 :: members_text ps'
      end
  end.

(** The first character of a text. *)
Definition plain_head (c : N) : Prop :=
  is_json_white c = false /\ (c =? 93) = false.

(** [parse_value] reads the text of [v], with fuel above its length, and
    leaves what follows it. *)
Definition reads_back (v : value) : Prop :=
  distinct_keys v = true ->
  forall fuel rest,
    (List.length (stringify v) < fuel)%nat -> delimited rest ->
    parse_value fuel (stringify v ++ rest) = Return (scrub v, rest).

(** A ChartSpec, as a value: what [JSON.parse] can have built. *)
Definition chart_spec (v : value) : bool := distinct_keys v && finite v.



End JSONText.

(** A chart whose only label is the ideograph U+65E5. *)
Module DecodingExamples.
Import JS.




End DecodingExamples.

(** From a worker request to the viewport of the rendering page. *)
Module Pipeline.
Import JS JSON Normalizer Gateway Session.
Local Open Scope js_scope.
Local Open Scope Z_scope.

(** The viewport that the Durable Object asks for when the worker forwards
    [request]: the worker's lines 384-425 (parameters, decoding, options,
    the body of the forwarded request), then lines 85 and 173-179 of the
    Durable Object. *)
Definition requested_viewport (request : Request) : outcome (number * number) :=
  p <- parseChartParameters request ;;
  c <- decodeChartConfig (fst p) (encoding (snd p)) ;;
  chartConfig <- applyChartOptions c (snd p) ;;
  body <- request_json (doRequest chartConfig) ;;
  chart <- get (Some body) (js "chart") ;;
  wh <- dimensions chart ;;
  match viewport wh with
  | Some v => Return v
  | None => Unmodelled
  end.






End Pipeline.

(** Requests with non-positive dimensions. *)
Module PipelineExamples.
Import JS JSON Normalizer Examples.

(** A chart that asks for 800 x 600 itself. *)
Definition large_chart : value :=
  VObj [(js "type", VStr (js "bar"));
        (js "options", VObj [(js "width", VNum (Int 800));
                             (js "height", VNum (Int 600))])].





End PipelineExamples.

(** The range in which the embedded numbers are the program's numbers. *)
Module Exact.
Import JS Pipeline.
Local Open Scope Z_scope.

(** An integer that a double holds exactly and that [ToString] prints in
    plain digits, as [Number.isSafeInteger] tells: its magnitude is below
    2^53. *)
Definition safe_integer (z : Z) : bool := (- 2 ^ 53 <? z) && (z <? 2 ^ 53).

(** Every number inside is a safe integer or [NaN]. *)
Fixpoint exact (v : value) : bool :=
  match v with
  | VNum (Int z) => safe_integer z
  | VArr xs => forallb exact xs
  | VObj ps => forallb (fun p => exact (snd p)) ps
  | _ => true
  end.

(** A dimension that a chart carries itself and that is absent, [null], a
    boolean or an integer. *)
Definition integral (x : jsval) : Prop :=
  match x with
  | None | Some VNull | Some (VBool _) | Some (VNum (Int _)) => True
  | _ => False
  end.


End Exact.

(** The engine calls that a handler makes. *)
Module Calls.
Import JS Http Normalizer Session.
Local Open Scope Z_scope.

(** A handler that is suspended at the await [p] has made the call that
    [p] names.  [awaits evs s t] lists, for the handler [t] resumed by the
    settlements [evs] in turn, the await at which each settlement found
    it: the calls that the handler made and whose answers it took, in
    order.  [None]: a settlement finds the handler ended, or is not one
    that the awaited call produces. *)
Fixpoint awaits (evs : list (Z * settlement)) (s : State) (t : Thread)
  : option (list pc) :=
  match evs with
  | [] => Some []
  | (now, ev) :: evs' =>
      if finished t then None
      else
        match resume now ev s t with
        | Some (s', t') => option_map (cons (at_ t)) (awaits evs' s' t')
        | None => None
        end
  end.

(** The awaits of [fetch(request)] run alone from the arrival of the
    request. *)
Definition fetch_awaits (request : Request) (now : Z)
  (evs : list (Z * settlement)) (s : State) : option (list pc) :=
  match request_json request with
  | Return v => awaits ((now, Fulfilled (Json v)) :: evs) s fetch_start
  | Throw e => awaits ((now, Rejected e) :: evs) s fetch_start
  | Unmodelled => None
  end.

(** The calls of [cleanup()] on the session [s], lines 213-220:
    [page.close()] when a page is held, then [browser.close()] when a
    browser is held. *)
Definition closes (k : caller) (s : State) : list pc :=
  match page s with
  | Some _ => [AwaitPageClose k]
  | None => []
  end
  ++ match browser s with
     | Some _ => [AwaitBrowserClose k]
     | None => []
     end.

(** The six calls of [initializeBrowser], lines 145-158, when [fetch]
    makes them: on a session that does not hold both a browser and a
    page. *)
Definition init_awaits (s : State) : list pc :=
  match browser s, page s with
  | Some _, Some _ => []
  | _, _ =>
      [AwaitLaunch; AwaitNewPage; AwaitDefaultViewport; AwaitSetContent;
       AwaitChartJs; AwaitInterception]
  end.

End Calls.

(** What a render run alone keeps of the engine's handles. *)
Module Lifecycle.
Import JS Http Session Actor.
Local Open Scope Z_scope.

(** Both handles of the rendering engine are held. *)
Definition live (s : State) : Prop := browser s <> None /\ page s <> None.

Definition content_type (r : Response) : option jsstring :=
  headers_get (headers r) (js "Content-Type").
Definition init_time (r : Response) : option jsstring :=
  headers_get (headers r) (js "X-Init-Time").

(** Where a [render] run alone stands with the handles: it holds the
    browser from [browser.newPage] on, both handles from
    [page.setViewport] on, and ends with both or with none. *)
Definition held (s : State) (t : Thread) : Prop :=
  match at_ t with
  | AwaitLaunch => True
  | AwaitNewPage => browser s <> None
  | AwaitDefaultViewport | AwaitSetContent | AwaitChartJs | AwaitInterception
  | AwaitViewport _ _ | AwaitEvaluate | AwaitReady | AwaitCanvas
  | AwaitCapture => live s
  | AwaitPageClose (Rethrow _) => True
  | AwaitBrowserClose (Rethrow _) => page s = None
  | Returned r =>
      live s /\ status r = 200 /\ content_type r = Some (js "image/png")
  | Thrown _ => is_reset s
  | _ => False
  end.

(** A [render] on a session that holds the browser [b] and the page [p]
    keeps both and measures no initialization. *)
Definition reusing (b p : nat) (s : State) (t : Thread) : Prop :=
  match at_ t with
  | AwaitViewport _ _ | AwaitEvaluate | AwaitReady | AwaitCanvas
  | AwaitCapture =>
      browser s = Some b /\ page s = Some p /\ initialization t = 0
  | AwaitPageClose (Rethrow _) | AwaitBrowserClose (Rethrow _) | Thrown _ =>
      True
  | Returned r =>
      browser s = Some b /\ page s = Some p /\ init_time r = Some (js "0")
  | _ => False
  end.

Definition update_time (r : Response) : option jsstring :=
  headers_get (headers r) (js "X-Update-Time").
Definition screenshot_time (r : Response) : option jsstring :=
  headers_get (headers r) (js "X-Screenshot-Time").
Definition total_time (r : Response) : option jsstring :=
  headers_get (headers r) (js "X-Total-Time").

(** The three phases follow one another without a gap: [Date.now()] is
    read once per resumption, so the end of a phase is the start of the
    next. *)
Definition timed (t : Thread) : Prop :=
  match at_ t with
  | AwaitLaunch | AwaitNewPage | AwaitDefaultViewport | AwaitSetContent
  | AwaitChartJs | AwaitInterception => mark t = startTime t
  | AwaitViewport _ _ | AwaitEvaluate | AwaitReady =>
      mark t - startTime t = initialization t
  | AwaitCanvas | AwaitCapture =>
      mark t - startTime t = initialization t + chartUpdate t
  | AwaitPageClose (Rethrow _) | AwaitBrowserClose (Rethrow _) | Thrown _ =>
      True
  | Returned r =>
      exists i u c,
        init_time r = Some (Z_chars i)
        /\ update_time r = Some (Z_chars u)
        /\ screenshot_time r = Some (Z_chars c)
        /\ total_time r = Some (Z_chars (i + u + c))
  | _ => False
  end.


End Lifecycle.

(** Requests as a caller of the Durable Object may send them, and a session
    that holds an engine. *)
Module SessionExamples.
Import JS Http Normalizer Session.
Local Open Scope Z_scope.

(** A body that is no JSON text. *)
Definition not_json : Request :=
  mkRequest (js "POST") (js "/chart") [] (js "chart=bar").

(** The body [{}]. *)
Definition empty_object : Request :=
  mkRequest (js "POST") (js "/chart") [] (JSON.stringify (VObj [])).

(** A session after one successful render. *)
Definition warm : State := mkState (Some 1%nat) (Some 2%nat) 910 1 None.

(** A session whose idle check has been scheduled by hand. *)
Definition armed : State := mkState (Some 1%nat) (Some 2%nat) 1000 3 (Some 61000).

(** The six awaits of [initializeBrowser] succeed at time [t], with the
    browser [b] and the page [p]. *)
Definition launches (b p : nat) (t : Z) : list (Z * settlement) :=
  [(t, Fulfilled (Handle b)); (t, Fulfilled (Handle p));
   (t, Fulfilled Nothing); (t, Fulfilled Nothing);
   (t, Fulfilled Nothing); (t, Fulfilled Nothing)].

(** The engine calls that [fetch] makes on [s] before [updateChart]: none
    when [s] holds a browser and a page. *)
Definition engine_needed (s : State) (b p : nat) (t : Z)
  : list (Z * settlement) :=
  match browser s, page s with
  | Some _, Some _ => []
  | _, _ => launches b p t
  end.

End SessionExamples.

(** The warm-up of the worker, lines 318-358. *)
Module Warmup.
Import JS Http Normalizer Gateway.

Definition warmupChart : value :=
  VObj [(js "type", VStr (js "bar"));
        (js "data",
         VObj [(js "labels", VArr [VStr (js "Warmup")]);
               (js "datasets", VArr [VObj [(js "data", VArr [VNum (Int 1)])]])]);
        (js "options", VObj [(js "width", VNum (Int 100));
                             (js "height", VNum (Int 100))])].

(** [new Request('http://warmup/chart', { method: 'POST', body:
    JSON.stringify({ chart: warmupChart }) })] *)
Definition warmup_request : Request :=
  mkRequest (js "POST") (js "/chart") []
    (JSON.stringify (VObj [(js "chart", warmupChart)])).

(** [warmupBrowserSession(env)]: what it writes to the log. *)
Definition warmupBrowserSession (env : Env) : outcome jsstring :=
  match stub_fetch env warmup_request with
  | Return _ => Return (js "[WARMUP] Browser session pre-initialized")
  | Throw error =>
      Return (js "[WARMUP] Failed (non-critical): " ++ message error)
  | Unmodelled => Unmodelled
  end.

(** Lines 355-358 over the life of one worker: for each of [n] requests in
    turn, whether it hands a warm-up to [ctx.waitUntil]. *)
Fixpoint warmups (warmedUp : bool) (n : nat) : list bool :=
  match n with
  | O => []
  | S n' => snd (warmup_once warmedUp) :: warmups (fst (warmup_once warmedUp)) n'
  end.

End Warmup.

(** The three requests of [test.js] for one chart. *)
Module Transport.
Import JS JSON Base64 Normalizer.
Local Open Scope js_scope.

(** Lines 384-402 of the worker for a request that brings a chart: the
    parameters, the decoding, the options. *)
Definition chart_config (request : Request) : outcome jsval :=
  p <- parseChartParameters request ;;
  c <- decodeChartConfig (fst p) (encoding (snd p)) ;;
  applyChartOptions c (snd p).

(** Test 2: POST with [JSON.stringify({ chart, w, h })]. *)
Definition by_post (chart : value) (w h : Z) : Request :=
  mkRequest (js "POST") (js "/chart") []
    (stringify (VObj [(js "chart", chart);
                      (js "w", VNum (Int w)); (js "h", VNum (Int h))])).

(** Test 3: GET [/chart?c=<JSON text>&w=<w>&h=<h>]. *)
Definition by_query (chart : value) (w h : Z) : Request :=
  mkRequest (js "GET") (js "/chart")
    [(js "c", stringify chart); (js "w", Z_chars w); (js "h", Z_chars h)] [].

(** Test 4: GET [/chart?c=<base64 of the JSON text>&encoding=base64&w=<w>&h=<h>];
    [encode] is what [btoa] returns on a Latin-1 text. *)
Definition by_base64 (chart : value) (w h : Z) : Request :=
  mkRequest (js "GET") (js "/chart")
    [(js "c", encode (stringify chart)); (js "encoding", js "base64");
     (js "w", Z_chars w); (js "h", Z_chars h)] [].

(** A value that is neither an object nor an array. *)
Definition primitive (v : value) : bool :=
  match v with
  | VArr _ | VObj _ => false
  | _ => true
  end.

(** What may follow the digits that [parseInt] reads: nothing, or a
    character that is no digit. *)
Definition no_digit_ahead (rest : jsstring) : Prop :=
  match rest with
  | [] => True
  | c :: _ => is_digit c = false
  end.

(** The viewport dimension for the integer [n] that [parseInt] read. *)
Definition floored (default n : Z) : Z :=
  if (n =? 0)%Z then default else Z.max n 100.

End Transport.

(** Requests that the worker answers without a chart image. *)
Module GatewayExamples.
Import JS JSON Normalizer Examples PipelineExamples.

(** GET [/chart?c=&w=400]: an empty chart parameter. *)
Definition get_empty_chart : Request :=
  get_chart [(js "c", []); (js "w", js "400")].

(** GET [/chart?c=5]: a chart that is a number. *)
Definition get_number_chart : Request := get_chart [(js "c", js "5")].

(** POST [/chart] with [{ chart: bar_chart, encoding: 'base64' }]. *)
Definition post_object_base64 : Request :=
  post_chart [(js "encoding", VStr (js "base64"))].

(** POST [/chart] with a body that is no JSON text. *)
Definition post_not_json : Request :=
  mkRequest (js "POST") (js "/chart") [] (js "chart=bar").

(** GET [/chart?c=<large_chart>&w=abc&h=wide]. *)
Definition get_large_unparsable : Request :=
  get_chart [(js "c", stringify large_chart);
             (js "w", js "abc"); (js "h", js "wide")].

(** GET [/chart?c=<large_chart>&w=400px&h=12.5]. *)
Definition get_large_suffixed : Request :=
  get_chart [(js "c", stringify large_chart);
             (js "w", js "400px"); (js "h", js "12.5")].

End GatewayExamples.

(* ================================================================== *)
(** * Properties *)

Section StringEquality.
Import JS.

Lemma str_eqb_refl (a : jsstring) : str_eqb a a = true.
Proof.
  induction a as [|x a IH]; simpl; [reflexivity|].
  now rewrite N.eqb_refl, IH.
Qed.

Lemma str_eqb_eq (a b : jsstring) : str_eqb a b = true <-> a = b.
Proof.
  split; [|intros ->; apply str_eqb_refl].
  revert b; induction a as [|x a IH]; intros [|y b]; simpl; try discriminate; auto.
  intros H. apply andb_true_iff in H as [Hxy Hab].
  apply N.eqb_eq in Hxy. apply IH in Hab. congruence.
Qed.

Lemma str_eqb_neq (a b : jsstring) : str_eqb a b = false <-> a <> b.
Proof.
  split.
  - intros H E. apply str_eqb_eq in E. congruence.
  - intros H. destruct (str_eqb a b) eqn:E; [|reflexivity].
    apply str_eqb_eq in E. contradiction.
Qed.

End StringEquality.

Module GatewayProperties.
Import JS Http Normalizer Gateway Routes Text Examples.


Lemma route_liveness request env requestId t0 t1 :
  pathname request = js "/" \/ pathname request = js "/health" ->
  fetch request env requestId t0 t1 =
  Return (mkResponse 200
            (headers_of [(js "Content-Type", js "text/plain");
                         (js "X-Request-ID", requestId)])
            liveness_text).
Proof.
  intros H. unfold fetch, route.
  destruct H as [H|H]; rewrite H; reflexivity.
Qed.

Lemma route_other_method request :
  str_eqb (method request) (js "POST") = false ->
  str_eqb (method request) (js "GET") = false ->
  parseChartParameters request = Return (undefined, no_options).
Proof.
  intros H1 H2. unfold parseChartParameters. now rewrite H1, H2.
Qed.

(** C8, as the code has it: the path alone selects the route.  A request
    whose path is none of [/], [/health] and [/chart] is answered 404
    whatever its method; [/] and [/health] answer 200 to every method; and
    [/chart] answers a method other than GET and POST with the 400 of a
    missing chart. *)
Theorem routing_by_path_only request env requestId t0 t1 :
  (pathname request <> js "/" ->
   pathname request <> js "/health" ->
   pathname request <> js "/chart" ->
   fetch request env requestId t0 t1 = Return (not_found requestId)
   /\ status (not_found requestId) = 404%Z)
  /\ (pathname request = js "/" \/ pathname request = js "/health" ->
      has_status (fetch request env requestId t0 t1) 200)
  /\ (pathname request = js "/chart" ->
      method request <> js "GET" ->
      method request <> js "POST" ->
      fetch request env requestId t0 t1 = Return missing_chart
      /\ status missing_chart = 400%Z).
Proof.
  repeat split.
  - apply str_eqb_neq in H, H0, H1.
    unfold fetch, route. now rewrite H, H0, H1.
  - intros H. rewrite (route_liveness _ _ _ _ _ H). eexists; split; reflexivity.
  - apply str_eqb_neq in H0, H1.
    unfold fetch, route. rewrite H. simpl.
    now rewrite (route_other_method _ H1 H0).
Qed.


Lemma routing_by_path_only_witness :
  (fetch get_favicon (constant_env Unmodelled) (js "id-1") 0 0
     = Return (not_found (js "id-1"))
   /\ status (not_found (js "id-1")) = 404%Z)
  /\ has_status (fetch post_health (constant_env Unmodelled) (js "id-1") 0 0) 200
  /\ (fetch put_chart (constant_env Unmodelled) (js "id-1") 0 0
        = Return missing_chart
      /\ status missing_chart = 400%Z).
Proof.
  repeat apply conj.
  - apply (proj1 (routing_by_path_only get_favicon (constant_env Unmodelled)
                    (js "id-1") 0 0)); vm_compute; discriminate.
  - apply (proj1 (routing_by_path_only get_favicon (constant_env Unmodelled)
                    (js "id-1") 0 0)); vm_compute; discriminate.
  - apply (proj1 (proj2 (routing_by_path_only post_health (constant_env Unmodelled)
                    (js "id-1") 0 0))). right. reflexivity.
  - apply (proj2 (proj2 (routing_by_path_only put_chart (constant_env Unmodelled)
                    (js "id-1") 0 0))); vm_compute; try reflexivity; discriminate.
  - reflexivity.
Defined.

(** C8 as stated fails: a POST on [/health] is outside the route table and
    is answered 200, and a PUT on [/chart] is answered 400. *)
Lemma method_is_not_routed :
  in_route_table post_health = false
  /\ in_route_table put_chart = false
  /\ ~ has_status (fetch post_health (constant_env Unmodelled) (js "id-1") 0 0) 404
  /\ ~ has_status (fetch put_chart (constant_env Unmodelled) (js "id-1") 0 0) 404.
Proof.
  repeat split; try reflexivity.
  - intros (r & E & S). vm_compute in E. injection E as <-. discriminate.
  - intros (r & E & S). vm_compute in E. injection E as <-. discriminate.
Qed.


(** ** Headers *)

Lemma lookup_replace_same hs n v :
  lookup_name (replace_name hs n v) n = Some v.
Proof.
  induction hs as [|[k x] hs IH]; simpl.
  - now rewrite str_eqb_refl.
  - destruct (str_eqb k n) eqn:E; simpl; now rewrite E.
Qed.

Lemma lookup_replace_other hs m n v :
  m <> n -> lookup_name (replace_name hs m v) n = lookup_name hs n.
Proof.
  intros Hmn. induction hs as [|[k x] hs IH]; simpl.
  - apply str_eqb_neq in Hmn. now rewrite Hmn.
  - destruct (str_eqb k m) eqn:E; simpl.
    + apply str_eqb_eq in E. subst k.
      apply str_eqb_neq in Hmn. now rewrite Hmn.
    + now rewrite IH.
Qed.

(** The success path, the liveness routes and the 404 carry the header. *)
Lemma request_id_on_render env requestId totalTime response :
  request_id_header (decorate env requestId totalTime response) = Some requestId.
Proof.
  unfold request_id_header, decorate, headers_get, headers_set. simpl.
  destruct (isDebug env); simpl.
  - rewrite lookup_replace_other by (vm_compute; discriminate).
    apply lookup_replace_same.
  - apply lookup_replace_same.
Qed.

Lemma request_id_on_not_found requestId :
  request_id_header (not_found requestId) = Some requestId.
Proof. reflexivity. Qed.

(** C7: the two 400 responses and the 500 response are built without the
    [X-Request-ID] header that the other responses carry. *)
Theorem error_responses_lack_request_id env requestId t0 t1 e :
  (fetch (get_chart []) env requestId t0 t1 = Return missing_chart
   /\ request_id_header missing_chart = None)
  /\ (fetch (get_chart [(js "c", js "not-json")]) env requestId t0 t1
        = Return (invalid_chart JSON.unexpected)
      /\ request_id_header (invalid_chart JSON.unexpected) = None)
  /\ (fetch (post_chart []) (constant_env (Throw e)) requestId t0 t1
        = Return (internal_error e requestId)
      /\ request_id_header (internal_error e requestId) = None).
Proof.
  repeat split.
Qed.

(** C6, as the code has it: what the Durable Object threw reaches the
    caller as a 500 whose body carries the message of that error and the
    request identifier. *)
Theorem session_failure_is_500_with_message
  request env requestId t0 t1 chart options chartConfig e :
  pathname request = js "/chart" ->
  parseChartParameters request = Return (chart, options) ->
  truthy chart = true ->
  bind (decodeChartConfig chart (encoding options))
       (fun c => applyChartOptions c options) = Return chartConfig ->
  stub_fetch env (doRequest chartConfig) = Throw e ->
  exists r,
    fetch request env requestId t0 t1 = Return r
    /\ status r = 500%Z
    /\ Http.body r =
         JSON.stringify (VObj [(js "error", VStr (message e));
                               (js "requestId", VStr requestId)]).
Proof.
  intros Hpath Hparse Htruthy Hcfg Hstub.
  exists (internal_error e requestId). repeat split.
  unfold fetch, route. rewrite Hpath. simpl.
  rewrite Hparse. simpl. rewrite Htruthy. simpl.
  rewrite Hcfg, Hstub. reflexivity.
Qed.


Lemma session_failure_is_500_with_message_witness :
  exists r,
    fetch (post_chart []) (env_with (engine_starts ++ render_times_out 1000))
          (js "id-1") 0 7000 = Return r
    /\ status r = 500%Z
    /\ Http.body r =
         JSON.stringify (VObj [(js "error", VStr (message timeout));
                               (js "requestId", VStr (js "id-1"))]).
Proof.
  eapply (@session_failure_is_500_with_message
            (post_chart []) (env_with (engine_starts ++ render_times_out 1000))
            (js "id-1") 0 7000 (Some bar_chart)
            (mkOptions None None None (Some (VStr (js "url"))))
            (Some (VObj ((js "type", VStr (js "bar"))
                         :: (js "data", VObj [(js "labels", VArr [VStr (js "A"); VStr (js "B")]);
                               (js "datasets",
                                VArr [VObj [(js "data", VArr [VNum (Int 1); VNum (Int 2)])]])])
                         :: [(js "options", VObj [])])))
            timeout); vm_compute; reflexivity.
Defined.

(** C6 as stated fails: when [window.updateChart] reports failure, or when
    the completion wait times out, the body of the 500 response includes the
    message of that very error. *)
Lemma failure_detail_reaches_caller :
  (exists r,
     fetch (post_chart []) (env_with (engine_starts ++ update_fails 1000))
           (js "id-1") 0 2000 = Return r
     /\ status r = 500%Z
     /\ includes (Http.body r) (js "Failed to update chart") = true)
  /\ (exists r,
        fetch (post_chart []) (env_with (engine_starts ++ render_times_out 1000))
              (js "id-1") 0 7000 = Return r
        /\ status r = 500%Z
        /\ includes (Http.body r) (js "Waiting failed: 5000ms exceeded") = true).
Proof.
  split; eexists; (split; [vm_compute; reflexivity | split; reflexivity]).
Qed.

End GatewayProperties.

Module NormalizerProperties.
Import JS JSON Http Normalizer Shape Examples NormalizerExamples.

Lemma lookup_assign_same ps k x : lookup (assign ps k x) k = Some x.
Proof.
  induction ps as [|[k' v] ps IH]; simpl.
  - now rewrite str_eqb_refl.
  - destruct (str_eqb k' k) eqn:E; simpl; now rewrite E.
Qed.

Lemma lookup_assign_other ps k k' x :
  k' <> k -> lookup (assign ps k x) k' = lookup ps k'.
Proof.
  intros Hk. induction ps as [|[k0 v] ps IH]; simpl.
  - destruct (str_eqb k k') eqn:E; [|reflexivity].
    apply str_eqb_eq in E. congruence.
  - destruct (str_eqb k0 k) eqn:E; simpl.
    + apply str_eqb_eq in E. subst k0.
      destruct (str_eqb k k') eqn:E'; [|reflexivity].
      apply str_eqb_eq in E'. congruence.
    + now rewrite IH.
Qed.

(** ** Property names stay distinct *)

Lemma fresh_keys_snoc l k :
  fresh_keys l = true ->
  forallb (fun a => negb (str_eqb a k)) l = true ->
  fresh_keys (l ++ [k]) = true.
Proof.
  induction l as [|a l IH]; intros Hf Hk; [reflexivity|].
  cbn [fresh_keys forallb app] in *.
  apply andb_true_iff in Hf as [Hf1 Hf2].
  apply andb_true_iff in Hk as [Hk1 Hk2].
  rewrite (IH Hf2 Hk2), andb_true_r.
  rewrite existsb_app. cbn [existsb].
  apply negb_true_iff in Hf1, Hk1.
  now rewrite Hf1, Hk1.
Qed.

Lemma keys_assign ps k x :
  map fst (assign ps k x) = map fst ps
  \/ (map fst (assign ps k x) = map fst ps ++ [k]
      /\ forallb (fun a => negb (str_eqb a k)) (map fst ps) = true).
Proof.
  induction ps as [|[k' v] ps IH]; [right; split; reflexivity|].
  cbn [assign]. destruct (str_eqb k' k) eqn:E; [left; reflexivity|].
  destruct IH as [IH|[IH1 IH2]]; cbn [map fst].
  - left. now rewrite IH.
  - right. split; [now rewrite IH1|].
    cbn [forallb]. now rewrite E, IH2.
Qed.

Lemma values_assign ps k x :
  forallb (fun p => distinct_keys (snd p)) ps = true ->
  distinct_keys x = true ->
  forallb (fun p => distinct_keys (snd p)) (assign ps k x) = true.
Proof.
  intros Hp Hx. induction ps as [|[k' v] ps IH].
  - cbn. now rewrite Hx.
  - cbn [forallb snd] in Hp. apply andb_true_iff in Hp as [H1 H2].
    cbn [assign]. destruct (str_eqb k' k); cbn [forallb snd].
    + now rewrite Hx, H2.
    + now rewrite H1, (IH H2).
Qed.

Lemma distinct_assign ps k x :
  distinct_keys (VObj ps) = true -> distinct_keys x = true ->
  distinct_keys (VObj (assign ps k x)) = true.
Proof.
  cbn [distinct_keys]. intros H Hx. apply andb_true_iff in H as [Hk Hv].
  rewrite (@values_assign ps k x Hv Hx), andb_true_r.
  destruct (keys_assign ps k x) as [->|[-> Hfresh]]; [exact Hk|].
  now apply fresh_keys_snoc.
Qed.

Lemma distinct_lookup ps k v :
  distinct_keys (VObj ps) = true -> lookup ps k = Some v ->
  distinct_keys v = true.
Proof.
  cbn [distinct_keys]. intros H. apply andb_true_iff in H as [_ Hv].
  induction ps as [|[k' x] ps IH]; [discriminate|].
  cbn [forallb snd] in Hv. apply andb_true_iff in Hv as [H1 H2].
  cbn [lookup]. destruct (str_eqb k' k).
  - intros E. injection E as <-. exact H1.
  - now apply IH.
Qed.

Lemma distinct_as_map ps k m :
  distinct_keys (VObj ps) = true -> as_map (lookup ps k) = Some m ->
  distinct_keys (VObj m) = true.
Proof.
  intros Hd. unfold as_map.
  destruct (lookup ps k) as [v|] eqn:E.
  - pose proof (@distinct_lookup ps k v Hd E) as Hv.
    destruct v; try (destruct (truthy _); [discriminate|];
                     intros H; injection H as <-; reflexivity).
    intros H. injection H as <-. exact Hv.
  - cbn. intros H. injection H as <-. reflexivity.
Qed.

(** The [options] object after [if (!chartConfig.options)
    chartConfig.options = {}]. *)
Lemma options_made ps os :
  as_map (lookup ps (js "options")) = Some os ->
  exists cfg,
    (if truthy (lookup ps (js "options")) then Return (Some (VObj ps))
     else bind (set (Some (VObj ps)) (js "options") (VObj []))
               (fun c => Return (Some c)))
    = Return (Some (VObj cfg))
    /\ lookup cfg (js "options") = Some (VObj os)
    /\ (forall k, k <> js "options" -> lookup cfg k = lookup ps k)
    /\ (distinct_keys (VObj ps) = true -> distinct_keys (VObj cfg) = true).
Proof.
  unfold as_map. intros H.
  assert (Hnew : distinct_keys (VObj ps) = true ->
                 distinct_keys (VObj (assign ps (js "options") (VObj []))) = true)
    by (intros Hd; now apply distinct_assign).
  destruct (lookup ps (js "options")) as [v|] eqn:E.
  - destruct v as [| b | n | s | xs | m];
      try (destruct (truthy _) eqn:T; [discriminate|]; injection H as <-;
           eexists; split; [reflexivity|]; split; [|split];
           [apply lookup_assign_same | intros; now apply lookup_assign_other
           | exact Hnew]).
    injection H as <-. exists ps. simpl. auto.
  - simpl in H. injection H as <-. simpl.
    eexists; split; [reflexivity|]; split; [|split];
      [apply lookup_assign_same | intros; now apply lookup_assign_other
      | exact Hnew].
Qed.

(** [chartConfig.options.k = x] on a configuration whose [options] is an
    object. *)
Lemma set_in_options cfg os k x :
  lookup cfg (js "options") = Some (VObj os) ->
  set_in (Some (VObj cfg)) (js "options") k x
  = Return (Some (VObj (assign cfg (js "options") (VObj (assign os k x))))).
Proof. intros H. unfold set_in. simpl. rewrite H. reflexivity. Qed.

Ltac lookup_simpl :=
  repeat first
    [ rewrite lookup_assign_same
    | rewrite lookup_assign_other by (first [assumption | vm_compute; discriminate
                                            | intro; subst; vm_compute in *; congruence]) ].

(* The first step of a chain of binds is replaced by its value. *)
Ltac step_with H :=
  match goal with
  | |- bind ?m _ = _ =>
      match type of H with
      | _ = ?r => replace m with r by (symmetry; exact H)
      end
  end; cbn [bind].

Lemma applyChartOptions_result ps options os :
  as_map (lookup ps (js "options")) = Some os ->
  (truthy (backgroundColor options) = true ->
   as_map (lookup os (js "plugins")) <> None) ->
  exists ps' os',
    applyChartOptions (Some (VObj ps)) options = Return (Some (VObj ps'))
    /\ (forall k, k <> js "options" -> lookup ps' k = lookup ps k)
    /\ lookup ps' (js "options") = Some (VObj os')
    /\ (forall k, k <> js "width" -> k <> js "height" -> k <> js "plugins" ->
        lookup os' k = lookup os k)
    /\ lookup os' (js "width") =
         (if truthy (width options)
          then Some (VNum (parseInt (width options)))
          else lookup os (js "width"))
    /\ lookup os' (js "height") =
         (if truthy (height options)
          then Some (VNum (parseInt (height options)))
          else lookup os (js "height"))
    /\ (if truthy (backgroundColor options)
        then exists pl pl',
            as_map (lookup os (js "plugins")) = Some pl
            /\ lookup os' (js "plugins") = Some (VObj pl')
            /\ lookup pl' (js "backgroundColor") = backgroundColor options
            /\ forall k, k <> js "backgroundColor" -> lookup pl' k = lookup pl k
        else lookup os' (js "plugins") = lookup os (js "plugins"))
    /\ (distinct_keys (VObj ps) = true ->
        (forall c, backgroundColor options = Some c -> distinct_keys c = true) ->
        distinct_keys (VObj ps') = true).
Proof.
  intros Hos Hpl.
  destruct (options_made ps Hos) as (cfg & Hmade & Hopt & Hframe & Hdcfg).
  assert (Hdos : distinct_keys (VObj ps) = true -> distinct_keys (VObj os) = true)
    by (intros Hd; exact (@distinct_as_map ps _ os Hd Hos)).
  (* width *)
  pose (os1 := if truthy (width options)
               then assign os (js "width") (VNum (parseInt (width options)))
               else os).
  pose (cfg1 := if truthy (width options)
                then assign cfg (js "options") (VObj os1) else cfg).
  assert (H1 : (if truthy (width options)
                then set_in (Some (VObj cfg)) (js "options") (js "width")
                            (VNum (parseInt (width options)))
                else Return (Some (VObj cfg))) = Return (Some (VObj cfg1))).
  { subst cfg1 os1. destruct (truthy (width options)); [|reflexivity].
    now apply set_in_options. }
  assert (Hopt1 : lookup cfg1 (js "options") = Some (VObj os1)).
  { subst cfg1 os1. destruct (truthy (width options)); lookup_simpl; auto. }
  (* height *)
  pose (os2 := if truthy (height options)
               then assign os1 (js "height") (VNum (parseInt (height options)))
               else os1).
  pose (cfg2 := if truthy (height options)
                then assign cfg1 (js "options") (VObj os2) else cfg1).
  assert (H2 : (if truthy (height options)
                then set_in (Some (VObj cfg1)) (js "options") (js "height")
                            (VNum (parseInt (height options)))
                else Return (Some (VObj cfg1))) = Return (Some (VObj cfg2))).
  { subst cfg2 os2. destruct (truthy (height options)); [|reflexivity].
    now apply set_in_options. }
  assert (Hopt2 : lookup cfg2 (js "options") = Some (VObj os2)).
  { subst cfg2 os2. destruct (truthy (height options)); lookup_simpl; auto. }
  assert (Hframe2 : forall k, k <> js "options" -> lookup cfg2 k = lookup ps k).
  { intros k Hk. subst cfg2 cfg1.
    destruct (truthy (height options)), (truthy (width options));
      lookup_simpl; auto. }
  assert (Hos2 : forall k, k <> js "width" -> k <> js "height" ->
                           lookup os2 k = lookup os k).
  { intros k Hw Hh. subst os2 os1.
    destruct (truthy (height options)), (truthy (width options));
      lookup_simpl; auto. }
  assert (Hw2 : lookup os2 (js "width") =
                if truthy (width options)
                then Some (VNum (parseInt (width options)))
                else lookup os (js "width")).
  { subst os2 os1.
    destruct (truthy (height options)), (truthy (width options));
      lookup_simpl; auto. }
  assert (Hh2 : lookup os2 (js "height") =
                if truthy (height options)
                then Some (VNum (parseInt (height options)))
                else lookup os (js "height")).
  { subst os2 os1.
    destruct (truthy (height options)), (truthy (width options));
      lookup_simpl; auto. }
  assert (Hstart : forall k : jsval -> outcome jsval,
             applyChartOptions (Some (VObj ps)) options
             = bind (Return (Some (VObj cfg2)))
                 (fun chartConfig =>
                    match backgroundColor options with
                    | Some colour =>
                        if truthy (Some colour)
                        then
                          (opts <- get chartConfig (js "options");;
                           plugins <- get opts (js "plugins");;
                           opts0 <-
                             set opts (js "plugins")
                               match or plugins (Some (VObj [])) with
                               | Some p => p
                               | None => VObj []
                               end;;
                           plugins0 <- get (Some opts0) (js "plugins");;
                           plugins1 <- set plugins0 (js "backgroundColor") colour;;
                           opts1 <- set (Some opts0) (js "plugins") plugins1;;
                           chartConfig2 <- set chartConfig (js "options") opts1;;
                           Return (Some chartConfig2))%js
                        else Return chartConfig
                    | None => Return chartConfig
                    end)).
  { intros _. unfold applyChartOptions.
    change (get (Some (VObj ps)) (js "options"))
      with (Return (lookup ps (js "options"))).
    cbn [bind]. step_with Hmade. step_with H1. step_with H2. reflexivity. }
  specialize (Hstart (fun x => Return x)). cbn [bind] in Hstart.
  assert (Hd2 : distinct_keys (VObj ps) = true ->
                distinct_keys (VObj cfg2) = true
                /\ distinct_keys (VObj os2) = true).
  { intros Hd. specialize (Hdos Hd). specialize (Hdcfg Hd).
    subst cfg2 os2 cfg1 os1.
    destruct (truthy (height options)), (truthy (width options));
      split; repeat apply distinct_assign; auto. }
  clearbody os2 cfg2. clear H1 H2 Hopt1 cfg1 os1 Hopt Hframe Hmade Hdcfg cfg.
  (* backgroundColor *)
  destruct (backgroundColor options) as [colour|] eqn:Ebg.
  2:{ exists cfg2, os2. simpl. repeat split; auto.
      - apply Hos2; vm_compute; discriminate.
      - intros Hd _. apply (Hd2 Hd). }
  destruct (truthy (Some colour)) eqn:Tbg.
  2:{ exists cfg2, os2. repeat split; auto.
      - apply Hos2; vm_compute; discriminate.
      - intros Hd _. apply (Hd2 Hd). }
  specialize (Hpl eq_refl).
  destruct (as_map (lookup os (js "plugins"))) as [pl|] eqn:Epl; [clear Hpl|congruence].
  assert (Epl2 : as_map (lookup os2 (js "plugins")) = Some pl).
  { rewrite Hos2 by (vm_compute; discriminate). exact Epl. }
  change (get (Some (VObj cfg2)) (js "options"))
    with (Return (lookup cfg2 (js "options"))) in Hstart.
  rewrite Hopt2 in Hstart. cbn [bind] in Hstart.
  change (get (Some (VObj os2)) (js "plugins"))
    with (Return (lookup os2 (js "plugins"))) in Hstart.
  cbn [bind] in Hstart.
  assert (Hor : match or (lookup os2 (js "plugins")) (Some (VObj [])) with
                | Some p => p
                | None => VObj []
                end = VObj pl).
  { unfold as_map in Epl2. unfold or.
    destruct (lookup os2 (js "plugins")) as [[| [|] | [|z] | [|c s] | xs | m]|];
      simpl in Epl2 |- *; try discriminate;
      try (destruct (Z.eqb z 0); simpl in Epl2 |- *; try discriminate);
      injection Epl2 as <-; reflexivity. }
  rewrite Hor in Hstart. clear Hor. cbn [set bind get] in Hstart.
  rewrite lookup_assign_same in Hstart. cbn [set bind] in Hstart.
  set (pl' := assign pl (js "backgroundColor") colour) in *.
  set (os3 := assign (assign os2 (js "plugins") (VObj pl)) (js "plugins")
                     (VObj pl')) in *.
  exists (assign cfg2 (js "options") (VObj os3)), os3.
  split; [exact Hstart|].
  split. { intros; lookup_simpl; auto. }
  split. { now lookup_simpl. }
  split. { intros. subst os3. lookup_simpl. now apply Hos2. }
  split. { subst os3. lookup_simpl. exact Hw2. }
  split. { subst os3. lookup_simpl. exact Hh2. }
  split.
  { exists pl, pl'. subst os3 pl'. repeat split; intros; now lookup_simpl. }
  intros Hd Hc. destruct (Hd2 Hd) as [Hdc Hdo].
  assert (Hdpl : distinct_keys (VObj pl) = true)
    by exact (@distinct_as_map os _ pl (Hdos Hd) Epl).
  subst os3 pl'. repeat apply distinct_assign; auto.
Qed.

(** C9: on a configuration object whose [options] is absent (or falsy) or an
    object, [applyChartOptions] returns the configuration with every
    property other than [options] as it was; inside [options] every entry
    other than [width], [height] and [plugins] as it was; [width] and
    [height] set to [parseInt] of the supplied option, or left as they were
    (unset when they were) when the option is absent or falsy; and inside
    [plugins] only [backgroundColor] written. *)
Theorem applyChartOptions_frame ps options os :
  as_map (lookup ps (js "options")) = Some os ->
  (truthy (backgroundColor options) = true ->
   as_map (lookup os (js "plugins")) <> None) ->
  exists ps' os',
    applyChartOptions (Some (VObj ps)) options = Return (Some (VObj ps'))
    /\ (forall k, k <> js "options" -> lookup ps' k = lookup ps k)
    /\ lookup ps' (js "options") = Some (VObj os')
    /\ (forall k, k <> js "width" -> k <> js "height" -> k <> js "plugins" ->
        lookup os' k = lookup os k)
    /\ lookup os' (js "width") =
         (if truthy (width options)
          then Some (VNum (parseInt (width options)))
          else lookup os (js "width"))
    /\ lookup os' (js "height") =
         (if truthy (height options)
          then Some (VNum (parseInt (height options)))
          else lookup os (js "height"))
    /\ (if truthy (backgroundColor options)
        then exists pl pl',
            as_map (lookup os (js "plugins")) = Some pl
            /\ lookup os' (js "plugins") = Some (VObj pl')
            /\ lookup pl' (js "backgroundColor") = backgroundColor options
            /\ forall k, k <> js "backgroundColor" -> lookup pl' k = lookup pl k
        else lookup os' (js "plugins") = lookup os (js "plugins")).
Proof.
  intros Hos Hpl.
  destruct (@applyChartOptions_result ps options os Hos Hpl)
    as (ps' & os' & H1 & H2 & H3 & H4 & H5 & H6 & H7 & _).
  exists ps', os'. repeat split; assumption.
Qed.

Lemma applyChartOptions_frame_witness :
  exists ps' os',
    applyChartOptions (Some (VObj styled_chart)) wide_white
      = Return (Some (VObj ps'))
    /\ lookup ps' (js "type") = Some (VStr (js "line"))
    /\ lookup ps' (js "options") = Some (VObj os')
    /\ lookup os' (js "width") = Some (VNum (Int 400))
    /\ lookup os' (js "height") = Some (VNum (Int 250)).
Proof.
  destruct (@applyChartOptions_frame styled_chart wide_white styled_options)
    as (ps' & os' & Heq & Hframe & Hopt & _ & Hw & Hh & _).
  - reflexivity.
  - intros _. vm_compute. discriminate.
  - exists ps', os'. repeat split; auto.
    rewrite Hframe by (vm_compute; discriminate). reflexivity.
Defined.

End NormalizerProperties.

Module SessionProperties.
Import JS Http Session Actor Stage Examples ActorExamples.
Import Calls SessionExamples.
Local Open Scope Z_scope.

(* Case analysis on whatever a [match] of the goal, or else of a
   hypothesis, inspects. *)
Ltac case_on_match :=
  match goal with
  | |- context [match ?scrutinee with _ => _ end] =>
      destruct scrutinee eqn:?
  | Hyp : context [match ?scrutinee with _ => _ end] |- _ =>
      destruct scrutinee eqn:?
  end.

Ltac invert H := inversion H; subst; clear H.

Lemma headers_of_response s t now png :
  request_count (ok_response s t now png) = Some (Z_chars (requestCount s))
  /\ reused (ok_response s t now png)
     = Some (if 1 <? requestCount s then js "true" else js "false").
Proof. split; reflexivity. Qed.

(** ** The stage invariant *)

Lemma stage_cleanup n e s t s' t' :
  cleanup (Rethrow e) s t = (s', t') -> stage n s' t'.
Proof.
  unfold cleanup, stage. destruct s as [b p l c a]; simpl.
  destruct p, b; intros H; invert H; simpl; auto; repeat split.
Qed.

Lemma stage_on_page n m s t next s' t' :
  on_page s t next = (s', t') ->
  requestCount s = m ->
  (forall t0, at_ t0 = next -> stage n s t0 <-> requestCount s = m) ->
  stage n s' t'.
Proof.
  unfold on_page, catch. intros H Hc Hn.
  destruct (page s).
  - invert H. apply (Hn (goto t next)); auto.
  - eapply stage_cleanup; eauto.
Qed.

Lemma stage_after_init n now s t s' t' :
  requestCount s = n ->
  after_init now s t = Some (s', t') -> stage n s' t'.
Proof.
  unfold after_init, catch. intros Hn H. simpl in H.
  destruct (dimensions (chart t)) as [wh|e|]; [| |discriminate].
  - destruct (page s); [|invert H; eapply stage_cleanup; eauto].
    destruct (viewport wh) as [[w h]|]; [|discriminate].
    invert H. unfold stage. simpl. reflexivity.
  - invert H. eapply stage_cleanup; eauto.
Qed.

Lemma stage_enter chart now s s' t :
  enter chart now s = Some (s', t) -> stage (requestCount s) s' t.
Proof.
  unfold enter. intros H.
  destruct (browser s), (page s);
    try (invert H; unfold stage; simpl; reflexivity).
  eapply stage_after_init; eauto.
Qed.

Ltac stage_step Hs H :=
  first
    [ discriminate H
    | eapply stage_after_init; [|exact H]; simpl; exact Hs
    | injection H as H;
      first
        [ eapply stage_cleanup; exact H
        | eapply stage_on_page;
          [ exact H | exact Hs
          | let t0 := fresh in let Ht0 := fresh in
            intros t0 Ht0; unfold stage; rewrite Ht0; tauto ] ]
    | injection H as <- <-; unfold stage, is_reset; simpl;
      rewrite ?(proj1 (headers_of_response _ _ _ _)),
              ?(proj2 (headers_of_response _ _ _ _));
      simpl; rewrite ?Hs; auto ].

Lemma stage_resume n now ev s t s' t' :
  stage n s t -> resume now ev s t = Some (s', t') -> stage n s' t'.
Proof.
  unfold stage at 1, resume.
  destruct (at_ t) eqn:Hat; intros Hs H;
    try contradiction; try discriminate.
  all: try (destruct k; try contradiction).
  all: destruct ev as [[]|e0]; try discriminate.
  all: unfold catch, cleanup_page_closed, cleanup_browser_closed in H.
  all: repeat case_on_match; try discriminate.
  all: try stage_step Hs H.
Qed.

Lemma stage_run n evs : forall s t s' t',
  stage n s t -> run evs s t = Some (s', t') -> stage n s' t'.
Proof.
  induction evs as [|[now ev] evs IH]; intros s t s' t' Hs H; simpl in H.
  - destruct (finished t); invert H; assumption.
  - destruct (finished t); [invert H; assumption|].
    destruct (resume now ev s t) as [[s1 t1]|] eqn:E; [|discriminate].
    eapply IH; [|exact H]. eapply stage_resume; eauto.
Qed.

Lemma stage_render chart now evs s s' t' :
  render chart now evs s = Some (s', t') -> stage (requestCount s) s' t'.
Proof.
  unfold render. intros H.
  destruct (enter chart now s) as [[s1 t1]|] eqn:E; [|discriminate].
  eapply stage_run; [|exact H]. eapply stage_enter; eauto.
Qed.

(** ** [fetch] does not read [lastUsed] nor the alarm *)

Lemma alike_resume now ev s1 s2 t :
  alike s1 s2 ->
  match resume now ev s1 t, resume now ev s2 t with
  | Some (s1', t1), Some (s2', t2) => alike s1' s2' /\ t1 = t2
  | None, None => True
  | _, _ => False
  end.
Proof.
  destruct s1 as [b1 p1 l1 c1 a1], s2 as [b2 p2 l2 c2 a2].
  unfold alike. simpl. intros (<- & <- & <-).
  unfold resume.
  destruct (at_ t); destruct ev as [[]|e0]; simpl; auto.
  all: unfold enter, after_init, on_page, catch, cleanup, cleanup_page_closed,
         cleanup_browser_closed, ok_response; simpl.
  all: repeat case_on_match; simpl; auto; try discriminate.
  all: repeat match goal with
         | H : Some _ = Some _ |- _ => invert H
         | H : (_, _) = (_, _) |- _ => invert H
         | H : Return _ = Return _ |- _ => invert H
         end; simpl; auto; try congruence.
Qed.

Lemma alike_run evs : forall s1 s2 t,
  alike s1 s2 -> observed (run evs s1 t) = observed (run evs s2 t).
Proof.
  induction evs as [|[now ev] evs IH]; intros s1 s2 t Ha; simpl.
  - destruct Ha as (Hb & Hp & Hc). destruct (finished t); simpl; congruence.
  - destruct (finished t).
    + destruct Ha as (Hb & Hp & Hc). simpl; congruence.
    + pose proof (alike_resume now ev t Ha) as Hr.
      destruct (resume now ev s1 t) as [[s1' t1]|],
               (resume now ev s2 t) as [[s2' t2]|]; try contradiction; auto.
      destruct Hr as [Ha' <-]. now apply IH.
Qed.

Lemma alike_enter chart now s1 s2 :
  alike s1 s2 ->
  match enter chart now s1, enter chart now s2 with
  | Some (s1', t1), Some (s2', t2) => alike s1' s2' /\ t1 = t2
  | None, None => True
  | _, _ => False
  end.
Proof.
  destruct s1 as [b1 p1 l1 c1 a1], s2 as [b2 p2 l2 c2 a2].
  unfold alike. simpl. intros (<- & <- & <-).
  unfold enter, after_init, catch, cleanup; simpl.
  repeat case_on_match; simpl; auto; try discriminate.
  all: repeat match goal with
         | H : Some _ = Some _ |- _ => invert H
         | H : (_, _) = (_, _) |- _ => invert H
         end; simpl; auto; try congruence.
Qed.

Lemma alike_render chart now evs s1 s2 :
  alike s1 s2 ->
  observed (render chart now evs s1) = observed (render chart now evs s2).
Proof.
  intros Ha. unfold render.
  pose proof (alike_enter chart now Ha) as He.
  destruct (enter chart now s1) as [[s1' t1]|],
           (enter chart now s2) as [[s2' t2]|]; try contradiction; auto.
  destruct He as [Ha' <-]. now apply alike_run.
Qed.

Lemma reset_alike_fresh s t0 : is_reset s -> alike s (constructor t0).
Proof. intros (Hb & Hp & Hc). repeat split; assumption. Qed.

(** ** A failing step *)

(** The awaited call is rejected with [e]: the handler closes what is open
    and ends by throwing [e], whatever the two [close] calls answer. *)
Lemma rejection_is_rethrown s t now e c1 c2 :
  engine_await (at_ t) = true ->
  exists s',
    run [(now, Rejected e); c1; c2] s t = Some (s', goto t (Thrown e))
    /\ is_reset s'.
Proof.
  intros Hp. destruct c1 as [n1 e1], c2 as [n2 e2].
  destruct s as [b p l c a], t as [pc0 ch st mk ini upd].
  simpl in Hp.
  destruct pc0; try discriminate Hp; clear Hp.
  all: destruct p as [p|], b as [b|]; simpl;
    eexists; (split; [reflexivity | repeat split]).
Qed.

(** [window.updateChart] answers a falsy value: [Failed to update chart]
    is thrown after the same cleanup. *)
Lemma update_failure_is_thrown s t now success c1 c2 :
  at_ t = AwaitEvaluate ->
  truthy success = false ->
  exists s',
    run [(now, Fulfilled (Result success)); c1; c2] s t
      = Some (s', goto t (Thrown (Error "Failed to update chart")))
    /\ is_reset s'.
Proof.
  intros Hat Hf. destruct c1 as [n1 e1], c2 as [n2 e2].
  destruct s as [b p l c a], t as [pc0 ch st mk ini upd].
  simpl in Hat. subst pc0.
  destruct p as [p|], b as [b|]; cbn -[truthy]; rewrite Hf; simpl;
    eexists; (split; [reflexivity | repeat split]).
Qed.

(** The calls that follow a rejected engine call: [page.close()] when the
    session holds a page, then [browser.close()] when it holds a browser,
    each awaited, and no other. *)
Lemma rejection_is_disposed s t now e c1 c2 :
  engine_await (at_ t) = true ->
  awaits ((now, Rejected e)
            :: firstn (List.length (closes (Rethrow e) s)) [c1; c2]) s t
  = Some (at_ t :: closes (Rethrow e) s).
Proof.
  intros Hp. destruct c1 as [n1 e1], c2 as [n2 e2].
  destruct s as [b p l c a], t as [pc0 ch st mk ini upd].
  simpl in Hp.
  destruct pc0; try discriminate Hp; clear Hp.
  all: destruct p as [p|], b as [b|]; reflexivity.
Qed.

Lemma update_failure_is_disposed s t now success c1 c2 :
  at_ t = AwaitEvaluate ->
  truthy success = false ->
  awaits ((now, Fulfilled (Result success))
            :: firstn (List.length
                         (closes (Rethrow (Error "Failed to update chart")) s))
                 [c1; c2]) s t
  = Some (AwaitEvaluate
            :: closes (Rethrow (Error "Failed to update chart")) s).
Proof.
  intros Hat Hf. destruct c1 as [n1 e1], c2 as [n2 e2].
  destruct s as [b p l c a], t as [pc0 ch st mk ini upd].
  simpl in Hat. subst pc0.
  destruct p as [p|], b as [b|]; cbn -[truthy]; rewrite Hf; reflexivity.
Qed.

(* Case analysis on what the hypothesis [H] inspects. *)
Ltac cases_of H :=
  repeat match type of H with
    | context [match ?scrutinee with _ => _ end] => destruct scrutinee eqn:?
    end.

(** Every step that fails: a resumption at an engine await that leads
    neither to the next engine await nor to the response.  The handler
    then closes what the session holds, resets it and throws. *)
Lemma failing_step_is_disposed s t now ev s1 t1 c1 c2 :
  engine_await (at_ t) = true ->
  resume now ev s t = Some (s1, t1) ->
  engine_await (at_ t1) = false ->
  (forall r, at_ t1 <> Returned r) ->
  exists e s' t',
    awaits ((now, ev) :: firstn (List.length (closes (Rethrow e) s)) [c1; c2])
           s t
    = Some (at_ t :: closes (Rethrow e) s)
    /\ run [(now, ev); c1; c2] s t = Some (s', t')
    /\ at_ t' = Thrown e /\ is_reset s'.
Proof.
  destruct c1 as [n1 e1], c2 as [n2 e2].
  destruct s as [b p l c a], t as [pc0 ch st mk ini upd].
  cbn [at_]. intros Hp Hr Hn Hret.
  assert (Hf : finished (mkThread pc0 ch st mk ini upd) = false)
    by (destruct pc0; try discriminate Hp; reflexivity).
  cbn [awaits run]. rewrite Hf, Hr. clear Hf.
  destruct pc0; try discriminate Hp; clear Hp.
  all: destruct ev as [[]|e0]; try discriminate Hr.
  all: destruct b as [b|], p as [p|].
  all: unfold resume in Hr; cbn [at_] in Hr.
  all: unfold after_init, on_page, catch, cleanup in Hr;
    cbn [page browser chart at_ goto] in Hr.
  all: cases_of Hr; try discriminate Hr.
  all: injection Hr as <- <-.
  all: try discriminate Hn.
  all: try (exfalso; eapply Hret; reflexivity).
  all: try (do 3 eexists; split; [reflexivity|]; split; [reflexivity|];
            split; [reflexivity|]; repeat split).
Qed.

(** A render that fails on entering: [updateChart] throws on the chart
    before its first await, on a session that holds an engine. *)
Lemma failing_entry_is_disposed config now s s1 t1 c1 c2 :
  enter config now s = Some (s1, t1) ->
  engine_await (at_ t1) = false ->
  exists e s' t',
    awaits (firstn (List.length (closes (Rethrow e) s)) [c1; c2]) s1 t1
    = Some (closes (Rethrow e) s)
    /\ render config now [c1; c2] s = Some (s', t')
    /\ at_ t' = Thrown e /\ is_reset s'.
Proof.
  destruct c1 as [n1 e1], c2 as [n2 e2].
  destruct s as [[b|] [p|] l c a]; intros Hr Hn.
  all: unfold render; rewrite Hr.
  all: unfold enter, after_init, catch, cleanup in Hr;
    cbn [page browser chart at_ goto] in Hr.
  all: cases_of Hr; try discriminate Hr.
  all: injection Hr as <- <-.
  all: try discriminate Hn.
  all: try (do 3 eexists; split; [reflexivity|]; split; [reflexivity|];
            split; [reflexivity|]; repeat split).
Qed.

(** C1: a step of [render] that fails makes the handler dispose of the page
    and of the browser, reset [requestCount] to 0 and rethrow the failure;
    the next [render] on that key then goes as on a fresh session and, when
    it succeeds, reports [reused = false] and [requestCount = 1].  The
    disposal is what the handler calls after the failure: [page.close()]
    for a page that the session holds and [browser.close()] for a browser
    that it holds, each awaited, whatever they answer, and nothing else
    before it throws.  This is stated for a rejected engine call, for a
    chart update that answers a falsy value, for every resumption at an
    engine await that does not lead on, and for a failure on entering. *)
Theorem render_failure_resets_session :
  (forall s t now e c1 c2,
      engine_await (at_ t) = true ->
      awaits ((now, Rejected e)
                :: firstn (List.length (closes (Rethrow e) s)) [c1; c2]) s t
      = Some (at_ t :: closes (Rethrow e) s)
      /\ exists s',
          run [(now, Rejected e); c1; c2] s t = Some (s', goto t (Thrown e))
          /\ is_reset s')
  /\ (forall s t now success c1 c2,
        at_ t = AwaitEvaluate ->
        truthy success = false ->
        awaits ((now, Fulfilled (Result success))
                  :: firstn (List.length
                               (closes (Rethrow (Error "Failed to update chart"))
                                       s))
                       [c1; c2]) s t
        = Some (AwaitEvaluate
                  :: closes (Rethrow (Error "Failed to update chart")) s)
        /\ exists s',
            run [(now, Fulfilled (Result success)); c1; c2] s t
            = Some (s', goto t (Thrown (Error "Failed to update chart")))
            /\ is_reset s')
  /\ (forall s t now ev s1 t1 c1 c2,
        engine_await (at_ t) = true ->
        resume now ev s t = Some (s1, t1) ->
        engine_await (at_ t1) = false ->
        (forall r, at_ t1 <> Returned r) ->
        exists e s' t',
          awaits ((now, ev)
                    :: firstn (List.length (closes (Rethrow e) s)) [c1; c2])
                 s t
          = Some (at_ t :: closes (Rethrow e) s)
          /\ run [(now, ev); c1; c2] s t = Some (s', t')
          /\ at_ t' = Thrown e /\ is_reset s')
  /\ (forall config now s s1 t1 c1 c2,
        enter config now s = Some (s1, t1) ->
        engine_await (at_ t1) = false ->
        exists e s' t',
          awaits (firstn (List.length (closes (Rethrow e) s)) [c1; c2]) s1 t1
          = Some (closes (Rethrow e) s)
          /\ render config now [c1; c2] s = Some (s', t')
          /\ at_ t' = Thrown e /\ is_reset s')
  /\ (forall s chart now evs s' t' e,
        render chart now evs s = Some (s', t') ->
        at_ t' = Thrown e ->
        is_reset s'
        /\ forall chart2 now2 evs2,
            (forall t0,
                observed (render chart2 now2 evs2 s')
                = observed (render chart2 now2 evs2 (constructor t0)))
            /\ forall s2 t2 r,
                render chart2 now2 evs2 s' = Some (s2, t2) ->
                at_ t2 = Returned r ->
                reused r = Some (js "false")
                /\ request_count r = Some (js "1")).
Proof.
  split; [|split; [|split; [|split]]].
  - intros s t now e c1 c2 Hp. split.
    + now apply rejection_is_disposed.
    + now apply rejection_is_rethrown.
  - intros s t now success c1 c2 Hat Hf. split.
    + now apply update_failure_is_disposed.
    + now apply update_failure_is_thrown.
  - intros s t now ev s1 t1 c1 c2. apply failing_step_is_disposed.
  - intros config now s s1 t1 c1 c2. apply failing_entry_is_disposed.
  - intros s chart now evs s' t' e Hr Ht.
    assert (Hreset : is_reset s').
    { apply stage_render in Hr. unfold stage in Hr. now rewrite Ht in Hr. }
    split; [exact Hreset|].
    intros chart2 now2 evs2. split.
    + intros t0. apply alike_render. now apply reset_alike_fresh.
    + intros s2 t2 r Hr2 Ht2.
      apply stage_render in Hr2. unfold stage in Hr2. rewrite Ht2 in Hr2.
      destruct Hreset as (_ & _ & Hc). rewrite Hc in Hr2.
      destruct Hr2 as (_ & Hcount & Hreused). split; assumption.
Qed.

Lemma render_failure_resets_session_witness :
  awaits [(7000, Rejected timeout); (7005, Fulfilled Nothing);
          (7010, Rejected timeout)]
         warm (mkThread AwaitReady (Some bar_chart) 2000 2000 0 0)
  = Some [AwaitReady; AwaitPageClose (Rethrow timeout);
          AwaitBrowserClose (Rethrow timeout)]
  /\ exists s' t',
      render (Some bar_chart) 0 (engine_starts ++ update_fails 1000)
             (constructor 0)
        = Some (s', t')
      /\ at_ t' = Thrown (Error "Failed to update chart")
      /\ is_reset s'
      /\ forall s2 t2 r,
          render (Some bar_chart) 9000 (engine_starts ++ chart_renders 10000) s'
            = Some (s2, t2) ->
          at_ t2 = Returned r ->
          reused r = Some (js "false") /\ request_count r = Some (js "1").
Proof.
  split.
  - exact (proj1 (proj1 render_failure_resets_session warm
                    (mkThread AwaitReady (Some bar_chart) 2000 2000 0 0)
                    7000 timeout (7005, Fulfilled Nothing)
                    (7010, Rejected timeout) eq_refl)).
  - destruct (render (Some bar_chart) 0 (engine_starts ++ update_fails 1000)
                     (constructor 0)) as [[s' t']|] eqn:Hr;
      [|vm_compute in Hr; discriminate Hr].
    assert (Ht : at_ t' = Thrown (Error "Failed to update chart")).
    { vm_compute in Hr. injection Hr as <- <-. reflexivity. }
    exists s', t'.
    destruct (proj2 (proj2 (proj2 (proj2 render_failure_resets_session)))
                _ _ _ _ _ _ _ Hr Ht)
      as [Hreset Hnext].
    split; [reflexivity|]. split; [exact Ht|]. split; [exact Hreset|].
    intros s2 t2 r H2 Hr2.
    exact (proj2 (Hnext (Some bar_chart) 9000
                        (engine_starts ++ chart_renders 10000)) s2 t2 r H2 Hr2).
Defined.

(** ** Successive renders *)

Lemma serve_counts calls : forall s s' rs,
  serve calls s = Some (s', rs) ->
  requestCount s' = requestCount s + Z.of_nat (List.length rs)
  /\ forall i r, nth_error rs i = Some r ->
       request_count r = Some (Z_chars (requestCount s + Z.of_nat i + 1))
       /\ reused r = Some (if 1 <? requestCount s + Z.of_nat i + 1
                           then js "true" else js "false").
Proof.
  induction calls as [|[[chart now] evs] calls IH]; intros s s' rs H; simpl in H.
  - invert H. simpl. split; [lia|]. intros [|i] r Hn; discriminate.
  - destruct (render chart now evs s) as [[s1 t1]|] eqn:Er; [|discriminate].
    destruct (at_ t1) eqn:Et; try discriminate.
    destruct (serve calls s1) as [[s2 rs2]|] eqn:Es; [|discriminate].
    invert H.
    apply stage_render in Er. unfold stage in Er. rewrite Et in Er.
    destruct Er as (Hc & Hcount & Hreused).
    destruct (IH _ _ _ Es) as [Hlen Hnth].
    split; [simpl List.length; lia|].
    intros [|i] r0 Hn; simpl in Hn.
    + invert Hn. rewrite Z.add_0_r. split; assumption.
    + destruct (Hnth i r0 Hn) as [H1 H2]. rewrite Hc in H1, H2.
      replace (requestCount s + Z.of_nat (S i) + 1)
        with (requestCount s + 1 + Z.of_nat i + 1) by lia.
      split; assumption.
Qed.

(** C3: successful renders served one after the other on a fresh key
    report [requestCount] 1, 2, 3, ... and [reused] false for the first and
    true afterwards; and any successful response reports
    [reused = (requestCount > 1)]. *)
Theorem successive_renders_count_up :
  (forall t0 calls s' rs,
      serve calls (constructor t0) = Some (s', rs) ->
      forall i r, nth_error rs i = Some r ->
        request_count r = Some (Z_chars (Z.of_nat i + 1))
        /\ reused r = Some (if Nat.eqb i 0 then js "false" else js "true"))
  /\ (forall s chart now evs s' t r,
        render chart now evs s = Some (s', t) ->
        at_ t = Returned r ->
        exists n,
          request_count r = Some (Z_chars n)
          /\ reused r = Some (if 1 <? n then js "true" else js "false")).
Proof.
  split.
  - intros t0 calls s' rs Hs i r Hn.
    destruct (serve_counts _ _ Hs) as [_ H].
    destruct (H i r Hn) as [Hc Hr]. simpl in Hc, Hr.
    split; [exact Hc|]. rewrite Hr.
    destruct i as [|i]; [reflexivity|].
    replace (1 <? Z.of_nat (S i) + 1) with true; [reflexivity|].
    symmetry. apply Z.ltb_lt. lia.
  - intros s chart now evs s' t r Hr Ht.
    apply stage_render in Hr. unfold stage in Hr. rewrite Ht in Hr.
    destruct Hr as (_ & Hc & Hre). eauto.
Qed.

Lemma successive_renders_count_up_witness :
  exists s' r1 r2,
    serve cold_then_warm (constructor 0) = Some (s', [r1; r2])
    /\ (request_count r1 = Some (js "1") /\ reused r1 = Some (js "false"))
    /\ (request_count r2 = Some (js "2") /\ reused r2 = Some (js "true")).
Proof.
  destruct (serve cold_then_warm (constructor 0)) as [[s' rs]|] eqn:E;
    [|discriminate E].
  pose proof (proj1 successive_renders_count_up 0 cold_then_warm s' rs E) as H.
  vm_compute in E. injection E as <- <-.
  do 3 eexists. split; [reflexivity|].
  split; [apply (H 0%nat) | apply (H 1%nat)]; reflexivity.
Defined.

(** ** The idle check *)

Lemma resume_keeps_alarm now ev s t s' t' :
  resume now ev s t = Some (s', t') -> alarm_time s' = alarm_time s.
Proof.
  unfold resume, enter, after_init, on_page, catch, cleanup,
    cleanup_page_closed, cleanup_browser_closed.
  intros H. repeat case_on_match; try discriminate;
    repeat match goal with
      | H : Some _ = Some _ |- _ => invert H
      | H : (_, _) = (_, _) |- _ => invert H
      end; reflexivity.
Qed.

(** Only [alarm] itself sets the alarm, and it runs only when one is due. *)
Lemma alarm_needs_alarm now s : alarm_time s = None -> alarm now s = None.
Proof. unfold alarm. now intros ->. Qed.

Lemma deliver_keeps_unarmed e c c' :
  alarm_time (session c) = None ->
  deliver e c = Some c' -> alarm_time (session c') = None.
Proof.
  intros Hn H. destruct e as [|i now ev|now]; simpl in H.
  - now invert H.
  - destruct (nth_error (handlers c) i) as [t|]; [|discriminate].
    destruct (resume now ev (session c) t) as [[s' t']|] eqn:E; [|discriminate].
    invert H. simpl. rewrite (resume_keeps_alarm _ _ _ _ E). exact Hn.
  - now rewrite (alarm_needs_alarm now _ Hn) in H.
Qed.

Lemma never_armed es : forall c c',
  alarm_time (session c) = None ->
  deliver_all es c = Some c' -> alarm_time (session c') = None.
Proof.
  induction es as [|e es IH]; intros c c' Hn H; simpl in H.
  - now invert H.
  - destruct (deliver e c) as [c1|] eqn:E; [|discriminate].
    eapply IH; [|exact H]. eapply deliver_keeps_unarmed; eauto.
Qed.

(** What [alarm()] does when it runs: teardown after more than five minutes
    of idleness, a new check in 60 s otherwise. *)
Lemma alarm_tears_down_when_idle now due s c1 c2 :
  alarm_time s = Some due -> due <= now -> 5 * 60 * 1000 < now - lastUsed s ->
  exists s0 t0 s' t',
    alarm now s = Some (s0, t0)
    /\ run [c1; c2] s0 t0 = Some (s', t')
    /\ at_ t' = AlarmReturned /\ is_reset s' /\ alarm_time s' = None.
Proof.
  intros Ha Hd Hi. unfold alarm. rewrite Ha.
  apply Z.leb_le in Hd. apply Z.ltb_lt in Hi. rewrite Hd. simpl lastUsed.
  rewrite Hi. destruct c1 as [n1 e1], c2 as [n2 e2].
  destruct s as [b p l c a]. unfold cleanup. simpl.
  destruct p, b; simpl; do 4 eexists; repeat split.
Qed.

Lemma alarm_reschedules_when_active now due s :
  alarm_time s = Some due -> due <= now -> now - lastUsed s <= 5 * 60 * 1000 ->
  exists s' t',
    alarm now s = Some (s', t')
    /\ at_ t' = AwaitSetAlarm
    /\ alarm_time s' = Some (now + 60000)
    /\ browser s' = browser s /\ page s' = page s
    /\ requestCount s' = requestCount s.
Proof.
  intros Ha Hd Hi. unfold alarm. rewrite Ha.
  apply Z.leb_le in Hd. rewrite Hd. simpl lastUsed.
  replace (5 * 60 * 1000 <? now - lastUsed s) with false
    by (symmetry; apply Z.ltb_ge; exact Hi).
  do 2 eexists. repeat split.
Qed.

(** C4: no idle check is ever scheduled.  From a new object no delivery of
    requests and settlements sets the alarm, so [alarm()] never runs: after
    a first, successful initialization the browser and the page are live
    and stay so however long the session is idle. *)
Theorem idle_check_is_never_scheduled :
  (forall t0 es,
      match deliver_all es (start t0) with
      | Some c => alarm_time (session c) = None
                  /\ forall now, deliver (Alarm now) c = None
      | None => True
      end)
  /\ exists s' r,
      Session.fetch (Gateway.doRequest (Some bar_chart)) 0
                    (engine_starts ++ chart_renders 1000) (constructor 0)
        = Some (s', Return r)
      /\ browser s' = Some 1%nat /\ page s' = Some 2%nat
      /\ alarm_time s' = None
      /\ forall now, alarm now s' = None.
Proof.
  split.
  - intros t0 es. destruct (deliver_all es (start t0)) as [c|] eqn:E; [|exact I].
    assert (Hn : alarm_time (session c) = None)
      by (eapply never_armed; [|exact E]; reflexivity).
    split; [exact Hn|]. intros now. simpl.
    now rewrite (alarm_needs_alarm now _ Hn).
  - do 2 eexists. split; [vm_compute; reflexivity|].
    repeat split.
Qed.

(** ** Interleaved handlers *)

Lemma finished_cannot_resume now ev s t :
  finished t = true -> resume now ev s t = None.
Proof.
  unfold finished, resume. destruct (at_ t); try discriminate;
    destruct ev as [[]|]; reflexivity.
Qed.

Lemma in_render_unfinished t : in_render t = true -> finished t = false.
Proof. unfold in_render, finished. destruct (at_ t); auto; discriminate. Qed.

Lemma in_render_le_unfinished l :
  (List.length (filter in_render l) <= unfinished l)%nat.
Proof.
  unfold unfinished. induction l as [|t l IH]; simpl; [lia|].
  destruct (in_render t) eqn:E.
  - rewrite (in_render_unfinished _ E). simpl. lia.
  - destruct (negb (finished t)); simpl; lia.
Qed.

Lemma unfinished_app l1 l2 :
  unfinished (l1 ++ l2) = (unfinished l1 + unfinished l2)%nat.
Proof. unfold unfinished. now rewrite filter_app, length_app. Qed.

Lemma unfinished_all_finished l :
  forallb finished l = true -> unfinished l = 0%nat.
Proof.
  unfold unfinished. induction l as [|t l IH]; simpl; [reflexivity|].
  intros H. apply andb_true_iff in H as [Ht Hl]. rewrite Ht. simpl. auto.
Qed.

Lemma unfinished_replace t t' : forall i l,
  nth_error l i = Some t -> finished t = false ->
  (unfinished (replace_nth i t' l) <= unfinished l)%nat.
Proof.
  unfold unfinished.
  induction i as [|i IH]; intros [|x l] Hn Hf; simpl in *; try discriminate.
  - invert Hn. rewrite Hf. simpl. destruct (negb (finished t')); simpl; lia.
  - specialize (IH l Hn Hf). destruct (negb (finished x)); simpl; lia.
Qed.

Lemma serial_step e c c' :
  (unfinished (handlers c) <= 1)%nat ->
  deliver_serially e c = Some c' ->
  (unfinished (handlers c') <= 1)%nat.
Proof.
  intros Hc H. destruct e as [|i now ev|now]; simpl in H.
  - destruct (forallb finished (handlers c)) eqn:Ef; [|discriminate].
    invert H. simpl. rewrite unfinished_app, (unfinished_all_finished _ Ef).
    unfold unfinished. simpl. lia.
  - destruct (nth_error (handlers c) i) as [t|] eqn:En; [|discriminate].
    destruct (resume now ev (session c) t) as [[s' t']|] eqn:Er; [|discriminate].
    invert H. simpl.
    assert (Hf : finished t = false).
    { destruct (finished t) eqn:Ef; [|reflexivity].
      rewrite (finished_cannot_resume now ev (session c) t Ef) in Er.
      discriminate. }
    pose proof (unfinished_replace t' i _ En Hf). lia.
  - destruct (forallb finished (handlers c)) eqn:Ef; [|discriminate].
    destruct (alarm now (session c)) as [[s' t]|]; [|discriminate].
    invert H. simpl. rewrite unfinished_app, (unfinished_all_finished _ Ef).
    unfold unfinished. simpl. destruct (negb (finished t)); simpl; lia.
Qed.

Lemma serial_run es : forall c c',
  (unfinished (handlers c) <= 1)%nat ->
  deliver_all_serially es c = Some c' ->
  (unfinished (handlers c') <= 1)%nat.
Proof.
  induction es as [|e es IH]; intros c c' Hc H; simpl in H.
  - now invert H.
  - destruct (deliver_serially e c) as [c1|] eqn:E; [|discriminate].
    eapply IH; [|exact H]. eapply serial_step; eauto.
Qed.

(** C2, as the code has it: renders on one key do not overlap when each
    request is delivered after the handler before it has ended. *)
Theorem serial_delivery_never_overlaps t0 es c :
  deliver_all_serially es (start t0) = Some c -> overlap c = false.
Proof.
  intros H. unfold overlap. apply Nat.ltb_ge.
  pose proof (in_render_le_unfinished (handlers c)).
  assert ((unfinished (handlers c) <= 1)%nat).
  { eapply serial_run; [|exact H]. unfold unfinished. simpl. lia. }
  lia.
Qed.

Lemma serial_delivery_never_overlaps_witness :
  exists c,
    deliver_all_serially one_after_the_other (start 0) = Some c
    /\ List.length (handlers c) = 2%nat
    /\ overlap c = false.
Proof.
  destruct (deliver_all_serially one_after_the_other (start 0)) as [c|] eqn:E;
    [|vm_compute in E; discriminate E].
  exists c. split; [reflexivity|]. split.
  - vm_compute in E. injection E as <-. reflexivity.
  - exact (serial_delivery_never_overlaps 0 one_after_the_other E).
Defined.

(** C2 as stated fails: the handler holds no lock.  Two requests that
    arrive together both start the engine; and on a warm session a request
    that arrives while another awaits its screenshot redraws the shared
    page. *)
Lemma renders_overlap :
  (exists c,
      deliver_all two_cold_requests (start 0) = Some c
      /\ map at_ (handlers c) = [AwaitLaunch; AwaitLaunch]
      /\ overlap c = true)
  /\ (exists c,
        deliver_all second_during_capture (start 0) = Some c
        /\ tl (map at_ (handlers c))
           = [AwaitCapture; AwaitViewport (Int 500) (Int 300)]
        /\ overlap c = true).
Proof.
  split; eexists; (split; [vm_compute; reflexivity|]); split; reflexivity.
Qed.

End SessionProperties.

Section Enumeration.
Local Open Scope N_scope.

(** A property of the numbers below [n], checked one by one. *)
Lemma below_by_cases (P : N -> bool) (n : nat) :
  forallb P (map N.of_nat (seq 0 n)) = true ->
  forall i, i < N.of_nat n -> P i = true.
Proof.
  intros H i Hi. rewrite forallb_forall in H. apply H.
  apply in_map_iff. exists (N.to_nat i). split; [apply N2Nat.id|].
  apply in_seq. lia.
Qed.

End Enumeration.

Module Base64Properties.
Import JS Base64.
Local Open Scope N_scope.

Lemma sextet_alphabet i : i < 64 -> sextet (alphabet i) = Some i.
Proof.
  intros Hi.
  pose proof (@below_by_cases
                (fun i => match sextet (alphabet i) with
                          | Some j => j =? i
                          | None => false
                          end) 64 eq_refl i Hi) as H.
  simpl in H. destruct (sextet (alphabet i)); [|discriminate].
  apply N.eqb_eq in H. now subst.
Qed.

Lemma alphabet_plain i :
  i < 64 ->
  is_ascii_white (alphabet i) = false /\ (alphabet i =? 61) = false.
Proof.
  intros Hi.
  pose proof (@below_by_cases
                (fun i => negb (is_ascii_white (alphabet i))
                          && negb (alphabet i =? 61)) 64 eq_refl i Hi) as H.
  simpl in H. apply andb_true_iff in H as [H1 H2].
  split; now apply negb_true_iff.
Qed.

Lemma split_div x y d :
  y < d -> (x * d + y) / d = x /\ (x * d + y) mod d = y.
Proof.
  intros H. split.
  - symmetry. apply (N.div_unique _ d x y); lia.
  - symmetry. apply (N.mod_unique _ d x y); lia.
Qed.

(** Three bytes make four sextets, and back. *)
Lemma triple_sextets a b c :
  a <= 255 -> b <= 255 -> c <= 255 ->
  (a / 4 < 64 /\ a mod 4 * 16 + b / 16 < 64
   /\ b mod 16 * 4 + c / 64 < 64 /\ c mod 64 < 64)
  /\ a / 4 * 4 + (a mod 4 * 16 + b / 16) / 16 = a
  /\ (a mod 4 * 16 + b / 16) mod 16 * 16 + (b mod 16 * 4 + c / 64) / 4 = b
  /\ (b mod 16 * 4 + c / 64) mod 4 * 64 + c mod 64 = c.
Proof.
  intros Ha Hb Hc.
  pose proof (N.div_mod a 4 ltac:(lia)) as Ea.
  pose proof (N.mod_lt a 4 ltac:(lia)) as La.
  pose proof (N.div_mod b 16 ltac:(lia)) as Eb.
  pose proof (N.mod_lt b 16 ltac:(lia)) as Lb.
  pose proof (N.div_mod c 64 ltac:(lia)) as Ec.
  pose proof (N.mod_lt c 64 ltac:(lia)) as Lc.
  set (a1 := a / 4) in *. set (a0 := a mod 4) in *.
  set (b1 := b / 16) in *. set (b0 := b mod 16) in *.
  set (c1 := c / 64) in *. set (c0 := c mod 64) in *.
  assert (Lb1 : b1 < 16) by lia.
  assert (Lc1 : c1 < 4) by lia.
  destruct (split_div a0 (y:=b1) (d:=16) Lb1) as [-> ->].
  destruct (split_div b0 (y:=c1) (d:=4) Lc1) as [-> ->].
  repeat split; lia.
Qed.

Lemma single_sextets a :
  a <= 255 ->
  (a / 4 < 64 /\ a mod 4 * 16 < 64) /\ a / 4 * 4 + a mod 4 * 16 / 16 = a.
Proof.
  intros Ha.
  destruct (triple_sextets (a:=a) (b:=0) (c:=0)) as ((H1 & H2 & _) & H & _);
    try lia.
  change (0 / 16) with 0 in *. rewrite N.add_0_r in *. auto.
Qed.

Lemma pair_sextets a b :
  a <= 255 -> b <= 255 ->
  (a / 4 < 64 /\ a mod 4 * 16 + b / 16 < 64 /\ b mod 16 * 4 < 64)
  /\ a / 4 * 4 + (a mod 4 * 16 + b / 16) / 16 = a
  /\ (a mod 4 * 16 + b / 16) mod 16 * 16 + b mod 16 * 4 / 4 = b.
Proof.
  intros Ha Hb.
  destruct (triple_sextets (a:=a) (b:=b) (c:=0)) as ((H1 & H2 & H3 & _) & H & H' & _);
    try lia.
  change (0 / 64) with 0 in *. rewrite N.add_0_r in *. auto.
Qed.

Lemma list_ind3 (A : Type) (P : list A -> Prop) :
  P [] -> (forall a, P [a]) -> (forall a b, P [a; b]) ->
  (forall a b c r, P r -> P (a :: b :: c :: r)) ->
  forall l, P l.
Proof.
  intros H0 H1 H2 H3.
  fix IH 1. intros [|a [|b [|c r]]]; [exact H0 | apply H1 | apply H2 | apply H3, IH].
Qed.

Lemma strip_plain c r :
  is_ascii_white c = false -> strip (c :: r) = c :: strip r.
Proof. intros H. unfold strip. simpl. now rewrite H. Qed.

Lemma drop_pad_plain c r :
  (c =? 61) = false -> drop_pad (c :: r) = c :: drop_pad r.
Proof. intros H. simpl. now rewrite H. Qed.

Lemma decode_chars_four c1 c2 c3 c4 x1 x2 x3 x4 r :
  sextet c1 = Some x1 -> sextet c2 = Some x2 ->
  sextet c3 = Some x3 -> sextet c4 = Some x4 ->
  decode_chars (c1 :: c2 :: c3 :: c4 :: r)
  = bind (decode_chars r) (fun t =>
      Return (x1 * 4 + x2 / 16 :: x2 mod 16 * 16 + x3 / 4
              :: x3 mod 4 * 64 + x4 :: t)).
Proof.
  intros H1 H2 H3 H4. unfold decode_chars. cbn [sextets].
  rewrite H1, H2, H3, H4. destruct (sextets r); reflexivity.
Qed.

Lemma encode_decodes : forall s,
  latin1 s = true ->
  strip (encode s) = encode s
  /\ Nat.modulo (List.length (encode s)) 4 = 0%nat
  /\ decode_chars (drop_pad (encode s)) = Return s.
Proof.
  induction s as [|a|a b|a b c r IH] using list_ind3; intros Hl.
  - repeat split.
  - simpl in Hl. rewrite andb_true_r in Hl. apply N.leb_le in Hl.
    destruct (single_sextets Hl) as ((L1 & L2) & E).
    destruct (alphabet_plain L1) as [W1 P1], (alphabet_plain L2) as [W2 P2].
    cbn [encode]. split; [|split].
    + now rewrite !strip_plain by assumption.
    + reflexivity.
    + rewrite !drop_pad_plain by assumption.
      unfold decode_chars. cbn [drop_pad sextets]. simpl.
      rewrite !sextet_alphabet by assumption. cbn [decode]. now rewrite E.
  - simpl in Hl. rewrite andb_true_r in Hl.
    apply andb_true_iff in Hl as [Ha Hb].
    apply N.leb_le in Ha, Hb.
    destruct (pair_sextets Ha Hb) as ((L1 & L2 & L3) & E1 & E2).
    destruct (alphabet_plain L1) as [W1 P1], (alphabet_plain L2) as [W2 P2],
             (alphabet_plain L3) as [W3 P3].
    cbn [encode]. split; [|split].
    + now rewrite !strip_plain by assumption.
    + reflexivity.
    + rewrite !drop_pad_plain by assumption.
      unfold decode_chars. cbn [drop_pad sextets]. simpl.
      rewrite !sextet_alphabet by assumption. cbn [decode]. now rewrite E1, E2.
  - cbn [latin1 forallb] in Hl.
    apply andb_true_iff in Hl as [Ha Hl].
    apply andb_true_iff in Hl as [Hb Hl].
    apply andb_true_iff in Hl as [Hc Hl].
    apply N.leb_le in Ha, Hb, Hc.
    destruct (IH Hl) as (IH1 & IH2 & IH3).
    destruct (triple_sextets Ha Hb Hc) as ((L1 & L2 & L3 & L4) & E1 & E2 & E3).
    destruct (alphabet_plain L1) as [W1 P1], (alphabet_plain L2) as [W2 P2],
             (alphabet_plain L3) as [W3 P3], (alphabet_plain L4) as [W4 P4].
    cbn [encode]. split; [|split].
    + rewrite !strip_plain by assumption. now rewrite IH1.
    + cbn [List.length].
      change (S (S (S (S (List.length (encode r))))))
        with (4 + List.length (encode r))%nat.
      replace (4 + List.length (encode r))%nat
        with (List.length (encode r) + 1 * 4)%nat by lia.
      rewrite Nat.Div0.mod_add. exact IH2.
    + rewrite !drop_pad_plain by assumption.
      rewrite (@decode_chars_four _ _ _ _ _ _ _ _ _
                 (sextet_alphabet L1) (sextet_alphabet L2)
                 (sextet_alphabet L3) (sextet_alphabet L4)).
      rewrite IH3. cbn [bind]. now rewrite E1, E2, E3.
Qed.

(** [atob] undoes [btoa] on a string of code units below 256. *)
Lemma atob_btoa s :
  latin1 s = true ->
  bind (btoa s) (fun b => atob (Some (VStr b))) = Return s.
Proof.
  intros Hl. unfold btoa. rewrite Hl. cbn [bind].
  destruct (encode_decodes s Hl) as (H1 & H2 & H3).
  unfold atob. cbn [toString toString_value]. rewrite H1, H2. exact H3.
Qed.

(** [btoa] throws as soon as one code unit is above 255. *)
Lemma btoa_throws s :
  latin1 s = false -> exists e, btoa s = Throw e.
Proof. intros H. unfold btoa. rewrite H. eauto. Qed.

End Base64Properties.

Module JSONProperties.
Import JS JSON JSONText.
Local Open Scope N_scope.
Local Unset Implicit Arguments.

(** ** Numbers *)

Lemma read_digits_uint_chars d rest :
  delimited rest -> read_digits (uint_chars d ++ rest) = (d, rest).
Proof.
  intros Hr. induction d; simpl; try (rewrite IHd; reflexivity).
  destruct rest as [|c r]; [reflexivity|]. simpl.
  destruct Hr as [-> _]. reflexivity.
Qed.

Lemma to_uint_shape n :
  N.to_uint n <> Decimal.Nil /\ leading_zero (N.to_uint n) = false.
Proof.
  pose proof (DecimalN.Unsigned.to_of (N.to_uint n)) as H.
  rewrite DecimalN.Unsigned.of_to in H.
  split.
  - rewrite H. apply unorm_nonnil.
  - destruct (N.to_uint n) as [|d| | | | | | | | |] eqn:E; try reflexivity.
    destruct d; try reflexivity; exfalso.
    all: rewrite unorm_D0 in H; unfold Decimal.unorm in H;
      match type of H with
      | _ = match Decimal.nzhead ?u with _ => _ end =>
          pose proof (@nzhead_nonzero u) as Hz;
          destruct (Decimal.nzhead u); try discriminate;
          injection H as H; eapply Hz; rewrite <- H; reflexivity
      end.
Qed.

Lemma split_sign_digits d rest :
  d <> Decimal.Nil ->
  split_sign (uint_chars d ++ rest) = (false, uint_chars d ++ rest).
Proof. intros Hn. destruct d; try reflexivity. contradiction. Qed.

Lemma parse_number_digits neg d rest :
  d <> Decimal.Nil -> leading_zero d = false -> delimited rest ->
  parse_digits neg (uint_chars d ++ rest)
  = Return (VNum (Int (if neg then (- Z.of_N (N.of_uint d))%Z
                       else Z.of_N (N.of_uint d))), rest).
Proof.
  intros Hn Hz Hr. unfold parse_digits.
  rewrite (@read_digits_uint_chars d rest Hr), Hz.
  assert (Hf : starts_fraction rest = false).
  { destruct rest; [reflexivity|]. apply Hr. }
  rewrite Hf. destruct d; try reflexivity. contradiction.
Qed.

Lemma parse_number_Z_chars z rest :
  delimited rest ->
  parse_number (Z_chars z ++ rest) = Return (VNum (Int z), rest).
Proof.
  intros Hr. destruct (to_uint_shape (Z.abs_N z)) as [Hn Hz].
  unfold Z_chars, parse_number. destruct (z <? 0)%Z eqn:E.
  - cbn [app split_sign N.eqb Pos.eqb].
    rewrite (@parse_number_digits true _ rest Hn Hz Hr), DecimalN.Unsigned.of_to.
    apply Z.ltb_lt in E. now replace (- Z.of_N (Z.abs_N z))%Z with z by lia.
  - rewrite (@split_sign_digits _ rest Hn).
    rewrite (@parse_number_digits false _ rest Hn Hz Hr), DecimalN.Unsigned.of_to.
    apply Z.ltb_ge in E. now replace (Z.of_N (Z.abs_N z)) with z by lia.
Qed.

(** ** Strings *)

Lemma hex_value_digit d : d < 16 -> hex_value (hex_digit d) = Some d.
Proof.
  intros Hd.
  pose proof (@below_by_cases
                (fun i => match hex_value (hex_digit i) with
                          | Some j => j =? i
                          | None => false
                          end) 16 eq_refl d Hd) as H.
  simpl in H. destruct (hex_value (hex_digit d)); [|discriminate].
  apply N.eqb_eq in H. now subst.
Qed.

Lemma hex4_value c :
  c < 65536 ->
  ((c / 4096 mod 16 * 16 + c / 256 mod 16) * 16 + c / 16 mod 16) * 16
  + c mod 16 = c.
Proof.
  intros Hc.
  replace (c / 256) with (c / 16 / 16) by (rewrite N.Div0.div_div; reflexivity).
  replace (c / 4096) with (c / 16 / 16 / 16)
    by (rewrite !N.Div0.div_div; reflexivity).
  pose proof (N.div_mod c 16 ltac:(lia)) as E1.
  pose proof (N.mod_lt c 16 ltac:(lia)) as L1.
  set (q1 := c / 16) in *.
  pose proof (N.div_mod q1 16 ltac:(lia)) as E2.
  pose proof (N.mod_lt q1 16 ltac:(lia)) as L2.
  set (q2 := q1 / 16) in *.
  pose proof (N.div_mod q2 16 ltac:(lia)) as E3.
  pose proof (N.mod_lt q2 16 ltac:(lia)) as L3.
  set (q3 := q2 / 16) in *.
  set (m0 := c mod 16) in *. set (m1 := q1 mod 16) in *.
  set (m2 := q2 mod 16) in *.
  clearbody q1 q2 q3 m0 m1 m2.
  assert (L4 : q3 < 16) by lia.
  rewrite (N.mod_small q3 16 L4). lia.
Qed.

Lemma parse_unicode_escape c r :
  c < 65536 ->
  parse_string (unicode_escape c ++ r) = consed c (parse_string r).
Proof.
  intros Hc. unfold unicode_escape, hex4.
  cbn [app parse_string N.eqb Pos.eqb].
  rewrite !hex_value_digit by (apply N.mod_lt; lia).
  now rewrite (hex4_value c Hc).
Qed.

Lemma parse_raw c r :
  (c =? 34) = false -> (c =? 92) = false -> (c <? 32) = false ->
  parse_string (c :: r) = consed c (parse_string r).
Proof. intros H1 H2 H3. cbn [parse_string]. now rewrite H1, H2, H3. Qed.

Lemma parse_escape c r :
  is_high c = false -> is_low c = false ->
  parse_string (escape c ++ r) = consed c (parse_string r).
Proof.
  intros _ _. unfold escape.
  repeat match goal with
         | |- context [if ?c =? ?k then _ else _] =>
             destruct (c =? k) eqn:?;
             [ match goal with H : (_ =? _) = true |- _ =>
                 apply N.eqb_eq in H; subst; reflexivity end | ]
         end.
  destruct (c <? 32) eqn:E.
  - apply parse_unicode_escape. apply N.ltb_lt in E. lia.
  - now apply parse_raw.
Qed.

Lemma surrogate_raw c r :
  is_high c = true \/ is_low c = true ->
  parse_string (c :: r) = consed c (parse_string r)
  /\ parse_string (unicode_escape c ++ r) = consed c (parse_string r).
Proof.
  intros H.
  assert (Hc : 55296 <= c <= 57343).
  { unfold is_high, is_low in H.
    destruct H as [H|H]; apply andb_true_iff in H as [H1 H2];
      apply N.leb_le in H1, H2; lia. }
  split.
  - apply parse_raw; [apply N.eqb_neq | apply N.eqb_neq | apply N.ltb_ge]; lia.
  - apply parse_unicode_escape. lia.
Qed.

Lemma parse_quote_chars n : forall s rest,
  (List.length s <= n)%nat ->
  parse_string (quote_chars s ++ 34 :: rest) = Return (s, rest).
Proof.
  induction n as [|n IH]; intros s rest Hn.
  - destruct s; [reflexivity|simpl in Hn; lia].
  - destruct s as [|h t]; [reflexivity|]. simpl in Hn.
    cbn [quote_chars].
    destruct (is_high h) eqn:Hh.
    + destruct (surrogate_raw h (quote_chars t ++ 34 :: rest) (or_introl Hh))
        as [_ Hesc].
      destruct t as [|l t'].
      * destruct (surrogate_raw h (34 :: rest) (or_introl Hh)) as [_ Hesc'].
        rewrite Hesc'. reflexivity.
      * destruct (is_low l) eqn:Hl.
        -- cbn [app].
           destruct (surrogate_raw h (l :: quote_chars t' ++ 34 :: rest)
                       (or_introl Hh)) as [-> _].
           destruct (surrogate_raw l (quote_chars t' ++ 34 :: rest)
                       (or_intror Hl)) as [-> _].
           rewrite IH by (simpl in Hn; lia). reflexivity.
        -- rewrite <- app_assoc, Hesc, IH by lia. reflexivity.
    + destruct (is_low h) eqn:Hl.
      * destruct (surrogate_raw h (quote_chars t ++ 34 :: rest) (or_intror Hl))
          as [_ Hesc].
        rewrite <- app_assoc, Hesc, IH by lia. reflexivity.
      * rewrite <- app_assoc, (@parse_escape _ _ Hh Hl), IH by lia. reflexivity.
Qed.

Lemma parse_quote s rest :
  parse_string (quote_chars s ++ 34 :: rest) = Return (s, rest).
Proof. now apply (@parse_quote_chars (List.length s)). Qed.

(** ** Values *)

Lemma value_ind' (P : value -> Prop) :
  P VNull -> (forall b, P (VBool b)) -> (forall n, P (VNum n)) ->
  (forall s, P (VStr s)) ->
  (forall xs, Forall P xs -> P (VArr xs)) ->
  (forall ps, Forall (fun p => P (snd p)) ps -> P (VObj ps)) ->
  forall v, P v.
Proof.
  intros Hnull Hbool Hnum Hstr Harr Hobj.
  fix IH 1. intros [| b | n | s | xs | ps].
  - exact Hnull.
  - apply Hbool.
  - apply Hnum.
  - apply Hstr.
  - apply Harr. induction xs as [|x xs IHxs]; constructor; [apply IH|exact IHxs].
  - apply Hobj. induction ps as [|p ps IHps]; constructor; [apply IH|exact IHps].
Qed.

Lemma stringify_array xs : stringify (VArr xs) = 91 :: elements_text xs.
Proof.
  cbn [stringify]. f_equal.
  induction xs as [|x xs IH]; [reflexivity|].
  destruct xs as [|y xs]; [reflexivity|].
  change (elements_text (x :: y :: xs))
    with (stringify x ++ 44 :: elements_text (y :: xs)).
  rewrite <- IH.
  change (map stringify (x :: y :: xs))
    with (stringify x :: map stringify (y :: xs)).
  change (join [44] (stringify x :: map stringify (y :: xs)))
    with (stringify x ++ [44] ++ join [44] (map stringify (y :: xs))).
  now rewrite <- !app_assoc.
Qed.

Lemma stringify_object ps : stringify (VObj ps) = 123 :: members_text ps.
Proof.
  cbn [stringify]. f_equal.
  induction ps as [|p ps IH]; [reflexivity|].
  destruct ps as [|q ps].
  - destruct p as [k x]. reflexivity.
  - change (members_text (p :: q :: ps))
      with (member_text p ++ 44 :: members_text (q :: ps)).
    rewrite <- IH.
    set (f := fun p : jsstring * value =>
                match p with (k, x) => quote k ++ 58 :: stringify x end) in *.
    change (map f (p :: q :: ps)) with (f p :: map f (q :: ps)).
    change (join [44] (f p :: map f (q :: ps)))
      with (f p ++ [44] ++ join [44] (map f (q :: ps))).
    replace (f p) with (member_text p) by (destruct p; reflexivity).
    now rewrite <- !app_assoc.
Qed.

Lemma number_head c :
  ((c =? 45) || is_digit c) = true ->
  plain_head c /\ (c =? 34) = false /\ (c =? 91) = false /\ (c =? 123) = false.
Proof.
  intros H.
  assert (Hc : c = 45 \/ 48 <= c <= 57).
  { apply orb_true_iff in H as [H|H].
    - left. now apply N.eqb_eq.
    - right. unfold is_digit in H. apply andb_true_iff in H as [H1 H2].
      apply N.leb_le in H1, H2. lia. }
  unfold plain_head, is_json_white.
  repeat split; repeat (apply orb_false_iff; split); apply N.eqb_neq; lia.
Qed.

Lemma uint_chars_head d :
  d <> Decimal.Nil ->
  exists c r, uint_chars d = c :: r /\ is_digit c = true.
Proof. destruct d; try contradiction; intros _; do 2 eexists; split; reflexivity. Qed.

Lemma Z_chars_head z :
  exists c r, Z_chars z = c :: r /\ ((c =? 45) || is_digit c) = true.
Proof.
  unfold Z_chars. destruct (z <? 0)%Z.
  - do 2 eexists. split; reflexivity.
  - destruct (uint_chars_head _ (proj1 (to_uint_shape (Z.abs_N z))))
      as (c & r & -> & H).
    exists c, r. split; [reflexivity|]. rewrite H. apply orb_true_r.
Qed.

Lemma stringify_head v :
  exists c r, stringify v = c :: r /\ plain_head c.
Proof.
  destruct v as [| [|] | [|z] | s | xs | ps];
    try (do 2 eexists; split; [reflexivity | split; reflexivity]).
  destruct (Z_chars_head z) as (c & r & E & H).
  exists c, r. split; [exact E|]. now apply number_head.
Qed.

Lemma stringify_nonempty v : (1 <= List.length (stringify v))%nat.
Proof.
  destruct (stringify_head v) as (c & r & -> & _). simpl. lia.
Qed.

Lemma skip_ws_plain c r : is_json_white c = false -> skip_ws (c :: r) = c :: r.
Proof. intros H. simpl. now rewrite H. Qed.

(** ** Reading back what was written *)

Lemma delimited_punctuation c rest :
  c = 44 \/ c = 93 \/ c = 125 -> delimited (c :: rest).
Proof. intros [-> | [-> | ->]]; split; reflexivity. Qed.

Lemma elements_read_back xs :
  Forall reads_back xs -> forallb distinct_keys xs = true -> xs <> [] ->
  forall fuel rest,
    (List.length (elements_text xs) < fuel)%nat ->
    parse_elements fuel (elements_text xs ++ rest)
    = Return (map scrub xs, rest).
Proof.
  induction xs as [|x xs IH]; intros HP Hd Hne fuel rest Hf; [contradiction|].
  inversion HP as [|? ? Hx Hxs]; subst.
  cbn [forallb] in Hd. apply andb_true_iff in Hd as [Hdx Hdxs].
  pose proof (stringify_nonempty x) as Hlen.
  destruct fuel as [|f]; [lia|].
  destruct xs as [|y xs].
  - cbn [elements_text] in *. rewrite length_app in Hf. cbn [List.length] in Hf.
    cbn [parse_elements]. rewrite <- app_assoc.
    rewrite (Hx Hdx f ([93] ++ rest)) by
      (try lia; apply delimited_punctuation; auto).
    reflexivity.
  - change (elements_text (x :: y :: xs))
      with (stringify x ++ 44 :: elements_text (y :: xs)) in *.
    rewrite length_app in Hf. cbn [List.length] in Hf.
    cbn [parse_elements]. rewrite <- app_assoc.
    rewrite (Hx Hdx f ((44 :: elements_text (y :: xs)) ++ rest)) by
      (try lia; apply delimited_punctuation; auto).
    cbn [bind snd fst app skip_ws is_json_white N.eqb Pos.eqb orb].
    rewrite (IH Hxs Hdxs ltac:(discriminate) f rest) by lia.
    reflexivity.
Qed.

Lemma assign_fresh acc k x :
  forallb (fun a => negb (str_eqb a k)) (map fst acc) = true ->
  assign acc k x = acc ++ [(k, x)].
Proof.
  induction acc as [|[k' v] acc IH]; intros H; [reflexivity|].
  cbn [map fst forallb] in H. apply andb_true_iff in H as [H1 H2].
  apply negb_true_iff in H1. cbn [assign]. rewrite H1, IH by assumption.
  reflexivity.
Qed.

Lemma fresh_keys_split l1 k l2 :
  fresh_keys (l1 ++ k :: l2) = true ->
  forallb (fun a => negb (str_eqb a k)) l1 = true.
Proof.
  induction l1 as [|a l1 IH]; intros H; [reflexivity|].
  cbn [app fresh_keys] in H. apply andb_true_iff in H as [H1 H2].
  cbn [forallb]. rewrite (IH H2), andb_true_r.
  apply negb_true_iff in H1. rewrite existsb_app in H1.
  apply orb_false_iff in H1 as [_ H1]. cbn [existsb] in H1.
  apply orb_false_iff in H1 as [H1 _]. now rewrite H1.
Qed.

Lemma members_read_back ps :
  Forall (fun p => reads_back (snd p)) ps ->
  forallb (fun p => distinct_keys (snd p)) ps = true -> ps <> [] ->
  forall acc fuel rest,
    fresh_keys (map fst acc ++ map fst ps) = true ->
    (List.length (members_text ps) < fuel)%nat ->
    parse_members fuel acc (members_text ps ++ rest)
    = Return (acc ++ map (fun p => (fst p, scrub (snd p))) ps, rest).
Proof.
  induction ps as [|[k x] ps IH]; intros HP Hd Hne acc fuel rest Hk Hf;
    [contradiction|].
  inversion HP as [|? ? Hx Hxs]; subst. cbn [snd] in Hx.
  cbn [forallb snd] in Hd. apply andb_true_iff in Hd as [Hdx Hdxs].
  pose proof (stringify_nonempty x) as Hlen.
  cbn [map fst] in Hk.
  pose proof (@assign_fresh acc k (scrub x) (@fresh_keys_split _ _ _ Hk)) as Ha.
  destruct fuel as [|f]; [lia|].
  destruct ps as [|q ps].
  - cbn [members_text] in *. unfold member_text, quote in *. cbn [fst snd] in *.
    repeat rewrite length_app in Hf. cbn [List.length] in Hf.
    repeat rewrite length_app in Hf. cbn [List.length] in Hf.
    repeat rewrite <- app_assoc. cbn [app].
    repeat rewrite <- app_assoc. cbn [app].
    cbn [parse_members skip_ws is_json_white N.eqb Pos.eqb orb].
    rewrite parse_quote.
    cbn [bind snd fst skip_ws is_json_white N.eqb Pos.eqb orb].
    rewrite (Hx Hdx f (125 :: rest)) by
      (try lia; apply delimited_punctuation; auto).
    cbn [bind snd fst skip_ws is_json_white N.eqb Pos.eqb orb].
    rewrite Ha. reflexivity.
  - change (members_text ((k, x) :: q :: ps))
      with (member_text (k, x) ++ 44 :: members_text (q :: ps)) in *.
    unfold member_text, quote in *. cbn [fst snd] in *.
    repeat rewrite length_app in Hf. cbn [List.length] in Hf.
    repeat rewrite length_app in Hf. cbn [List.length] in Hf.
    repeat rewrite <- app_assoc. cbn [app].
    repeat rewrite <- app_assoc. cbn [app].
    cbn [parse_members skip_ws is_json_white N.eqb Pos.eqb orb].
    rewrite parse_quote.
    cbn [bind snd fst skip_ws is_json_white N.eqb Pos.eqb orb].
    rewrite (Hx Hdx f (44 :: members_text (q :: ps) ++ rest)) by
      (try lia; apply delimited_punctuation; auto).
    cbn [bind snd fst skip_ws is_json_white N.eqb Pos.eqb orb].
    rewrite Ha.
    rewrite (IH Hxs Hdxs ltac:(discriminate) (acc ++ [(k, scrub x)]) f rest).
    + rewrite <- app_assoc. reflexivity.
    + rewrite map_app, <- app_assoc. exact Hk.
    + lia.
Qed.

Lemma next_is_head c r rest k :
  plain_head c -> (c =? k) = false -> next_is k ((c :: r) ++ rest) = false.
Proof.
  intros [Hw _] Hk. unfold next_is. cbn [app]. now rewrite skip_ws_plain.
Qed.

Theorem value_reads_back v : reads_back v.
Proof.
  induction v as [| b | n | s | xs IH | ps IH] using value_ind';
    intros Hd fuel rest Hf Hr; (destruct fuel as [|f]; [simpl in Hf; lia|]).
  - reflexivity.
  - destruct b; reflexivity.
  - destruct n as [|z]; [reflexivity|].
    cbn [stringify scrub].
    destruct (Z_chars_head z) as (c & r & E & H).
    destruct (number_head c H) as ([Hw _] & H34 & H91 & H123).
    cbn [parse_value]. rewrite E. cbn [app].
    rewrite (skip_ws_plain _ _ Hw), H34, H91, H123, H.
    change (c :: r ++ rest) with ((c :: r) ++ rest). rewrite <- E.
    now apply parse_number_Z_chars.
  - cbn [stringify scrub]. unfold quote.
    cbn [app parse_value skip_ws is_json_white N.eqb Pos.eqb orb].
    rewrite <- app_assoc. cbn [app]. rewrite parse_quote. reflexivity.
  - rewrite stringify_array in *. cbn [List.length] in Hf.
    cbn [distinct_keys] in Hd.
    cbn [app parse_value skip_ws is_json_white N.eqb Pos.eqb orb].
    destruct xs as [|x xs]; [reflexivity|].
    assert (Hnext : next_is 93 (elements_text (x :: xs) ++ rest) = false).
    { destruct (stringify_head x) as (c & r & E & Hc).
      destruct xs as [|y xs]; cbn [elements_text]; rewrite E;
        rewrite <- app_assoc; apply next_is_head; auto; apply Hc. }
    rewrite Hnext.
    rewrite (elements_read_back _ IH Hd ltac:(discriminate) f rest) by lia.
    reflexivity.
  - rewrite stringify_object in *. cbn [List.length] in Hf.
    cbn [distinct_keys] in Hd. apply andb_true_iff in Hd as [Hk Hd].
    cbn [app parse_value skip_ws is_json_white N.eqb Pos.eqb orb].
    destruct ps as [|p ps]; [reflexivity|].
    assert (Hnext : next_is 125 (members_text (p :: ps) ++ rest) = false).
    { destruct ps as [|q ps]; reflexivity. }
    rewrite Hnext.
    rewrite (members_read_back _ IH Hd ltac:(discriminate) [] f rest Hk) by lia.
    reflexivity.
Qed.

(** [JSON.parse(JSON.stringify(v))] is [v] with its [NaN] turned to
    [null]. *)
Theorem parse_stringify v :
  distinct_keys v = true -> parse_text (stringify v) = Return (scrub v).
Proof.
  intros Hd. unfold parse_text.
  pose proof (value_reads_back v Hd (2 * List.length (stringify v) + 2)%nat []
                ltac:(lia) I) as H.
  rewrite List.app_nil_r in H. rewrite H. reflexivity.
Qed.

Lemma scrub_finite v : finite v = true -> scrub v = v.
Proof.
  induction v as [| b | n | s | xs IH | ps IH] using value_ind';
    intros Hf; try reflexivity.
  - destruct n; [discriminate|reflexivity].
  - cbn [scrub finite] in *. f_equal.
    induction IH as [|x xs Hx _ IHxs]; [reflexivity|].
    cbn [forallb] in Hf. apply andb_true_iff in Hf as [H1 H2].
    cbn [map]. now rewrite Hx, IHxs.
  - cbn [scrub finite] in *. f_equal.
    induction IH as [|[k x] ps Hx _ IHps]; [reflexivity|].
    cbn [forallb snd] in Hf. apply andb_true_iff in Hf as [H1 H2].
    cbn [map fst snd] in *. now rewrite Hx, IHps.
Qed.

Theorem parse_stringify_spec v :
  chart_spec v = true -> parse_text (stringify v) = Return v.
Proof.
  unfold chart_spec. intros H. apply andb_true_iff in H as [Hd Hf].
  rewrite (parse_stringify v Hd). now rewrite scrub_finite.
Qed.

End JSONProperties.

Module DecodingProperties.
Import JS Base64 JSON JSONText Normalizer Examples DecodingExamples Exact.
Import Base64Properties JSONProperties.




End DecodingProperties.

Module PipelineProperties.
Import JS JSON JSONText Http Normalizer Gateway Session Shape Pipeline Exact.
Import Examples PipelineExamples.
Import NormalizerProperties JSONProperties.
Local Open Scope Z_scope.
Local Unset Implicit Arguments.

(** ** [parseInt] on integers and their decimal text *)

Lemma trim_start_Z_chars n : trim_start (Z_chars n) = Z_chars n.
Proof.
  unfold Z_chars. destruct (n <? 0); [reflexivity|].
  destruct (uint_chars_head _ (proj1 (to_uint_shape (Z.abs_N n))))
    as (c & r & E & H).
  destruct (N.to_uint (Z.abs_N n)); try discriminate; reflexivity.
Qed.

Lemma read_all_digits d : read_digits (uint_chars d) = (d, []).
Proof.
  rewrite <- (List.app_nil_r (uint_chars d)).
  now apply read_digits_uint_chars.
Qed.

Lemma parseInt_text n : parseInt (Some (VStr (Z_chars n))) = Int n.
Proof.
  unfold parseInt. cbn [toString toString_value].
  rewrite trim_start_Z_chars. unfold Z_chars.
  destruct (to_uint_shape (Z.abs_N n)) as [Hn _].
  pose proof (DecimalN.Unsigned.of_to (Z.abs_N n)) as Hof.
  destruct (n <? 0) eqn:E.
  - rewrite read_all_digits, Hof. apply Z.ltb_lt in E.
    destruct (N.to_uint (Z.abs_N n)); try contradiction; f_equal; lia.
  - apply Z.ltb_ge in E.
    assert (H : forall d, d <> Decimal.Nil ->
              match uint_chars d with
              | 45%N :: r => (true, r)
              | 43%N :: r => (false, r)
              | _ => (false, uint_chars d)
              end = (false, uint_chars d))
      by (intros d Hd; destruct d; try contradiction; reflexivity).
    rewrite (H _ Hn), read_all_digits, Hof.
    destruct (N.to_uint (Z.abs_N n)); try contradiction; f_equal; lia.
Qed.

Lemma parseInt_number n : parseInt (Some (VNum (Int n))) = Int n.
Proof. exact (parseInt_text n). Qed.

Lemma lookup_scrub ps k :
  lookup (map (fun p => (fst p, scrub (snd p))) ps) k
  = option_map scrub (lookup ps k).
Proof.
  induction ps as [|[k' v] ps IH]; [reflexivity|].
  cbn [map lookup fst snd]. destruct (str_eqb k' k); [reflexivity|exact IH].
Qed.

(** ** One dimension *)

Lemma truthy_text n : truthy (Some (VStr (Z_chars n))) = true.
Proof. destruct (Z_chars_head n) as (c & r & -> & _). reflexivity. Qed.

Lemma truthy_number n : truthy (Some (VNum (Int n))) = negb (n =? 0).
Proof. reflexivity. Qed.


(** ** The forwarded chart *)

Lemma forwarded_chart ps (A : Type) (k : jsval -> outcome A) :
  distinct_keys (VObj ps) = true ->
  bind (request_json (doRequest (Some (VObj ps))))
       (fun body => bind (get (Some body) (js "chart")) k)
  = k (Some (scrub (VObj ps))).
Proof.
  intros Hd. unfold request_json, doRequest. cbn [Normalizer.body].
  rewrite parse_stringify.
  - cbn [bind scrub map fst snd get lookup].
    replace (str_eqb (js "chart") (js "chart")) with true by reflexivity.
    reflexivity.
  - cbn [distinct_keys map fst forallb snd fresh_keys existsb negb andb] in *.
    now rewrite Hd.
Qed.

Lemma viewport_of_forwarded ps' os' w h :
  lookup ps' (js "options") = Some (VObj os') ->
  toNumber (or (option_map scrub (lookup os' (js "width")))
               (Some (VNum (Int 500)))) = Some (Int w) ->
  toNumber (or (option_map scrub (lookup os' (js "height")))
               (Some (VNum (Int 300)))) = Some (Int h) ->
  bind (dimensions (Some (scrub (VObj ps'))))
       (fun wh => match viewport wh with
                  | Some v => Return v
                  | None => Unmodelled
                  end)
  = Return (Int (Z.max w 100), Int (Z.max h 100)).
Proof.
  intros Hopt Hw Hh. unfold dimensions. cbn [scrub get bind].
  rewrite lookup_scrub, Hopt. cbn [option_map scrub get_opt get bind].
  rewrite !lookup_scrub. cbn [bind]. unfold viewport. cbn [fst snd].
  rewrite Hw, Hh. reflexivity.
Qed.




End PipelineProperties.

Module SessionLifecycle.
Import JS Http Normalizer Session Actor Stage Lifecycle Examples ActorExamples.
Import SessionProperties SessionExamples Calls.
Local Open Scope Z_scope.

Ltac by_cases H :=
  repeat case_on_match; try discriminate;
  repeat match goal with
    | H : Some _ = Some _ |- _ => invert H
    | H : (_, _) = (_, _) |- _ => invert H
    end.

Lemma held_resume now ev s t s' t' :
  held s t -> resume now ev s t = Some (s', t') -> held s' t'.
Proof.
  destruct s as [b p l c a], t as [pc0 ch st mk ini upd].
  unfold held at 1, live, resume. simpl.
  destruct pc0; intros Hs H; try contradiction; try discriminate.
  all: try (destruct k; try contradiction).
  all: destruct ev as [[]|e0]; try discriminate.
  all: unfold after_init, on_page, catch, cleanup, cleanup_page_closed,
         cleanup_browser_closed in H; simpl in H.
  all: by_cases H.
  all: unfold held, live, is_reset; simpl;
    intuition (try discriminate; try congruence).
Qed.

Lemma held_enter chart now s s' t :
  enter chart now s = Some (s', t) -> held s' t.
Proof.
  destruct s as [b p l c a].
  unfold enter, after_init, catch, cleanup. simpl. intros H.
  by_cases H.
  all: unfold held, live, is_reset; simpl;
    intuition (try discriminate; try congruence).
Qed.

Lemma held_run evs : forall s t s' t',
  held s t -> run evs s t = Some (s', t') -> held s' t'.
Proof.
  induction evs as [|[now ev] evs IH]; intros s t s' t' Hs H; simpl in H.
  - destruct (finished t); invert H; assumption.
  - destruct (finished t); [invert H; assumption|].
    destruct (resume now ev s t) as [[s1 t1]|] eqn:E; [|discriminate].
    eapply IH; [|exact H]. eapply held_resume; eauto.
Qed.

Lemma held_render chart now evs s s' t' :
  render chart now evs s = Some (s', t') -> held s' t'.
Proof.
  unfold render. intros H.
  destruct (enter chart now s) as [[s1 t1]|] eqn:E; [|discriminate].
  eapply held_run; [|exact H]. eapply held_enter; eauto.
Qed.

Lemma reusing_resume b p now ev s t s' t' :
  reusing b p s t -> resume now ev s t = Some (s', t') -> reusing b p s' t'.
Proof.
  destruct s as [b0 p0 l c a], t as [pc0 ch st mk ini upd].
  unfold reusing at 1, resume. simpl.
  destruct pc0; intros Hs H; try contradiction; try discriminate.
  all: try (destruct k; try contradiction).
  all: destruct ev as [[]|e0]; try discriminate.
  all: unfold after_init, on_page, catch, cleanup, cleanup_page_closed,
         cleanup_browser_closed in H; simpl in H.
  all: by_cases H.
  all: unfold reusing, init_time; simpl;
    intuition (try discriminate; try congruence).
  all: subst; reflexivity.
Qed.

Lemma reusing_enter b p chart now s s' t :
  browser s = Some b -> page s = Some p ->
  enter chart now s = Some (s', t) -> reusing b p s' t.
Proof.
  destruct s as [b0 p0 l c a]. simpl. intros -> ->.
  unfold enter, after_init, catch, cleanup. simpl. intros H.
  by_cases H.
  all: unfold reusing; simpl; intuition (try discriminate; try congruence).
Qed.

Lemma reusing_run b p evs : forall s t s' t',
  reusing b p s t -> run evs s t = Some (s', t') -> reusing b p s' t'.
Proof.
  induction evs as [|[now ev] evs IH]; intros s t s' t' Hs H; simpl in H.
  - destruct (finished t); invert H; assumption.
  - destruct (finished t); [invert H; assumption|].
    destruct (resume now ev s t) as [[s1 t1]|] eqn:E; [|discriminate].
    eapply IH; [|exact H]. eapply reusing_resume; eauto.
Qed.

(** What [fetch] returns is what the [render] of the body's [chart]
    returned. *)
Lemma fetch_returns request now evs s s' r :
  Session.fetch request now evs s = Some (s', Return r) ->
  exists c t, render c now evs s = Some (s', t) /\ at_ t = Returned r.
Proof.
  unfold Session.fetch.
  destruct (request_json request) as [v|e|]; [| |discriminate].
  - cbn [run finished fetch_start starting at_]. unfold resume.
    cbn [at_ fetch_start starting].
    destruct (get (Some v) (js "chart")) as [c|e|]; [| |discriminate].
    + intros H. exists c. unfold render.
      destruct (enter c now s) as [[s1 t1]|]; [|discriminate].
      destruct (run evs s1 t1) as [[s2 t2]|]; [|discriminate].
      destruct (at_ t2) eqn:Hat; try discriminate.
      invert H. eauto.
    + destruct evs as [|[n1 e1] evs]; simpl; discriminate.
  - cbn [run finished fetch_start starting at_]. unfold resume.
    cbn [at_ fetch_start starting].
    destruct evs as [|[n1 e1] evs]; simpl; discriminate.
Qed.

(** How [fetch] run alone ends: on what the body of the request gave, or
    on the [render] of its [chart]. *)
Lemma fetch_cases request now evs s s' o :
  Session.fetch request now evs s = Some (s', o) ->
  (exists e, o = Throw e /\ s' = s
     /\ bind (request_json request) (fun v => get (Some v) (js "chart"))
        = Throw e)
  \/ exists c t,
       bind (request_json request) (fun v => get (Some v) (js "chart"))
         = Return c
       /\ render c now evs s = Some (s', t)
       /\ match at_ t with
          | Returned r => o = Return r
          | Thrown e => o = Throw e
          | _ => False
          end.
Proof.
  unfold Session.fetch.
  destruct (request_json request) as [v|e|]; [| |discriminate].
  - cbn [run finished fetch_start starting at_ bind]. unfold resume.
    cbn [at_ fetch_start starting].
    destruct (get (Some v) (js "chart")) as [c|e|]; [| |discriminate].
    + intros H. right. exists c. unfold render.
      destruct (enter c now s) as [[s1 t1]|]; [|discriminate].
      destruct (run evs s1 t1) as [[s2 t2]|]; [|discriminate].
      exists t2.
      destruct (at_ t2) eqn:Hat; try discriminate; invert H; auto.
    + intros H. left. exists e.
      destruct evs as [|[n1 e1] evs]; simpl in H; invert H; auto.
  - cbn [run finished fetch_start starting at_ bind]. unfold resume.
    cbn [at_ fetch_start starting].
    intros H. left. exists e.
    destruct evs as [|[n1 e1] evs]; simpl in H; invert H; auto.
Qed.

Lemma ended_state request now evs s s' r :
  Session.fetch request now evs s = Some (s', Return r) ->
  status r = 200 /\ content_type r = Some (js "image/png").
Proof.
  intros H. destruct (fetch_returns _ _ _ _ H) as (c & t & Hr & Hat).
  apply held_render in Hr. unfold held in Hr. rewrite Hat in Hr. tauto.
Qed.

(** X1. However the engine answers, a call of [fetch] that has ended has
    either returned 200 with an [image/png] body, and then holds both the
    browser and the page, or thrown, and then either it has failed on the
    body of the request and left the record as it was, or it holds neither
    handle and its counter is 0. *)
Theorem ended_call_is_live_or_reset request now evs s s' o :
  Session.fetch request now evs s = Some (s', o) ->
  match o with
  | Return r =>
      live s' /\ status r = 200 /\ content_type r = Some (js "image/png")
  | Throw e => s' = s \/ is_reset s'
  | Unmodelled => False
  end.
Proof.
  intros H. destruct (fetch_cases _ _ _ _ H) as [(e & -> & -> & _)|(c & t & _ & Hr & Ho)].
  - now left.
  - apply held_render in Hr. unfold held in Hr.
    destruct (at_ t); try contradiction; subst o; auto.
Qed.

Lemma ended_call_is_live_or_reset_witness :
  exists s' r,
    Session.fetch (Gateway.doRequest (Some bar_chart)) 0
      (engine_starts ++ chart_renders 1000) (constructor 0)
    = Some (s', Return r)
    /\ live s' /\ status r = 200 /\ content_type r = Some (js "image/png").
Proof.
  assert (E : exists s' r,
             Session.fetch (Gateway.doRequest (Some bar_chart)) 0
               (engine_starts ++ chart_renders 1000) (constructor 0)
             = Some (s', Return r))
    by (eexists; eexists; vm_compute; reflexivity).
  destruct E as (s' & r & E). exists s', r. split; [exact E|].
  exact (@ended_call_is_live_or_reset _ _ _ _ _ _ E).
Defined.

(** X2. A call on a session that holds a browser and a page and that returns
    has kept both handles and reports an initialization time of 0: no
    browser is launched, no page opened. *)
Theorem warm_call_keeps_handles b p request now evs s s' r :
  browser s = Some b -> page s = Some p ->
  Session.fetch request now evs s = Some (s', Return r) ->
  browser s' = Some b /\ page s' = Some p /\ init_time r = Some (js "0").
Proof.
  intros Hb Hp H.
  destruct (fetch_returns _ _ _ _ H) as (c & t & Hr & Hat).
  unfold render in Hr.
  destruct (enter c now s) as [[s1 t1]|] eqn:E; [|discriminate].
  pose proof (@reusing_run b p evs _ _ _ _
                (@reusing_enter b p _ _ _ _ _ Hb Hp E) Hr) as Hi.
  unfold reusing in Hi. now rewrite Hat in Hi.
Qed.

Lemma warm_call_keeps_handles_witness :
  exists s' r,
    Session.fetch (Gateway.doRequest (Some bar_chart)) 2000
      (chart_renders 2000) (mkState (Some 1%nat) (Some 2%nat) 910 1 None)
    = Some (s', Return r)
    /\ browser s' = Some 1%nat /\ page s' = Some 2%nat
    /\ init_time r = Some (js "0").
Proof.
  assert (E : exists s' r,
             Session.fetch (Gateway.doRequest (Some bar_chart)) 2000
               (chart_renders 2000)
               (mkState (Some 1%nat) (Some 2%nat) 910 1 None)
             = Some (s', Return r))
    by (eexists; eexists; vm_compute; reflexivity).
  destruct E as (s' & r & E). exists s', r. split; [exact E|].
  exact (@warm_call_keeps_handles 1 2 _ _ _
           (mkState (Some 1%nat) (Some 2%nat) 910 1 None) _ _
           eq_refl eq_refl E).
Defined.

(** X3. Line 85 stands before the [try]: when the body of the request is no
    JSON text, or is [null], [fetch] throws that failure at once, runs no
    cleanup and leaves every field of the session as it was, a live browser
    and the counter included. *)
Theorem unreadable_body_leaves_session request now evs s e :
  bind (request_json request) (fun v => get (Some v) (js "chart")) = Throw e ->
  Session.fetch request now evs s = Some (s, Throw e).
Proof.
  unfold Session.fetch. intros H.
  destruct (request_json request) as [v|e0|]; cbn [bind] in H;
    [|invert H|discriminate].
  - cbn [run finished fetch_start starting at_]. unfold resume.
    cbn [at_ fetch_start starting]. rewrite H.
    destruct evs as [|[n1 e1] evs]; reflexivity.
  - cbn [run finished fetch_start starting at_]. unfold resume.
    cbn [at_ fetch_start starting].
    destruct evs as [|[n1 e1] evs]; reflexivity.
Qed.

Lemma unreadable_body_leaves_session_witness :
  exists e, Session.fetch not_json 2000 (chart_renders 2000) warm
            = Some (warm, Throw e).
Proof.
  assert (E : exists e,
             bind (request_json not_json)
                  (fun v => get (Some v) (js "chart")) = Throw e)
    by (eexists; vm_compute; reflexivity).
  destruct E as (e & E). exists e.
  exact (@unreadable_body_leaves_session not_json 2000 (chart_renders 2000)
           warm e E).
Defined.

(** X4. [fetch] does not look at [chart] before the engine is there.  A body
    without [chart] fails in [updateChart] only: a session that holds an
    engine calls [page.close()] and [browser.close()] at once, and a
    session without one first makes the six calls of [initializeBrowser],
    from [puppeteer.launch] on, and then closes what it has opened.
    Either way a [TypeError] is thrown and the session is reset. *)
Theorem call_without_chart_costs_the_engine request now s b p t c1 c2 :
  bind (request_json request) (fun v => get (Some v) (js "chart"))
    = Return None ->
  let e := TypeError "Cannot read properties of undefined" in
  fetch_awaits request now (engine_needed s b p t ++ [c1; c2]) s
  = Some (AwaitJson
            :: init_awaits s
            ++ [AwaitPageClose (Rethrow e); AwaitBrowserClose (Rethrow e)])
  /\ exists s',
      Session.fetch request now (engine_needed s b p t ++ [c1; c2]) s
      = Some (s', Throw e)
      /\ is_reset s'.
Proof.
  unfold Session.fetch, fetch_awaits. intros H.
  destruct (request_json request) as [v|e0|]; cbn [bind] in H;
    try discriminate.
  cbn [run awaits finished fetch_start starting at_]. unfold resume.
  cbn [at_ fetch_start starting]. rewrite H.
  destruct c1 as [n1 e1], c2 as [n2 e2].
  destruct s as [[b0|] [p0|] l c a]; simpl;
    (split; [reflexivity|]); eexists; (split; [reflexivity | repeat split]).
Qed.

Lemma call_without_chart_costs_the_engine_witness :
  let e := TypeError "Cannot read properties of undefined" in
  fetch_awaits empty_object 2000
    (launches 1 2 2100
       ++ [(2101, Fulfilled Nothing); (2102, Fulfilled Nothing)])
    (constructor 0)
  = Some [AwaitJson; AwaitLaunch; AwaitNewPage; AwaitDefaultViewport;
          AwaitSetContent; AwaitChartJs; AwaitInterception;
          AwaitPageClose (Rethrow e); AwaitBrowserClose (Rethrow e)]
  /\ exists s',
      Session.fetch empty_object 2000
        (launches 1 2 2100
           ++ [(2101, Fulfilled Nothing); (2102, Fulfilled Nothing)])
        (constructor 0)
      = Some (s', Throw e)
      /\ is_reset s'.
Proof.
  exact (@call_without_chart_costs_the_engine empty_object 2000
           (constructor 0) 1 2 2100
           (2101, Fulfilled Nothing) (2102, Fulfilled Nothing) eq_refl).
Defined.

(** ** The counter under interleaving *)

Lemma resume_count now ev s t s' t' :
  0 <= requestCount s -> resume now ev s t = Some (s', t') ->
  0 <= requestCount s'.
Proof.
  destruct s as [b p l c a], t as [pc0 ch st mk ini upd].
  unfold resume. simpl.
  destruct pc0; intros Hs H; try discriminate.
  all: destruct ev as [[]|e0]; try discriminate.
  all: unfold enter, after_init, on_page, catch, cleanup, cleanup_page_closed,
         cleanup_browser_closed in H; simpl in H.
  all: by_cases H.
  all: simpl; lia.
Qed.

Lemma alarm_count now s s' t' :
  0 <= requestCount s -> alarm now s = Some (s', t') -> 0 <= requestCount s'.
Proof.
  destruct s as [b p l c a]. unfold alarm, cleanup. simpl. intros Hs H.
  by_cases H. all: simpl; lia.
Qed.

Lemma deliver_count e c c' :
  0 <= requestCount (session c) -> deliver e c = Some c' ->
  0 <= requestCount (session c').
Proof.
  destruct e as [|i now ev|now]; simpl; intros Hc H.
  - invert H. assumption.
  - destruct (nth_error (handlers c) i) as [t|]; [|discriminate].
    destruct (resume now ev (session c) t) as [[s' t']|] eqn:E; [|discriminate].
    invert H. simpl. eapply resume_count; eauto.
  - destruct (alarm now (session c)) as [[s' t']|] eqn:E; [|discriminate].
    invert H. simpl. eapply alarm_count; eauto.
Qed.

(** X5. Whatever requests, settlements and alarms a session receives and in
    whatever order, handlers interleaved at their awaits included, its
    request counter never goes below 0: it is only incremented or set back
    to 0. *)
Theorem counter_never_negative t0 es : forall c,
  deliver_all es (start t0) = Some c -> 0 <= requestCount (session c).
Proof.
  assert (G : forall es c0 c, 0 <= requestCount (session c0) ->
              deliver_all es c0 = Some c -> 0 <= requestCount (session c)).
  { clear es. induction es as [|e es IH]; intros c0 c H0 H; simpl in H.
    - invert H. assumption.
    - destruct (deliver e c0) as [c1|] eqn:E; [|discriminate].
      eapply IH; [|exact H]. eapply deliver_count; eauto. }
  intros c. apply G. simpl. lia.
Qed.

Lemma counter_never_negative_witness :
  exists c, deliver_all second_during_capture (start 0) = Some c
            /\ 0 <= requestCount (session c).
Proof.
  assert (E : exists c, deliver_all second_during_capture (start 0) = Some c)
    by (eexists; vm_compute; reflexivity).
  destruct E as (c & E). exists c. split; [exact E|].
  exact (@counter_never_negative 0 second_during_capture c E).
Defined.

(** ** The idle check *)

Lemma idle_alarm_closes now due s c1 c2 :
  alarm_time s = Some due -> due <= now -> 5 * 60 * 1000 < now - lastUsed s ->
  exists s0 t0,
    alarm now s = Some (s0, t0)
    /\ awaits (firstn (List.length (closes FromAlarm s)) [c1; c2]) s0 t0
       = Some (closes FromAlarm s).
Proof.
  intros Ha Hd Hi. destruct c1 as [n1 e1], c2 as [n2 e2].
  destruct s as [b p l c a]. cbn [alarm_time lastUsed] in *. subst a.
  unfold alarm. cbn [alarm_time lastUsed browser page requestCount].
  replace (due <=? now) with true by (symmetry; apply Z.leb_le; lia).
  replace (5 * 60 * 1000 <? now - l) with true
    by (symmetry; apply Z.ltb_lt; lia).
  destruct p as [p|], b as [b|]; do 2 eexists; split; reflexivity.
Qed.

(** X6. [alarm()], when the runtime runs it at [now]: a session used within
    the last five minutes, five minutes exactly included, keeps its engine
    and its counter and calls [setAlarm] for the next check in 60 seconds;
    a session idle for longer calls [page.close()] for the page it holds
    and [browser.close()] for the browser it holds, and nothing else, sets
    the counter to 0 and asks for no further check. *)
Theorem alarm_closes_after_five_idle_minutes now due s c1 c2 :
  alarm_time s = Some due -> due <= now ->
  exists s0 t0,
    alarm now s = Some (s0, t0)
    /\ if now - lastUsed s <=? 5 * 60 * 1000
       then at_ t0 = AwaitSetAlarm
            /\ alarm_time s0 = Some (now + 60000)
            /\ browser s0 = browser s /\ page s0 = page s
            /\ requestCount s0 = requestCount s
       else awaits (firstn (List.length (closes FromAlarm s)) [c1; c2]) s0 t0
            = Some (closes FromAlarm s)
            /\ exists s' t',
                run [c1; c2] s0 t0 = Some (s', t')
                /\ at_ t' = AlarmReturned /\ is_reset s'
                /\ alarm_time s' = None.
Proof.
  intros Ha Hd.
  destruct (now - lastUsed s <=? 5 * 60 * 1000) eqn:Hi.
  - apply Z.leb_le in Hi.
    destruct (@alarm_reschedules_when_active now due s Ha Hd Hi)
      as (s0 & t0 & H).
    exists s0, t0. exact H.
  - apply Z.leb_gt in Hi.
    destruct (@alarm_tears_down_when_idle now due s c1 c2 Ha Hd Hi)
      as (s0 & t0 & s' & t' & H0 & H).
    destruct (@idle_alarm_closes now due s c1 c2 Ha Hd Hi)
      as (s0' & t0' & H0' & Hc).
    rewrite H0 in H0'. injection H0' as <- <-.
    exists s0, t0. split; [exact H0|]. split; [exact Hc|].
    exists s', t'. exact H.
Qed.

Lemma alarm_closes_after_five_idle_minutes_witness :
  (exists s0 t0,
     alarm 301000 armed = Some (s0, t0)
     /\ at_ t0 = AwaitSetAlarm /\ alarm_time s0 = Some 361000
     /\ browser s0 = Some 1%nat /\ page s0 = Some 2%nat
     /\ requestCount s0 = 3)
  /\ (exists s0 t0,
        alarm 301001 armed = Some (s0, t0)
        /\ awaits [(301002, Fulfilled Nothing); (301003, Fulfilled Nothing)]
                  s0 t0
           = Some [AwaitPageClose FromAlarm; AwaitBrowserClose FromAlarm]
        /\ exists s' t',
            run [(301002, Fulfilled Nothing); (301003, Fulfilled Nothing)]
                s0 t0
            = Some (s', t')
            /\ at_ t' = AlarmReturned /\ is_reset s'
            /\ alarm_time s' = None).
Proof.
  split.
  - destruct (@alarm_closes_after_five_idle_minutes 301000 61000 armed
                (0, Fulfilled Nothing) (0, Fulfilled Nothing)
                eq_refl ltac:(vm_compute; discriminate))
      as (s0 & t0 & H0 & H).
    exists s0, t0. split; [exact H0 | exact H].
  - destruct (@alarm_closes_after_five_idle_minutes 301001 61000 armed
                (301002, Fulfilled Nothing) (301003, Fulfilled Nothing)
                eq_refl ltac:(vm_compute; discriminate))
      as (s0 & t0 & H0 & Hc & H).
    exists s0, t0. split; [exact H0|]. split; [exact Hc | exact H].
Defined.

End SessionLifecycle.

Module SessionTimings.
Import JS Http Normalizer Session Actor Stage Lifecycle Examples.
Import SessionProperties SessionExamples SessionLifecycle.
Local Open Scope Z_scope.

Ltac timed_goal :=
  unfold timed; cbn [at_ goto mark startTime initialization chartUpdate];
  try lia; try tauto.

Lemma ok_response_times s t now png :
  mark t - startTime t = initialization t + chartUpdate t ->
  timed (goto t (Returned (ok_response s t now png))).
Proof.
  intros H. unfold timed. cbn [at_ goto].
  exists (initialization t), (chartUpdate t), (now - mark t).
  split; [reflexivity|]. split; [reflexivity|]. split; [reflexivity|].
  replace (initialization t + chartUpdate t + (now - mark t))
    with (now - startTime t) by lia.
  reflexivity.
Qed.

Lemma timed_resume now ev s t s' t' :
  timed t -> resume now ev s t = Some (s', t') -> timed t'.
Proof.
  destruct s as [b p l c a], t as [pc0 ch st mk ini upd].
  unfold timed at 1, resume. simpl.
  destruct pc0; intros Hs H; try contradiction; try discriminate.
  all: try (destruct k; try contradiction).
  all: destruct ev as [[]|e0]; try discriminate.
  all: try (injection H as <- <-; apply ok_response_times; exact Hs).
  all: unfold after_init, on_page, catch, cleanup, cleanup_page_closed,
         cleanup_browser_closed in H; simpl in H.
  all: by_cases H.
  all: timed_goal.
Qed.

Lemma timed_enter chart now s s' t :
  enter chart now s = Some (s', t) -> timed t.
Proof.
  destruct s as [b p l c a].
  unfold enter, after_init, catch, cleanup. simpl. intros H.
  by_cases H.
  all: timed_goal.
Qed.

Lemma timed_run evs : forall s t s' t',
  timed t -> run evs s t = Some (s', t') -> timed t'.
Proof.
  induction evs as [|[now ev] evs IH]; intros s t s' t' Hs H; simpl in H.
  - destruct (finished t); invert H; assumption.
  - destruct (finished t); [invert H; assumption|].
    destruct (resume now ev s t) as [[s1 t1]|] eqn:E; [|discriminate].
    eapply IH; [|exact H]. eapply timed_resume; eauto.
Qed.

(** X7. The timings that a response reports add up: [X-Total-Time] is the
    sum of [X-Init-Time], [X-Update-Time] and [X-Screenshot-Time], on a
    cold session and on a warm one, whenever the engine answers. *)
Theorem phase_times_add_up request now evs s s' r :
  Session.fetch request now evs s = Some (s', Return r) ->
  exists i u c,
    init_time r = Some (Z_chars i)
    /\ update_time r = Some (Z_chars u)
    /\ screenshot_time r = Some (Z_chars c)
    /\ total_time r = Some (Z_chars (i + u + c)).
Proof.
  intros H. destruct (fetch_returns _ _ _ _ H) as (c & t & Hr & Hat).
  unfold render in Hr.
  destruct (enter c now s) as [[s1 t1]|] eqn:E; [|discriminate].
  pose proof (@timed_run evs _ _ _ _ (@timed_enter _ _ _ _ _ E) Hr) as Ht.
  unfold timed in Ht. now rewrite Hat in Ht.
Qed.

Lemma phase_times_add_up_witness :
  exists s' r,
    Session.fetch (Gateway.doRequest (Some bar_chart)) 0
      (engine_starts ++ chart_renders 1000) (constructor 0)
    = Some (s', Return r)
    /\ exists i u c,
         init_time r = Some (Z_chars i)
         /\ update_time r = Some (Z_chars u)
         /\ screenshot_time r = Some (Z_chars c)
         /\ total_time r = Some (Z_chars (i + u + c)).
Proof.
  assert (E : exists s' r,
             Session.fetch (Gateway.doRequest (Some bar_chart)) 0
               (engine_starts ++ chart_renders 1000) (constructor 0)
             = Some (s', Return r))
    by (eexists; eexists; vm_compute; reflexivity).
  destruct E as (s' & r & E). exists s', r. split; [exact E|].
  exact (@phase_times_add_up _ _ _ _ _ _ E).
Defined.

End SessionTimings.

Module SessionEdges.
Import JS Http Normalizer Session Actor Stage Lifecycle Examples Exact.
Import SessionProperties SessionExamples.
Local Open Scope Z_scope.

(** ** The viewport *)

Lemma dimension_number x d :
  integral x ->
  exists k,
    toNumber (or x (Some (VNum (Int d)))) = Some (Int k)
    /\ (100 <= d -> 100 <= Z.max k 100).
Proof.
  unfold or. destruct x as [[|[]|[|z]|s|xs|ps]|]; cbn [integral truthy toNumber];
    try contradiction; intros _.
  - exists d. split; [reflexivity | lia].
  - exists 1. split; [reflexivity | lia].
  - exists d. split; [reflexivity | lia].
  - destruct (z =? 0); cbn [negb toNumber].
    + exists d. split; [reflexivity | lia].
    + exists z. split; [reflexivity | lia].
  - exists d. split; [reflexivity | lia].
Qed.

(** X8. For a chart whose [options.width] and [options.height] are each
    absent, [null], a boolean or an integer, the viewport that
    [updateChart] asks for is made of two integers that are both at least
    100: a dimension that is 0, negative, [false] or missing never reaches
    the engine. *)
Theorem viewport_is_at_least_100 chartConfig o x y :
  get chartConfig (js "options") = Return o ->
  get_opt o (js "width") = Return x ->
  get_opt o (js "height") = Return y ->
  integral x -> integral y ->
  exists wh w h,
    dimensions chartConfig = Return wh
    /\ viewport wh = Some (Int w, Int h)
    /\ 100 <= w /\ 100 <= h.
Proof.
  intros Ho Hx Hy Ix Iy.
  destruct (dimension_number x 500 Ix) as (k1 & E1 & _).
  destruct (dimension_number y 300 Iy) as (k2 & E2 & _).
  exists (or x (Some (VNum (Int 500))), or y (Some (VNum (Int 300)))),
         (Z.max k1 100), (Z.max k2 100).
  split; [|split; [|split; lia]].
  - unfold dimensions. rewrite Ho. cbn [bind]. rewrite Hx. cbn [bind].
    rewrite Hy. reflexivity.
  - unfold viewport. cbn [fst snd]. rewrite E1, E2. reflexivity.
Qed.

Lemma viewport_is_at_least_100_witness :
  exists wh w h,
    dimensions (Some (VObj [(js "options",
                             VObj [(js "width", VNum (Int (-40)));
                                   (js "height", VBool false)])]))
    = Return wh
    /\ viewport wh = Some (Int w, Int h)
    /\ 100 <= w /\ 100 <= h.
Proof.
  exact (@viewport_is_at_least_100
           (Some (VObj [(js "options",
                         VObj [(js "width", VNum (Int (-40)));
                               (js "height", VBool false)])]))
           (Some (VObj [(js "width", VNum (Int (-40)));
                        (js "height", VBool false)]))
           (Some (VNum (Int (-40)))) (Some (VBool false))
           eq_refl eq_refl eq_refl I I).
Defined.

(** ** A page that another handler has closed *)



End SessionEdges.

Module WarmupProperties.
Import JS Http Normalizer Session Gateway Actor Stage Lifecycle Warmup.
Import Examples SessionProperties SessionLifecycle.
Local Open Scope Z_scope.

Lemma warmups_after_first n : warmups true n = repeat false n.
Proof. induction n as [|n IH]; simpl; [reflexivity | now rewrite IH]. Qed.

(** X10. Over the life of a worker the warm-up is handed to [ctx.waitUntil] by
    the first request and by no later one, however many requests follow
    and whether or not the warm-up succeeds. *)
Theorem warmup_only_on_first_request n :
  warmups false (S n) = true :: repeat false n
  /\ count_occ Bool.bool_dec (warmups false (S n)) true = 1%nat.
Proof.
  cbn [warmups warmup_once fst snd]. rewrite warmups_after_first.
  split; [reflexivity|]. cbn [count_occ].
  destruct (Bool.bool_dec true true) as [_|N]; [|now destruct N].
  f_equal. induction n as [|n IH]; [reflexivity|]. cbn [repeat count_occ].
  destruct (Bool.bool_dec false true) as [E|_]; [discriminate E | exact IH].
Qed.

(** X11. The warm-up is a request like any other to the session.  It never
    fails towards the worker, whatever the session answers; and when it has
    succeeded on a fresh session it has been counted as request 1, so the
    first request of a caller that then succeeds is answered as a reuse:
    request count 2, [X-Browser-Reused: true], initialization time 0. *)
Theorem first_call_after_warmup_is_a_reuse
  t0 now1 evs1 s1 r1 request now2 evs2 s2 r2 :
  Session.fetch warmup_request now1 evs1 (constructor t0)
    = Some (s1, Return r1) ->
  Session.fetch request now2 evs2 s1 = Some (s2, Return r2) ->
  (forall env e, warmupBrowserSession env <> Throw e)
  /\ request_count r1 = Some (js "1") /\ reused r1 = Some (js "false")
  /\ request_count r2 = Some (js "2") /\ reused r2 = Some (js "true")
  /\ init_time r2 = Some (js "0").
Proof.
  intros H1 H2. split.
  { intros env e. unfold warmupBrowserSession.
    destruct (stub_fetch env warmup_request); discriminate. }
  destruct (fetch_returns _ _ _ _ H1) as (c1 & t1 & Hr1 & Hat1).
  destruct (fetch_returns _ _ _ _ H2) as (c2 & t2 & Hr2 & Hat2).
  pose proof (stage_render _ _ _ _ Hr1) as Hs1.
  pose proof (held_render _ _ _ _ Hr1) as Hh1.
  unfold stage in Hs1. unfold held, live in Hh1. rewrite Hat1 in Hs1, Hh1.
  cbn [constructor requestCount] in Hs1.
  destruct Hs1 as (Hc1 & Hn1 & Hu1). destruct Hh1 as ((Hb & Hp) & _).
  pose proof (stage_render _ _ _ _ Hr2) as Hs2.
  unfold stage in Hs2. rewrite Hat2, Hc1 in Hs2.
  destruct Hs2 as (_ & Hn2 & Hu2).
  destruct (browser s1) as [b|] eqn:Eb; [|now destruct Hb].
  destruct (page s1) as [p|] eqn:Ep; [|now destruct Hp].
  unfold render in Hr2.
  destruct (enter c2 now2 s1) as [[s3 t3]|] eqn:E; [|discriminate].
  pose proof (@reusing_run b p evs2 _ _ _ _
                (@reusing_enter b p _ _ _ _ _ Eb Ep E) Hr2) as Hi.
  unfold reusing in Hi. rewrite Hat2 in Hi.
  repeat split; try assumption. apply Hi.
Qed.

Lemma first_call_after_warmup_is_a_reuse_witness :
  exists s1 r1 s2 r2,
    Session.fetch warmup_request 0 (engine_starts ++ chart_renders 1000)
      (constructor 0) = Some (s1, Return r1)
    /\ Session.fetch (doRequest (Some bar_chart)) 2000 (chart_renders 2000) s1
       = Some (s2, Return r2)
    /\ request_count r2 = Some (js "2") /\ reused r2 = Some (js "true")
    /\ init_time r2 = Some (js "0").
Proof.
  assert (E : exists s1 r1 s2 r2,
             Session.fetch warmup_request 0
               (engine_starts ++ chart_renders 1000) (constructor 0)
             = Some (s1, Return r1)
             /\ Session.fetch (doRequest (Some bar_chart)) 2000
                  (chart_renders 2000) s1
                = Some (s2, Return r2))
    by (do 4 eexists; split; [vm_compute; reflexivity|];
        vm_compute; reflexivity).
  destruct E as (s1 & r1 & s2 & r2 & E1 & E2). exists s1, r1, s2, r2.
  split; [exact E1|]. split; [exact E2|].
  destruct (@first_call_after_warmup_is_a_reuse 0 0 _ s1 r1 _ 2000 _ s2 r2
              E1 E2) as (_ & _ & _ & H).
  exact H.
Defined.

End WarmupProperties.

Module GatewayExtras.
Import JS JSON Base64 Http Normalizer Session Gateway Routes Text Shape.
Import Actor Stage Lifecycle Transport Pipeline JSONText DecodingExamples.
Import Exact.
Import Examples PipelineExamples GatewayExamples SessionExamples.
Import GatewayProperties NormalizerProperties SessionProperties.
Import SessionLifecycle Base64Properties JSONProperties PipelineProperties.
Local Open Scope Z_scope.

Lemma on_chart_path request env requestId t0 t1 :
  pathname request = js "/chart" ->
  route request env requestId t0 t1
  = bind (parseChartParameters request) (fun p =>
      if negb (truthy (fst p)) then Return missing_chart
      else
        match bind (decodeChartConfig (fst p) (encoding (snd p)))
                   (fun c => applyChartOptions c (snd p)) with
        | Throw error => Return (invalid_chart error)
        | Unmodelled => Unmodelled
        | Return chartConfig =>
            bind (stub_fetch env (doRequest chartConfig)) (fun response =>
              Return (decorate env requestId (t1 - t0) response))
        end).
Proof.
  intros Hpath. unfold route. rewrite Hpath.
  replace (str_eqb (js "/chart") (js "/")) with false by reflexivity.
  replace (str_eqb (js "/chart") (js "/health")) with false by reflexivity.
  replace (str_eqb (js "/chart") (js "/chart")) with true by reflexivity.
  reflexivity.
Qed.

(** X12. A request on [/chart] whose [c] and [chart] are both missing, empty or
    otherwise falsy is answered 400 [Missing chart configuration] whatever
    its method, its other parameters and the state of the session: the
    Durable Object is not called. *)
Theorem missing_chart_is_refused request chart options :
  pathname request = js "/chart" ->
  parseChartParameters request = Return (chart, options) ->
  truthy chart = false ->
  forall env requestId t0 t1,
    Gateway.fetch request env requestId t0 t1 = Return missing_chart
    /\ status missing_chart = 400.
Proof.
  intros Hpath Hparse Hc env requestId t0 t1.
  unfold Gateway.fetch. rewrite (on_chart_path _ _ _ _ _ Hpath), Hparse.
  cbn [bind fst]. rewrite Hc. split; reflexivity.
Qed.

Lemma missing_chart_is_refused_witness :
  Gateway.fetch get_empty_chart (constant_env Unmodelled) (js "id-1") 0 40
    = Return missing_chart
  /\ status missing_chart = 400.
Proof.
  exact (@missing_chart_is_refused get_empty_chart (Some VNull)
           (mkOptions (Some (VStr (js "400"))) (Some VNull) (Some VNull)
                      (Some (VStr (js "url"))))
           eq_refl eq_refl eq_refl (constant_env Unmodelled) (js "id-1") 0 40).
Defined.

Lemma invalid_on_chart_path request chart options e :
  pathname request = js "/chart" ->
  parseChartParameters request = Return (chart, options) ->
  truthy chart = true ->
  bind (decodeChartConfig chart (encoding options))
       (fun c => applyChartOptions c options) = Throw e ->
  forall env requestId t0 t1,
    Gateway.fetch request env requestId t0 t1 = Return (invalid_chart e).
Proof.
  intros Hpath Hparse Hc Hthrow env requestId t0 t1.
  unfold Gateway.fetch. rewrite (on_chart_path _ _ _ _ _ Hpath), Hparse.
  cbn [bind fst snd]. rewrite Hc. cbn [negb].
  unfold bind in Hthrow |- *. now rewrite Hthrow.
Qed.

(** X13. A chart that decodes to [null], to a number, to a string or to a
    boolean is answered 400 [Invalid chart configuration]: the first
    statement of [applyChartOptions] throws a [TypeError] on it, and the
    Durable Object is not called. *)
Theorem chart_that_is_no_object_is_refused request chart options v :
  pathname request = js "/chart" ->
  parseChartParameters request = Return (chart, options) ->
  truthy chart = true ->
  decodeChartConfig chart (encoding options) = Return (Some v) ->
  primitive v = true ->
  exists e,
    name e = js "TypeError"
    /\ forall env requestId t0 t1,
         Gateway.fetch request env requestId t0 t1 = Return (invalid_chart e)
         /\ status (invalid_chart e) = 400.
Proof.
  intros Hpath Hparse Hc Hdec Hv.
  assert (He : exists e, name e = js "TypeError"
                         /\ applyChartOptions (Some v) options = Throw e).
  { unfold applyChartOptions.
    destruct v; try discriminate Hv; cbn; eexists;
      (refine (conj _ eq_refl); reflexivity). }
  destruct He as (e & Hn & He). exists e. split; [exact Hn|].
  intros env requestId t0 t1. split; [|reflexivity].
  apply (@invalid_on_chart_path request chart options e Hpath Hparse Hc).
  rewrite Hdec. exact He.
Qed.

Lemma chart_that_is_no_object_is_refused_witness :
  exists e,
    name e = js "TypeError"
    /\ forall env requestId t0 t1,
         Gateway.fetch get_number_chart env requestId t0 t1
           = Return (invalid_chart e)
         /\ status (invalid_chart e) = 400.
Proof.
  exact (@chart_that_is_no_object_is_refused get_number_chart
           (Some (VStr (js "5")))
           (mkOptions (Some VNull) (Some VNull) (Some VNull)
                      (Some (VStr (js "url"))))
           (VNum (Int 5)) eq_refl eq_refl eq_refl eq_refl eq_refl).
Defined.

(** X14. A chart sent as an object, as a POST body does, is taken as it is
    under every encoding but [base64]; under [base64] it is given to
    [atob] as the text [[object Object]] and the request is answered 400,
    whatever the chart holds. *)
Theorem object_chart_under_base64_is_refused request ps options :
  pathname request = js "/chart" ->
  parseChartParameters request = Return (Some (VObj ps), options) ->
  (is_base64 (encoding options) = false ->
   decodeChartConfig (Some (VObj ps)) (encoding options)
   = Return (Some (VObj ps)))
  /\ (is_base64 (encoding options) = true ->
      forall env requestId t0 t1,
        Gateway.fetch request env requestId t0 t1
        = Return (invalid_chart bad_base64)
        /\ status (invalid_chart bad_base64) = 400).
Proof.
  intros Hpath Hparse. split; intros Hb.
  - unfold decodeChartConfig. now rewrite Hb.
  - intros env requestId t0 t1. split; [|reflexivity].
    apply (@invalid_on_chart_path request (Some (VObj ps)) options bad_base64
             Hpath Hparse eq_refl).
    unfold decodeChartConfig. rewrite Hb. reflexivity.
Qed.

Lemma object_chart_under_base64_is_refused_witness :
  decodeChartConfig (Some bar_chart) (Some (VStr (js "url")))
    = Return (Some bar_chart)
  /\ forall env requestId t0 t1,
       Gateway.fetch post_object_base64 env requestId t0 t1
       = Return (invalid_chart bad_base64)
       /\ status (invalid_chart bad_base64) = 400.
Proof.
  split; [reflexivity|].
  assert (E : parseChartParameters post_object_base64
              = Return (Some bar_chart,
                        mkOptions None None None (Some (VStr (js "base64")))))
    by (vm_compute; reflexivity).
  exact (proj2 (@object_chart_under_base64_is_refused post_object_base64
                  (match bar_chart with VObj ps => ps | _ => [] end)
                  (mkOptions None None None (Some (VStr (js "base64"))))
                  eq_refl E) eq_refl).
Defined.

(** X15. A POST on [/chart] whose body is no JSON text, or is [null], fails in
    [parseChartParameters], outside the [try] that makes the 400 answers:
    it is answered 500 with the parser's message, and the Durable Object
    is not called. *)
Theorem unreadable_post_is_500 request e :
  pathname request = js "/chart" ->
  method request = js "POST" ->
  bind (request_json request) (fun v => get (Some v) (js "c")) = Throw e ->
  forall env requestId t0 t1,
    Gateway.fetch request env requestId t0 t1
    = Return (internal_error e requestId)
    /\ status (internal_error e requestId) = 500.
Proof.
  intros Hpath Hm He env requestId t0 t1. split; [|reflexivity].
  unfold Gateway.fetch. rewrite (on_chart_path _ _ _ _ _ Hpath).
  unfold parseChartParameters. rewrite Hm.
  replace (str_eqb (js "POST") (js "POST")) with true by reflexivity.
  destruct (request_json request) as [v|e0|]; cbn [bind] in He |- *;
    try discriminate.
  - rewrite He. reflexivity.
  - now invert He.
Qed.

Lemma unreadable_post_is_500_witness :
  exists e, forall env requestId t0 t1,
    Gateway.fetch post_not_json env requestId t0 t1
    = Return (internal_error e requestId)
    /\ status (internal_error e requestId) = 500.
Proof.
  assert (E : exists e,
             bind (request_json post_not_json)
                  (fun v => get (Some v) (js "c")) = Throw e)
    by (eexists; vm_compute; reflexivity).
  destruct E as (e & E). exists e.
  exact (@unreadable_post_is_500 post_not_json e eq_refl eq_refl E).
Defined.

(** ** The worker's headers *)

Lemma get_after_set hs m v name :
  header_name name <> header_name m ->
  headers_get (headers_set hs m v) name = headers_get hs name.
Proof.
  intros Hn. unfold headers_get, headers_set.
  apply lookup_replace_other. congruence.
Qed.

Lemma get_set_same hs m v :
  headers_get (headers_set hs m v) m = Some v.
Proof. unfold headers_get, headers_set. apply lookup_replace_same. Qed.

Lemma get_or_zero_after_set hs m v name :
  header_name name <> header_name m ->
  get_or_zero (headers_set hs m v) name = get_or_zero hs name.
Proof. intros Hn. unfold get_or_zero. now rewrite get_after_set. Qed.

Lemma server_timing_after_set hs requestId totalTime total :
  server_timing
    (headers_set (headers_set hs (js "X-Worker-Time") (Z_chars totalTime))
                 (js "X-Request-ID") requestId) total
  = server_timing hs total.
Proof.
  unfold server_timing.
  rewrite !get_or_zero_after_set; [reflexivity|..]; discriminate.
Qed.

Lemma decorate_headers env requestId totalTime response name :
  header_name name <> js "x-worker-time" ->
  header_name name <> js "x-request-id" ->
  header_name name <> js "server-timing" ->
  headers_get (headers (decorate env requestId totalTime response)) name
  = headers_get (headers response) name.
Proof.
  intros H1 H2 H3. unfold decorate. cbn [headers].
  destruct (isDebug env).
  - rewrite !get_after_set; auto.
  - rewrite !get_after_set; auto.
Qed.

(** X16. What the worker does to a response of the Durable Object: it keeps the
    status, the body and every header but three; it sets [X-Worker-Time]
    to the elapsed time and [X-Request-ID] to the request id; and it sets
    [Server-Timing], from the timings that the Durable Object reported,
    exactly when [env.DEBUG] is ['1'] or [1]. *)
Theorem worker_adds_three_headers env requestId totalTime response name :
  header_name name <> js "x-worker-time" ->
  header_name name <> js "x-request-id" ->
  header_name name <> js "server-timing" ->
  let r := decorate env requestId totalTime response in
  headers_get (headers r) name = headers_get (headers response) name
  /\ status r = status response
  /\ Http.body r = Http.body response
  /\ headers_get (headers r) (js "X-Worker-Time") = Some (Z_chars totalTime)
  /\ headers_get (headers r) (js "X-Request-ID") = Some requestId
  /\ headers_get (headers r) (js "Server-Timing")
     = if isDebug env
       then Some (server_timing (headers response) totalTime)
       else headers_get (headers response) (js "Server-Timing").
Proof.
  intros H1 H2 H3 r. subst r.
  split; [now apply decorate_headers|].
  split; [reflexivity|]. split; [reflexivity|].
  unfold decorate. cbn [headers].
  destruct (isDebug env).
  - rewrite server_timing_after_set.
    rewrite !get_after_set by discriminate.
    rewrite get_set_same.
    rewrite get_after_set by discriminate.
    rewrite !get_set_same. auto.
  - rewrite get_after_set by discriminate.
    rewrite !get_set_same.
    rewrite !get_after_set by discriminate. auto.
Qed.

Lemma worker_adds_three_headers_witness :
  let response := ok_response warm (starting AwaitCapture) 2090 [137; 80]%N in
  let r := decorate (mkEnv (Some (VStr (js "1"))) (fun _ => Unmodelled))
                    (js "id-7") 95 response in
  headers_get (headers r) (js "X-Browser-Reused") = Some (js "false")
  /\ status r = 200
  /\ Http.body r = [137; 80]%N
  /\ headers_get (headers r) (js "X-Worker-Time") = Some (js "95")
  /\ headers_get (headers r) (js "X-Request-ID") = Some (js "id-7")
  /\ headers_get (headers r) (js "Server-Timing")
     = Some (server_timing (headers response) 95).
Proof.
  exact (@worker_adds_three_headers
           (mkEnv (Some (VStr (js "1"))) (fun _ => Unmodelled)) (js "id-7") 95
           (ok_response warm (starting AwaitCapture) 2090 [137; 80]%N)
           (js "X-Browser-Reused")
           ltac:(vm_compute; discriminate) ltac:(vm_compute; discriminate)
           ltac:(vm_compute; discriminate)).
Defined.

(** ** From the caller to the engine and back *)

(** X17. A request on [/chart] whose chart is accepted, in front of a session
    whose call returns: the caller receives status 200 and the PNG bytes of
    the session, [image/png], the count and the reuse flag of the session
    (the count is the session's counter plus 1), the request id and the
    worker time. *)
Theorem rendered_chart_reaches_the_caller
  request chart options chartConfig debug requestId t0 t1 now evs s s' r :
  pathname request = js "/chart" ->
  parseChartParameters request = Return (chart, options) ->
  truthy chart = true ->
  chart_config request = Return chartConfig ->
  Session.fetch (doRequest chartConfig) now evs s = Some (s', Return r) ->
  exists r',
    Gateway.fetch request (mkEnv debug (Session.stub now evs s)) requestId t0 t1
      = Return r'
    /\ status r' = 200
    /\ Http.body r' = Http.body r
    /\ content_type r' = Some (js "image/png")
    /\ request_count r' = Some (Z_chars (requestCount s + 1))
    /\ reused r' = Some (if 1 <? requestCount s + 1
                         then js "true" else js "false")
    /\ request_id_header r' = Some requestId
    /\ headers_get (headers r') (js "X-Worker-Time") = Some (Z_chars (t1 - t0)).
Proof.
  intros Hpath Hparse Hc Hcfg Hf.
  unfold chart_config in Hcfg. rewrite Hparse in Hcfg. cbn [bind fst snd] in Hcfg.
  pose proof (@ended_state _ _ _ _ _ _ Hf) as (Hst & Hct).
  destruct (fetch_returns _ _ _ _ Hf) as (c & t & Hr & Hat).
  pose proof (stage_render _ _ _ _ Hr) as Hs. unfold stage in Hs.
  rewrite Hat in Hs. destruct Hs as (_ & Hn & Hu).
  set (env := mkEnv debug (Session.stub now evs s)).
  exists (decorate env requestId (t1 - t0) r).
  split.
  { unfold Gateway.fetch. rewrite (on_chart_path _ _ _ _ _ Hpath), Hparse.
    cbn [bind fst snd]. rewrite Hc. cbn [negb].
    unfold bind in Hcfg |- *. rewrite Hcfg.
    cbn [stub_fetch env]. unfold Session.stub. rewrite Hf. reflexivity. }
  split; [exact Hst|]. split; [reflexivity|].
  unfold content_type, request_count, reused, request_id_header.
  rewrite !decorate_headers by (vm_compute; discriminate).
  split; [exact Hct|]. split; [exact Hn|]. split; [exact Hu|].
  split; [apply request_id_on_render|].
  unfold decorate. cbn [headers].
  destruct (isDebug env).
  - rewrite !get_after_set by discriminate. apply get_set_same.
  - rewrite get_after_set by discriminate. apply get_set_same.
Qed.

Lemma rendered_chart_reaches_the_caller_witness :
  exists r',
    Gateway.fetch (post_chart [])
      (mkEnv None (Session.stub 0 (engine_starts ++ chart_renders 1000)
                                (constructor 0)))
      (js "id-1") 0 1100
    = Return r'
    /\ status r' = 200
    /\ Http.body r' = [137; 80; 78; 71]%N
    /\ content_type r' = Some (js "image/png")
    /\ request_count r' = Some (js "1")
    /\ reused r' = Some (js "false")
    /\ request_id_header r' = Some (js "id-1")
    /\ headers_get (headers r') (js "X-Worker-Time") = Some (js "1100").
Proof.
  assert (E : exists chartConfig s' r,
             chart_config (post_chart []) = Return chartConfig
             /\ Session.fetch (doRequest chartConfig) 0
                  (engine_starts ++ chart_renders 1000) (constructor 0)
                = Some (s', Return r)
             /\ Http.body r = [137; 80; 78; 71]%N)
    by (do 3 eexists; split; [vm_compute; reflexivity|];
        split; [vm_compute; reflexivity|]; vm_compute; reflexivity).
  destruct E as (chartConfig & s' & r & E1 & E2 & E3).
  assert (P : parseChartParameters (post_chart [])
              = Return (Some bar_chart,
                        mkOptions None None None (Some (VStr (js "url")))))
    by (vm_compute; reflexivity).
  destruct (@rendered_chart_reaches_the_caller (post_chart []) _ _ chartConfig
              None (js "id-1") 0 1100 0 _ (constructor 0) s' r
              eq_refl P eq_refl E1 E2)
    as (r' & H & Hs & Hb & Hrest).
  exists r'. split; [exact H|]. split; [exact Hs|].
  split; [now rewrite Hb|]. exact Hrest.
Defined.

(** ** The three transports *)

Lemma bind_ext (A B : Type) (m : outcome A) (k1 k2 : A -> outcome B) :
  (forall a, k1 a = k2 a) -> bind m k1 = bind m k2.
Proof. intros H. destruct m; simpl; auto. Qed.

(** [applyChartOptions] reads of its options only whether the width and
    the height are truthy, what [parseInt] makes of them, and the
    background colour when it is truthy. *)
Lemma applyChartOptions_ext c o1 o2 :
  truthy (width o1) = truthy (width o2) ->
  parseInt (width o1) = parseInt (width o2) ->
  truthy (height o1) = truthy (height o2) ->
  parseInt (height o1) = parseInt (height o2) ->
  truthy (backgroundColor o1) = false ->
  truthy (backgroundColor o2) = false ->
  applyChartOptions c o1 = applyChartOptions c o2.
Proof.
  intros Hw Pw Hh Ph B1 B2. unfold applyChartOptions.
  rewrite Hw, Pw, Hh, Ph.
  repeat (apply bind_ext; intros ?).
  destruct (backgroundColor o1) as [c1|], (backgroundColor o2) as [c2|];
    rewrite ?B1, ?B2; reflexivity.
Qed.

Lemma truthy_stringify v : truthy (Some (VStr (stringify v))) = true.
Proof.
  pose proof (stringify_nonempty v) as H. cbn [truthy].
  destruct (stringify v); [simpl in H; lia | reflexivity].
Qed.

Lemma post_parameters ps w h :
  chart_spec (VObj ps) = true -> w <> 0 -> h <> 0 ->
  parseChartParameters (by_post (VObj ps) w h)
  = Return (Some (VObj ps),
            mkOptions (Some (VNum (Int w))) (Some (VNum (Int h))) None
                      (Some (VStr (js "url")))).
Proof.
  intros Hs Hw Hh. unfold parseChartParameters, by_post.
  cbn [method Normalizer.body].
  replace (str_eqb (js "POST") (js "POST")) with true by reflexivity.
  unfold request_json. cbn [Normalizer.body].
  set (b := VObj [(js "chart", VObj ps); (js "w", VNum (Int w));
                  (js "h", VNum (Int h))]).
  assert (Hb : chart_spec b = true).
  { unfold chart_spec in Hs |- *. apply andb_true_iff in Hs as [Hd Hf].
    subst b. cbn [distinct_keys finite forallb map fst snd] in Hd, Hf |- *.
    rewrite Hd, Hf. reflexivity. }
  rewrite (parse_stringify_spec b Hb). subst b. cbn [bind get].
  replace (lookup _ (js "c")) with (@None value) by reflexivity.
  replace (lookup _ (js "chart")) with (Some (VObj ps)) by reflexivity.
  replace (lookup _ (js "w")) with (Some (VNum (Int w))) by reflexivity.
  replace (lookup _ (js "width")) with (@None value) by reflexivity.
  replace (lookup _ (js "h")) with (Some (VNum (Int h))) by reflexivity.
  replace (lookup _ (js "height")) with (@None value) by reflexivity.
  replace (lookup _ (js "backgroundColor")) with (@None value) by reflexivity.
  replace (lookup _ (js "bkg")) with (@None value) by reflexivity.
  replace (lookup _ (js "encoding")) with (@None value) by reflexivity.
  cbn [bind]. unfold or. rewrite !truthy_number.
  replace (w =? 0) with false by (symmetry; now apply Z.eqb_neq).
  replace (h =? 0) with false by (symmetry; now apply Z.eqb_neq).
  reflexivity.
Qed.

Lemma query_parameters chart w h :
  parseChartParameters (by_query chart w h)
  = Return (Some (VStr (stringify chart)),
            mkOptions (Some (VStr (Z_chars w))) (Some (VStr (Z_chars h)))
                      (Some VNull) (Some (VStr (js "url")))).
Proof.
  unfold parseChartParameters, by_query. cbn [method searchParams].
  replace (str_eqb (js "GET") (js "POST")) with false by reflexivity.
  replace (str_eqb (js "GET") (js "GET")) with true by reflexivity.
  replace (params_get _ (js "c"))
    with (Some (VStr (stringify chart))) by reflexivity.
  replace (params_get _ (js "w")) with (Some (VStr (Z_chars w))) by reflexivity.
  replace (params_get _ (js "h")) with (Some (VStr (Z_chars h))) by reflexivity.
  replace (params_get _ (js "backgroundColor")) with (Some VNull) by reflexivity.
  replace (params_get _ (js "bkg")) with (Some VNull) by reflexivity.
  replace (params_get _ (js "encoding")) with (Some VNull) by reflexivity.
  unfold or. rewrite truthy_stringify, !truthy_text. reflexivity.
Qed.

Lemma base64_parameters chart w h :
  parseChartParameters (by_base64 chart w h)
  = Return (Some (VStr (encode (stringify chart))),
            mkOptions (Some (VStr (Z_chars w))) (Some (VStr (Z_chars h)))
                      (Some VNull) (Some (VStr (js "base64")))).
Proof.
  unfold parseChartParameters, by_base64. cbn [method searchParams].
  replace (str_eqb (js "GET") (js "POST")) with false by reflexivity.
  replace (str_eqb (js "GET") (js "GET")) with true by reflexivity.
  replace (params_get _ (js "c"))
    with (Some (VStr (encode (stringify chart)))) by reflexivity.
  replace (params_get _ (js "w")) with (Some (VStr (Z_chars w))) by reflexivity.
  replace (params_get _ (js "h")) with (Some (VStr (Z_chars h))) by reflexivity.
  replace (params_get _ (js "backgroundColor")) with (Some VNull) by reflexivity.
  replace (params_get _ (js "bkg")) with (Some VNull) by reflexivity.
  replace (params_get _ (js "encoding"))
    with (Some (VStr (js "base64"))) by reflexivity.
  unfold or. rewrite !truthy_text.
  destruct (truthy (Some (VStr (encode (stringify chart))))) eqn:E.
  - reflexivity.
  - exfalso. pose proof (stringify_nonempty chart) as H.
    destruct (stringify chart) as [|c0 [|c1 [|c2 r]]]; simpl in H;
      [lia|discriminate E..].
Qed.

(** X18. The three requests of [test.js] for one chart, with the same non-zero
    width and height, give the Durable Object the same chart
    configuration: the chart with [options.width] and [options.height]
    set.  The numbers of the chart, the width and the height are integers
    of magnitude below 2^53, and the base64 request needs a chart whose
    JSON text stays within Latin-1. *)
Theorem transports_agree ps w h :
  chart_spec (VObj ps) = true ->
  exact (VObj ps) = true ->
  latin1 (stringify (VObj ps)) = true ->
  safe_integer w = true -> safe_integer h = true ->
  w <> 0 -> h <> 0 ->
  let sent :=
    applyChartOptions (Some (VObj ps))
      (mkOptions (Some (VNum (Int w))) (Some (VNum (Int h))) None
                 (Some (VStr (js "url")))) in
  chart_config (by_post (VObj ps) w h) = sent
  /\ chart_config (by_query (VObj ps) w h) = sent
  /\ chart_config (by_base64 (VObj ps) w h) = sent.
Proof.
  intros Hs _ Hl _ _ Hw Hh sent. subst sent. unfold chart_config.
  rewrite (@post_parameters ps w h Hs Hw Hh), query_parameters,
    base64_parameters.
  cbn [bind fst snd encoding].
  split; [reflexivity|]. split.
  - unfold decodeChartConfig. cbn [is_base64].
    replace (str_eqb (js "url") (js "base64")) with false by reflexivity.
    unfold parse. cbn [toString toString_value].
    rewrite (parse_stringify_spec (VObj ps) Hs). cbn [bind].
    apply applyChartOptions_ext; cbn [width height backgroundColor];
      rewrite ?truthy_text, ?truthy_number, ?parseInt_text, ?parseInt_number;
      try reflexivity.
    + symmetry. apply negb_true_iff. now apply Z.eqb_neq.
    + symmetry. apply negb_true_iff. now apply Z.eqb_neq.
  - unfold decodeChartConfig. cbn [is_base64].
    replace (str_eqb (js "base64") (js "base64")) with true by reflexivity.
    pose proof (atob_btoa (stringify (VObj ps)) Hl) as H.
    unfold btoa in H. rewrite Hl in H. cbn [bind] in H. rewrite H. cbn [bind].
    unfold parse. cbn [toString toString_value].
    rewrite (parse_stringify_spec (VObj ps) Hs). cbn [bind].
    apply applyChartOptions_ext; cbn [width height backgroundColor];
      rewrite ?truthy_text, ?truthy_number, ?parseInt_text, ?parseInt_number;
      try reflexivity.
    + symmetry. apply negb_true_iff. now apply Z.eqb_neq.
    + symmetry. apply negb_true_iff. now apply Z.eqb_neq.
Qed.

Lemma transports_agree_witness :
  exists sent,
    chart_config (by_post bar_chart 400 250) = Return sent
    /\ chart_config (by_query bar_chart 400 250) = Return sent
    /\ chart_config (by_base64 bar_chart 400 250) = Return sent.
Proof.
  assert (E : exists sent,
             applyChartOptions (Some bar_chart)
               (mkOptions (Some (VNum (Int 400))) (Some (VNum (Int 250))) None
                          (Some (VStr (js "url"))))
             = Return sent)
    by (eexists; vm_compute; reflexivity).
  destruct E as (sent & E). exists sent. rewrite <- E.
  exact (@transports_agree
           (match bar_chart with VObj ps => ps | _ => [] end) 400 250
           ltac:(vm_compute; reflexivity) ltac:(vm_compute; reflexivity)
           ltac:(vm_compute; reflexivity) ltac:(vm_compute; reflexivity)
           ltac:(vm_compute; reflexivity)
           ltac:(discriminate) ltac:(discriminate)).
Defined.

(** ** Dimensions that are no numbers *)

(** X19. A width and a height that are truthy but begin with no digits, such
    as [abc], are not refused: [parseInt] makes [NaN] of them, which
    replaces the chart's own dimensions and reaches the Durable Object as
    [null], so that the viewport is the default 500 x 300 whatever the
    chart asked for itself. *)
Theorem unparsable_dimensions_give_the_default request chart options ps os :
  pathname request = js "/chart" ->
  parseChartParameters request = Return (chart, options) ->
  decodeChartConfig chart (encoding options) = Return (Some (VObj ps)) ->
  distinct_keys (VObj ps) = true ->
  as_map (lookup ps (js "options")) = Some os ->
  (truthy (backgroundColor options) = true ->
   as_map (lookup os (js "plugins")) <> None) ->
  (forall c, backgroundColor options = Some c -> distinct_keys c = true) ->
  truthy (width options) = true -> parseInt (width options) = NaN ->
  truthy (height options) = true -> parseInt (height options) = NaN ->
  requested_viewport request = Return (Int 500, Int 300).
Proof.
  intros Hpath Hparse Hdecode Hd Hos Hpl Hbg Tw Pw Th Ph.
  destruct (@applyChartOptions_result ps options os Hos Hpl)
    as (ps' & os' & Happly & _ & Hopt & _ & Hwidth & Hheight & _ & Hdist).
  specialize (Hdist Hd Hbg).
  rewrite Tw, Pw in Hwidth. rewrite Th, Ph in Hheight.
  unfold requested_viewport. rewrite Hparse. cbn [bind fst snd].
  rewrite Hdecode. cbn [bind]. rewrite Happly. cbn [bind].
  rewrite (forwarded_chart ps' _ _ Hdist).
  rewrite (viewport_of_forwarded ps' os' 500 300 Hopt).
  - reflexivity.
  - rewrite Hwidth. reflexivity.
  - rewrite Hheight. reflexivity.
Qed.

Lemma unparsable_dimensions_give_the_default_witness :
  requested_viewport get_large_unparsable = Return (Int 500, Int 300).
Proof.
  assert (P : parseChartParameters get_large_unparsable
              = Return (Some (VStr (stringify large_chart)),
                        mkOptions (Some (VStr (js "abc")))
                                  (Some (VStr (js "wide"))) (Some VNull)
                                  (Some (VStr (js "url")))))
    by (vm_compute; reflexivity).
  exact (@unparsable_dimensions_give_the_default get_large_unparsable _ _
           (match large_chart with VObj ps => ps | _ => [] end)
           [(js "width", VNum (Int 800)); (js "height", VNum (Int 600))]
           eq_refl P ltac:(vm_compute; reflexivity) eq_refl eq_refl
           ltac:(intros H; discriminate H)
           ltac:(intros c H; injection H as <-; reflexivity)
           eq_refl eq_refl eq_refl eq_refl).
Defined.

(** ** What a request's method lets through *)

(** X20. The query string of a request is read when its method is GET and
    then only, and its body when its method is POST and then only: in
    every other case they can be replaced by anything without changing
    the answer. *)
Theorem query_is_for_get_and_body_for_post
  m path params params' text text' env requestId t0 t1 :
  Gateway.fetch (mkRequest m path params text) env requestId t0 t1
  = Gateway.fetch
      (mkRequest m path
         (if str_eqb m (js "GET") then params else params')
         (if str_eqb m (js "POST") then text else text'))
      env requestId t0 t1.
Proof.
  unfold Gateway.fetch, route, parseChartParameters, request_json.
  cbn [pathname method searchParams Normalizer.body].
  destruct (str_eqb m (js "POST")), (str_eqb m (js "GET")); reflexivity.
Qed.

End GatewayExtras.

Module DimensionText.
Import JS JSON JSONText Http Normalizer Gateway Session Shape Pipeline Transport.
Import Exact.
Import Examples PipelineExamples GatewayExamples.
Import NormalizerProperties JSONProperties PipelineProperties.
Local Open Scope Z_scope.
Local Unset Implicit Arguments.

Lemma read_digits_prefix d rest :
  no_digit_ahead rest -> read_digits (uint_chars d ++ rest) = (d, rest).
Proof.
  intros Hr. induction d; simpl; try (rewrite IHd; reflexivity).
  destruct rest as [|c r]; [reflexivity|]. simpl. simpl in Hr.
  now rewrite Hr.
Qed.

Lemma trim_start_digits d rest :
  d <> Decimal.Nil ->
  trim_start (uint_chars d ++ rest) = uint_chars d ++ rest.
Proof. destruct d; try contradiction; reflexivity. Qed.

Lemma parseInt_prefix n rest :
  no_digit_ahead rest ->
  parseInt (Some (VStr (Z_chars n ++ rest))) = Int n.
Proof.
  intros Hr. unfold parseInt. cbn [toString toString_value]. cbv zeta.
  unfold Z_chars.
  destruct (to_uint_shape (Z.abs_N n)) as [Hn _].
  pose proof (DecimalN.Unsigned.of_to (Z.abs_N n)) as Hof.
  destruct (n <? 0) eqn:E.
  - cbn [app trim_start is_white].
    rewrite read_digits_prefix by exact Hr. rewrite Hof.
    apply Z.ltb_lt in E.
    destruct (N.to_uint (Z.abs_N n)); try contradiction; f_equal; lia.
  - apply Z.ltb_ge in E. rewrite trim_start_digits by exact Hn.
    pose proof (read_digits_prefix (N.to_uint (Z.abs_N n)) rest Hr) as Hp.
    destruct (N.to_uint (Z.abs_N n)) eqn:Ed; try contradiction;
      cbn [uint_chars app] in Hp |- *; rewrite Hp, Hof; f_equal; lia.
Qed.

Lemma truthy_prefix n rest : truthy (Some (VStr (Z_chars n ++ rest))) = true.
Proof.
  pose proof (truthy_text n) as H. cbn [truthy] in H |- *.
  destruct (Z_chars n); [discriminate H | reflexivity].
Qed.

Lemma floored_resolved default n :
  100 <= default ->
  exists a,
    toNumber (or (option_map scrub (Some (VNum (Int n))))
                 (Some (VNum (Int default)))) = Some (Int a)
    /\ Z.max a 100 = floored default n.
Proof.
  intros Hd. unfold floored, or. cbn [option_map scrub].
  rewrite truthy_number. destruct (n =? 0); cbn [negb toNumber].
  - exists default. split; [reflexivity | lia].
  - exists n. split; reflexivity.
Qed.

(** X21. A width and a height given as text are read by [parseInt]: the
    leading integer counts and whatever follows it is dropped, so that
    [400px] is 400 and [12.5] is 12.  The integer replaces the chart's own
    dimension; the viewport has it floored at 100, or the default when it
    is 0.  The leading integers and the numbers of the chart are of
    magnitude below 2^53. *)
Theorem dimension_text_is_read_by_its_leading_integer
  request chart options ps os n rw m rh :
  pathname request = js "/chart" ->
  parseChartParameters request = Return (chart, options) ->
  decodeChartConfig chart (encoding options) = Return (Some (VObj ps)) ->
  distinct_keys (VObj ps) = true ->
  as_map (lookup ps (js "options")) = Some os ->
  (truthy (backgroundColor options) = true ->
   as_map (lookup os (js "plugins")) <> None) ->
  (forall c, backgroundColor options = Some c -> distinct_keys c = true) ->
  width options = Some (VStr (Z_chars n ++ rw)) -> no_digit_ahead rw ->
  height options = Some (VStr (Z_chars m ++ rh)) -> no_digit_ahead rh ->
  exact (VObj ps) = true ->
  safe_integer n = true -> safe_integer m = true ->
  requested_viewport request
  = Return (Int (floored 500 n), Int (floored 300 m)).
Proof.
  intros Hpath Hparse Hdecode Hd Hos Hpl Hbg Ew Hrw Eh Hrh _ _ _.
  destruct (@applyChartOptions_result ps options os Hos Hpl)
    as (ps' & os' & Happly & _ & Hopt & _ & Hwidth & Hheight & _ & Hdist).
  specialize (Hdist Hd Hbg).
  rewrite Ew, truthy_prefix, (parseInt_prefix n rw Hrw) in Hwidth.
  rewrite Eh, truthy_prefix, (parseInt_prefix m rh Hrh) in Hheight.
  destruct (floored_resolved 500 n ltac:(lia)) as (w & Hw1 & Hw2).
  destruct (floored_resolved 300 m ltac:(lia)) as (h & Hh1 & Hh2).
  unfold requested_viewport. rewrite Hparse. cbn [bind fst snd].
  rewrite Hdecode. cbn [bind]. rewrite Happly. cbn [bind].
  rewrite (forwarded_chart ps' _ _ Hdist).
  rewrite (viewport_of_forwarded ps' os' w h Hopt).
  - now rewrite Hw2, Hh2.
  - now rewrite Hwidth.
  - now rewrite Hheight.
Qed.

Lemma dimension_text_is_read_by_its_leading_integer_witness :
  requested_viewport get_large_suffixed = Return (Int 400, Int 100).
Proof.
  assert (P : parseChartParameters get_large_suffixed
              = Return (Some (VStr (stringify large_chart)),
                        mkOptions (Some (VStr (js "400px")))
                                  (Some (VStr (js "12.5"))) (Some VNull)
                                  (Some (VStr (js "url")))))
    by (vm_compute; reflexivity).
  exact (dimension_text_is_read_by_its_leading_integer get_large_suffixed _ _
           (match large_chart with VObj ps => ps | _ => [] end)
           [(js "width", VNum (Int 800)); (js "height", VNum (Int 600))]
           400 (js "px") 12 (js ".5")
           eq_refl P ltac:(vm_compute; reflexivity) eq_refl eq_refl
           ltac:(intros H; discriminate H)
           ltac:(intros c H; injection H as <-; reflexivity)
           eq_refl eq_refl eq_refl eq_refl eq_refl eq_refl eq_refl).
Defined.

End DimensionText.
